(** * CuraStackBuilder: creation of a machine and its extruder stacks

    A shallow embedding of [cura/Settings/CuraStackBuilder.py].  The builder
    is imperative: it allocates stack objects, mutates them through
    references, reads and extends the process-wide container registry, and
    raises exceptions.  It is embedded in a state-and-exception monad whose
    state also remembers every earlier state, so that statements of the form
    "at the moment X happens, Y already holds" can be stated and proved. *)

From Stdlib Require Import ZArith QArith Qround Qabs Ascii String Decimal DecimalNat
  DecimalString Lia Lqa.
From stdpp Require Import base option list strings.

Open Scope string_scope.
Open Scope list_scope.

(** ** Python values found in metadata *)

Inductive PyVal :=
| VNone
| VBool (b : bool)
| VInt (n : Z)
| VStr (s : string)
| VDict (d : list (string * string)).

(** Python truthiness, as used by [if variant_name:]. *)
Definition truthy (v : PyVal) : bool :=
  match v with
  | VNone => false
  | VBool b => b
  | VInt n => negb (n =? 0)%Z
  | VStr s => negb (String.eqb s "")
  | VDict d => match d with [] => false | _ => true end
  end.

(** [v != s] where [s] is a [str]: a value of another type never equals a
    string. *)
Definition py_ne_str (v : PyVal) (s : string) : bool :=
  match v with
  | VStr t => negb (String.eqb t s)
  | _ => true
  end.

(** Association lists stand for Python dicts with string keys; the first
    binding of a key is the one a dict would hold. *)
Fixpoint assoc {V : Type} (k : string) (d : list (string * V)) : option V :=
  match d with
  | [] => None
  | (k', v) :: d' => if String.eqb k k' then Some v else assoc k d'
  end.

(** [round(x)] on a float without [ndigits]: the nearest integer, ties going
    to the even one.  A finite float is a rational and Python rounds its
    exact value, so the rational model loses nothing. *)
Definition py_round (x : Q) : Z :=
  let f := Qfloor x in
  let r := (x - inject_Z f)%Q in
  match (r ?= 1 # 2)%Q with
  | Lt => f
  | Gt => (f + 1)%Z
  | Eq => if Z.even f then f else (f + 1)%Z
  end.

(** [str(n)] for an [int]. *)
Definition py_str_int (n : Z) : string := NilZero.string_of_int (Z.to_int n).

(** ** Containers *)

Abbreviation loc := nat.

Record InstanceContainer := mkInstanceContainer {
  ic_id : string;
  ic_definition : option string;
  ic_metadata : list (string * PyVal)
}.

Record DefinitionContainer := mkDefinitionContainer {
  def_id : string;
  def_name : string;
  def_metadata : list (string * PyVal);
  def_settings : list (string * Q)
}.

(** [container.getMetaDataEntry(key, default)] *)
Definition lookup_meta (md : list (string * PyVal)) (key : string) (default : PyVal) : PyVal :=
  match assoc key md with Some v => v | None => default end.

Definition getMetaDataEntry (d : DefinitionContainer) (key : string) (default : PyVal) : PyVal :=
  lookup_meta (def_metadata d) key default.

(** [definition.getProperty(key, "value")] *)
Definition getProperty (d : DefinitionContainer) (key : string) : option Q :=
  assoc key (def_settings d).

(** [InstanceContainer(container_id)] *)
Definition new_InstanceContainer (container_id : string) : InstanceContainer :=
  mkInstanceContainer container_id None [].

Definition ic_setDefinition (definition_id : string) (c : InstanceContainer) : InstanceContainer :=
  mkInstanceContainer (ic_id c) (Some definition_id) (ic_metadata c).

(** [addMetaDataEntry(key, value)] adds the entry when the key is new. *)
Definition add_meta (key : string) (value : PyVal) (md : list (string * PyVal))
  : list (string * PyVal) :=
  match assoc key md with
  | Some _ => md
  | None => md ++ [(key, value)]
  end.

Definition ic_addMetaDataEntry (key : string) (value : PyVal) (c : InstanceContainer)
  : InstanceContainer :=
  mkInstanceContainer (ic_id c) (ic_definition c) (add_meta key value (ic_metadata c)).

(** Variant, material and quality nodes of the collaborators: all one needs
    of them is [getContainer()]. *)
Record ContainerNode := mkNode { getContainer : InstanceContainer }.

(** Modelled from the spec: the QualityGroup type (cura/Machines), "a
    global-level quality Container and a mapping from extruder position to
    that position's quality Container". *)
Record QualityGroup := mkQualityGroup {
  node_for_global : ContainerNode;
  nodes_for_extruders : list (string * ContainerNode)
}.

(** ** Stacks *)

Inductive Slot :=
| UserChanges | QualityChanges | Quality | Material | Variant | DefinitionChanges.

Record CuraContainerStack := mkStack {
  stack_id : string;
  stack_name : string;
  stack_metadata : list (string * PyVal);
  definition : option DefinitionContainer;
  userChanges : InstanceContainer;
  qualityChanges : InstanceContainer;
  quality : InstanceContainer;
  material : InstanceContainer;
  variant : InstanceContainer;
  definitionChanges : InstanceContainer
}.

(** A stack object on the heap.  A global stack owns the map from position
    to extruder stack; an extruder stack holds the back-reference to its
    global stack. *)
Inductive StackObj :=
| GlobalStack (base : CuraContainerStack) (extruders : list (string * loc))
| ExtruderStack (base : CuraContainerStack) (nextStack : option loc).

Definition stack_base (o : StackObj) : CuraContainerStack :=
  match o with GlobalStack b _ => b | ExtruderStack b _ => b end.

Definition set_base (f : CuraContainerStack -> CuraContainerStack) (o : StackObj) : StackObj :=
  match o with
  | GlobalStack b x => GlobalStack (f b) x
  | ExtruderStack b n => ExtruderStack (f b) n
  end.

Definition with_name (n : string) (b : CuraContainerStack) : CuraContainerStack :=
  mkStack (stack_id b) n (stack_metadata b) (definition b) (userChanges b)
    (qualityChanges b) (quality b) (material b) (variant b) (definitionChanges b).

Definition with_definition (d : DefinitionContainer) (b : CuraContainerStack)
  : CuraContainerStack :=
  mkStack (stack_id b) (stack_name b) (stack_metadata b) (Some d) (userChanges b)
    (qualityChanges b) (quality b) (material b) (variant b) (definitionChanges b).

Definition with_meta (key : string) (value : PyVal) (b : CuraContainerStack)
  : CuraContainerStack :=
  mkStack (stack_id b) (stack_name b) (add_meta key value (stack_metadata b)) (definition b)
    (userChanges b) (qualityChanges b) (quality b) (material b) (variant b)
    (definitionChanges b).

Definition with_slot (sl : Slot) (c : InstanceContainer) (b : CuraContainerStack)
  : CuraContainerStack :=
  match sl with
  | UserChanges =>
      mkStack (stack_id b) (stack_name b) (stack_metadata b) (definition b) c
        (qualityChanges b) (quality b) (material b) (variant b) (definitionChanges b)
  | QualityChanges =>
      mkStack (stack_id b) (stack_name b) (stack_metadata b) (definition b) (userChanges b)
        c (quality b) (material b) (variant b) (definitionChanges b)
  | Quality =>
      mkStack (stack_id b) (stack_name b) (stack_metadata b) (definition b) (userChanges b)
        (qualityChanges b) c (material b) (variant b) (definitionChanges b)
  | Material =>
      mkStack (stack_id b) (stack_name b) (stack_metadata b) (definition b) (userChanges b)
        (qualityChanges b) (quality b) c (variant b) (definitionChanges b)
  | Variant =>
      mkStack (stack_id b) (stack_name b) (stack_metadata b) (definition b) (userChanges b)
        (qualityChanges b) (quality b) (material b) c (definitionChanges b)
  | DefinitionChanges =>
      mkStack (stack_id b) (stack_name b) (stack_metadata b) (definition b) (userChanges b)
        (qualityChanges b) (quality b) (material b) (variant b) c
  end.

Definition slot (sl : Slot) (b : CuraContainerStack) : InstanceContainer :=
  match sl with
  | UserChanges => userChanges b
  | QualityChanges => qualityChanges b
  | Quality => quality b
  | Material => material b
  | Variant => variant b
  | DefinitionChanges => definitionChanges b
  end.

(** The [type] tag a container must carry to sit in a slot. *)
Definition slot_type (sl : Slot) : string :=
  match sl with
  | UserChanges => "user"
  | QualityChanges => "quality_changes"
  | Quality => "quality"
  | Material => "material"
  | Variant => "variant"
  | DefinitionChanges => "definition_changes"
  end.

Definition type_agrees (sl : Slot) (c : InstanceContainer) : bool :=
  negb (py_ne_str (lookup_meta (ic_metadata c) "type" VNone) (slot_type sl)).

(** ** The registry, the heap and the recorded events *)

Inductive Entity :=
| EDefinition (d : DefinitionContainer)
| EInstance (c : InstanceContainer)
| EStack (l : loc).

Inductive Event :=
| EvLog (level message : string) (fields : list (string * string))
| EvGetVariantNode (definition_id : string) (variant_name : PyVal)
| EvGetRootMaterialIDForDiameter (root_material_id : PyVal) (approximate_diameter : string)
| EvGetMaterialNode (definition_id : string) (variant_name : PyVal) (diameter : Q)
    (root_material_id : PyVal)
| EvGetQualityGroups (global_stack : loc).

(** The registry lists its entities in the order they were added; the heap
    holds the stack objects, a reference being an index into it; [events]
    records, oldest first, the log lines written and the collaborators
    consulted. *)
Record State := mkState {
  heap : list StackObj;
  registry : list Entity;
  events : list Event
}.

Inductive Exception :=
| RuntimeError (message : string) (args : list PyVal)
| IndexError
| KeyError
| TypeError
| AttributeError
| DuplicateIdError (id : string)
| DuplicatePositionError (position : string)
| InvalidContainerError (sl : Slot).

(** ** The collaborators *)

(** CuraApplication with its empty containers and its variant, material and
    quality managers, and UM.Util.parseBool: none of them is part of the
    builder, which only calls them, so they are parameters. *)

Record Application := mkApplication {
  empty_instance_container : InstanceContainer;
  empty_variant_container : InstanceContainer;
  empty_material_container : InstanceContainer;
  empty_quality_container : InstanceContainer;
  empty_quality_changes_container : InstanceContainer;
  SettingVersion : Z;
  parseBool : PyVal -> bool;
  getVariantNode : string -> PyVal -> option ContainerNode;
  getRootMaterialIDForDiameter : PyVal -> string -> PyVal;
  getMaterialNode : string -> PyVal -> Q -> PyVal -> option ContainerNode;
  getQualityGroups : State -> loc -> list (string * QualityGroup)
}.

(** ** The monad: state with history, and exceptions *)

Record Trace := mkTrace {
  now : State;
  past : list State
}.

(** Every state the run has been in, the latest first. *)
Definition visited (tr : Trace) : list State := now tr :: past tr.

Inductive Outcome (A : Type) :=
| Return (a : A)
| Raise (e : Exception).
Arguments Return {A} a.
Arguments Raise {A} e.

Definition M (A : Type) : Type := Trace -> Outcome A * Trace.

#[global] Instance M_ret : MRet M := fun A a tr => (Return a, tr).

#[global] Instance M_bind : MBind M := fun A B k m tr =>
  match m tr with
  | (Return a, tr') => k a tr'
  | (Raise e, tr') => (Raise e, tr')
  end.

Definition raise {A : Type} (e : Exception) : M A := fun tr => (Raise e, tr).

Definition get_state : M State := fun tr => (Return (now tr), tr).

(** The one way the state changes: the old state goes to the history. *)
Definition update (f : State -> State) : M unit :=
  fun tr => (Return tt, mkTrace (f (now tr)) (now tr :: past tr)).

Definition run {A : Type} (m : M A) (st : State) : Outcome A * Trace :=
  m (mkTrace st []).

(** [for x in items: body(x)] *)
Fixpoint for_each {A : Type} (items : list A) (body : A -> M unit) : M unit :=
  match items with
  | [] => mret tt
  | x :: rest => body x ≫= fun _ => for_each rest body
  end.

(** ** Heap operations *)

Definition set_heap (h : list StackObj) (st : State) : State :=
  mkState h (registry st) (events st).

Definition set_registry (r : list Entity) (st : State) : State :=
  mkState (heap st) r (events st).

Definition set_events (e : list Event) (st : State) : State :=
  mkState (heap st) (registry st) e.

(** A new object; its reference is the next free index. *)
Definition alloc (o : StackObj) : M loc :=
  fun tr =>
    (Return (length (heap (now tr))),
     mkTrace (set_heap (heap (now tr) ++ [o]) (now tr)) (now tr :: past tr)).

(** Reading through a reference. *)
Definition deref (l : loc) : M StackObj :=
  fun tr =>
    match heap (now tr) !! l with
    | Some o => (Return o, tr)
    | None => (Raise AttributeError, tr)
    end.

(** In-place mutation of the object behind a reference. *)
Definition mutate (l : loc) (f : StackObj -> Outcome StackObj) : M unit :=
  fun tr =>
    match heap (now tr) !! l with
    | Some o =>
        match f o with
        | Return o' =>
            (Return tt,
             mkTrace (set_heap (<[l := o']> (heap (now tr))) (now tr)) (now tr :: past tr))
        | Raise e => (Raise e, tr)
        end
    | None => (Raise AttributeError, tr)
    end.

(** A collaborator call or a log line, recorded in [events]. *)
Definition emit (ev : Event) : M unit :=
  update (fun st => set_events (events st ++ [ev]) st).

(** [stack.setName(name)] *)
Definition setName (l : loc) (name : string) : M unit :=
  mutate l (fun o => Return (set_base (with_name name) o)).

(** [stack.setDefinition(definition)] *)
Definition setDefinition (l : loc) (d : DefinitionContainer) : M unit :=
  mutate l (fun o => Return (set_base (with_definition d) o)).

(** [stack.addMetaDataEntry(key, value)] *)
Definition addMetaDataEntry (l : loc) (key : string) (value : PyVal) : M unit :=
  mutate l (fun o => Return (set_base (with_meta key value) o)).

(** Modelled from the spec: the slot setters of CuraContainerStack
    ([stack.variant = c] and the like).  The assignment replaces the slot's
    reference and leaves the registry alone; a container whose [type]
    disagrees with the slot is signalled. *)
Definition assign (l : loc) (sl : Slot) (c : InstanceContainer) : M unit :=
  if type_agrees sl c
  then mutate l (fun o => Return (set_base (with_slot sl c) o))
  else raise (InvalidContainerError sl).

(** Modelled from the spec: ExtruderStack.setNextStack, which sets the
    non-owning back-reference to the global stack. *)
Definition setNextStack (l : loc) (global : loc) : M unit :=
  mutate l (fun o =>
    match o with
    | ExtruderStack b _ => Return (ExtruderStack b (Some global))
    | GlobalStack _ _ => Raise AttributeError
    end).

(** Modelled from the spec: GlobalStack.addExtruder, which files the
    extruder stack under its declared position, fails with
    DuplicatePositionError when the position is occupied, and sets the
    extruder's back-reference.  Positions are string-encoded; a declared
    position that is not a string is rejected.  The spec has the map iterate
    by position; here it keeps the extruders in the order in which they
    were added, which is that of machine_extruder_trains. *)
Definition addExtruder (global : loc) (extruder : loc) : M unit :=
  e ← deref extruder;
  match lookup_meta (stack_metadata (stack_base e)) "position" VNone with
  | VStr position =>
      g ← deref global;
      match g with
      | GlobalStack gb xs =>
          match assoc position xs with
          | Some _ => raise (DuplicatePositionError position)
          | None =>
              fun tr =>
                match e with
                | ExtruderStack eb _ =>
                    (Return tt,
                     mkTrace
                       (set_heap
                          (<[extruder := ExtruderStack eb (Some global)]>
                             (<[global := GlobalStack gb (xs ++ [(position, extruder)])]>
                                (heap (now tr))))
                          (now tr))
                       (now tr :: past tr))
                | GlobalStack _ _ => (Raise AttributeError, tr)
                end
          end
      | ExtruderStack _ _ => raise AttributeError
      end
  | _ => raise TypeError
  end.

(** ** ContainerRegistry *)

Definition entity_id (h : list StackObj) (e : Entity) : option string :=
  match e with
  | EDefinition d => Some (def_id d)
  | EInstance c => Some (ic_id c)
  | EStack l => (fun o => stack_id (stack_base o)) <$> h !! l
  end.

(** The display name of an entity that has one. *)
Definition entity_name (h : list StackObj) (e : Entity) : option string :=
  match e with
  | EDefinition d => Some (def_name d)
  | EInstance _ => None
  | EStack l => (fun o => stack_name (stack_base o)) <$> h !! l
  end.

Definition is_stack (e : Entity) : bool :=
  match e with EStack _ => true | _ => false end.

Definition opt_is (o : option string) (s : string) : bool :=
  match o with Some t => String.eqb t s | None => false end.

Definition has_id (st : State) (id : string) (e : Entity) : bool :=
  opt_is (entity_id (heap st) e) id.

(** Modelled from the spec: findDefinitionContainers(id = ...), a read-only
    lookup that returns the matches in order and is empty when there is
    none. *)
Definition definitions_with_id (st : State) (id : string) : list DefinitionContainer :=
  omap (fun e => match e with
                 | EDefinition d => if String.eqb (def_id d) id then Some d else None
                 | _ => None
                 end) (registry st).

Definition findDefinitionContainers (id : string) : M (list DefinitionContainer) :=
  st ← get_state; mret (definitions_with_id st id).

(** Modelled from the spec: findContainersMetadata(id = ...), the same
    lookup over every registered entity. *)
Definition entities_with_id (st : State) (id : string) : list Entity :=
  filter (fun e => has_id st id e = true) (registry st).

Definition findContainersMetadata (id : string) : M (list Entity) :=
  st ← get_state; mret (entities_with_id st id).

Definition ascii_lower (c : ascii) : ascii :=
  let n := nat_of_ascii c in
  if (65 <=? n)%nat && (n <=? 90)%nat then ascii_of_nat (n + 32) else c.

Fixpoint lower (s : string) : string :=
  match s with
  | EmptyString => EmptyString
  | String c s' => String (ascii_lower c) (lower s')
  end.

(** A name is in use when a registered entity has it as its id, or has it
    as its display name up to letter case. *)
Definition in_use (st : State) (name : string) : bool :=
  existsb (fun e => has_id st name e
                    || match entity_name (heap st) e with
                       | Some n => String.eqb (lower n) (lower name)
                       | None => false
                       end) (registry st).

(** A name is in use by a stack when a registered stack has it as its id or
    as its display name. *)
Definition in_use_by_stack (st : State) (name : string) : bool :=
  existsb (fun e => is_stack e
                    && (has_id st name e || opt_is (entity_name (heap st) e) name))
          (registry st).

Definition numbered (base : string) (i : nat) : string :=
  base +:+ " #" +:+ NilZero.string_of_uint (Nat.to_uint i).

(** "name #i", "name #(i+1)", ...: the first that is free.  [fuel] bounds
    the search; a registry of n entities blocks at most 2n names. *)
Fixpoint first_free (used : string -> bool) (base : string) (i fuel : nat) : string :=
  match fuel with
  | O => numbered base i
  | S fuel' =>
      if used (numbered base i) then first_free used base (S i) fuel' else numbered base i
  end.

Definition allocate_name (used : string -> bool) (fuel : nat) (candidate : string) : string :=
  if used candidate then first_free used candidate 2 fuel else candidate.

(** Modelled from the spec: ContainerRegistry.uniqueName, which "returns
    candidate unchanged if no existing entity uses it; otherwise appends an
    incrementing numeric suffix until free". *)
Definition uniqueName (candidate : string) : M string :=
  st ← get_state;
  mret (allocate_name (in_use st) (2 * length (registry st)) candidate).

(** Modelled from the spec: CuraContainerRegistry.createUniqueName, "if
    newName is non-empty and differs from currentName, allocate a unique
    name for it; else allocate a unique name for fallbackName"; the names it
    compares with are those of the registered stacks. *)
Definition createUniqueName (kind current_name new_name fallback_name : string) : M string :=
  st ← get_state;
  let used := in_use_by_stack st in
  let fuel := 2 * length (registry st) in
  if negb (String.eqb new_name "") && negb (String.eqb new_name current_name)
  then mret (allocate_name used fuel new_name)
  else mret (allocate_name used fuel fallback_name).

(** Modelled from the spec: ContainerRegistry.addContainer, which registers
    the entity under its id and fails with DuplicateIdError when the id is
    already present. *)
Definition addContainer (e : Entity) : M unit :=
  st ← get_state;
  match entity_id (heap st) e with
  | None => raise AttributeError
  | Some id =>
      if existsb (has_id st id) (registry st)
      then raise (DuplicateIdError id)
      else update (fun st => set_registry (registry st ++ [e]) st)
  end.

(** [Logger.log(level, message, **fields)] *)
Definition Logger_log (level message : string) (fields : list (string * string)) : M unit :=
  emit (EvLog level message fields).

(** ** CuraStackBuilder *)

Section Builder.

Variable application : Application.

(** [createUserChangesContainer(container_name, definition_id, stack_id, is_global_stack)] *)
Definition createUserChangesContainer (container_name definition_id stack_id : string)
    (is_global_stack : bool) : M InstanceContainer :=
  unique_container_name ← uniqueName container_name;
  let container := new_InstanceContainer unique_container_name in
  let container := ic_setDefinition definition_id container in
  let container := ic_addMetaDataEntry "type" (VStr "user") container in
  let container :=
    ic_addMetaDataEntry "setting_version" (VInt (SettingVersion application)) container in
  let metadata_key_to_add := if is_global_stack then "machine" else "extruder" in
  let container := ic_addMetaDataEntry metadata_key_to_add (VStr stack_id) container in
  mret container.

(** [createDefinitionChangesContainer(container_stack, container_name)] *)
Definition createDefinitionChangesContainer (container_stack : loc) (container_name : string)
  : M InstanceContainer :=
  unique_container_name ← uniqueName container_name;
  let definition_changes_container := new_InstanceContainer unique_container_name in
  stack ← deref container_stack;
  match definition (stack_base stack) with
  | None => raise AttributeError
  | Some bottom =>
      let definition_changes_container :=
        ic_setDefinition (def_id bottom) definition_changes_container in
      let definition_changes_container :=
        ic_addMetaDataEntry "type" (VStr "definition_changes") definition_changes_container in
      let definition_changes_container :=
        ic_addMetaDataEntry "setting_version" (VInt (SettingVersion application))
          definition_changes_container in
      addContainer (EInstance definition_changes_container);;
      assign container_stack DefinitionChanges definition_changes_container;;
      mret definition_changes_container
  end.

(** Modelled from the spec: the constructors of GlobalStack and
    ExtruderStack, which leave every slot with the empty sentinel container
    that "stands in for no override at this layer".  The spec does not say
    what display name and what metadata a new stack has: here the name
    starts out as the id and there is no metadata.  The names and the
    position entries that the statements below speak of are those that
    [setName] and [addMetaDataEntry] set. *)
Definition new_stack (new_stack_id : string) : CuraContainerStack :=
  let e := empty_instance_container application in
  mkStack new_stack_id new_stack_id [] None e e e e e e.

(** [createExtruderStack(new_stack_id, extruder_definition, machine_definition_id,
      position, variant_container, material_container, quality_container)] *)
Definition createExtruderStack (new_stack_id : string)
    (extruder_definition : DefinitionContainer) (machine_definition_id : string)
    (position : string)
    (variant_container material_container quality_container : InstanceContainer) : M loc :=
  stack ← alloc (ExtruderStack (new_stack new_stack_id) None);
  setName stack (def_name extruder_definition);;
  setDefinition stack extruder_definition;;
  addMetaDataEntry stack "position" (VStr position);;
  user_container ←
    createUserChangesContainer (new_stack_id +:+ "_user") machine_definition_id new_stack_id
      false;
  dc ← createDefinitionChangesContainer stack (new_stack_id +:+ "_settings");
  assign stack DefinitionChanges dc;;
  assign stack Variant variant_container;;
  assign stack Material material_container;;
  assign stack Quality quality_container;;
  assign stack QualityChanges (empty_quality_changes_container application);;
  assign stack UserChanges user_container;;
  addContainer (EInstance user_container);;
  mret stack.

(** [createGlobalStack(new_stack_id, definition, variant_container,
      material_container, quality_container)] *)
Definition createGlobalStack (new_stack_id : string) (definition : DefinitionContainer)
    (variant_container material_container quality_container : InstanceContainer) : M loc :=
  stack ← alloc (GlobalStack (new_stack new_stack_id) []);
  setDefinition stack definition;;
  user_container ←
    createUserChangesContainer (new_stack_id +:+ "_user") (def_id definition) new_stack_id
      true;
  dc ← createDefinitionChangesContainer stack (new_stack_id +:+ "_settings");
  assign stack DefinitionChanges dc;;
  assign stack Variant variant_container;;
  assign stack Material material_container;;
  assign stack Quality quality_container;;
  assign stack QualityChanges (empty_quality_changes_container application);;
  assign stack UserChanges user_container;;
  addContainer (EInstance user_container);;
  mret stack.

(** Lines 40-51 of [createMachine]: the variant container for the
    extruders, and the variant name that goes with it. *)
Definition select_variant (machine_definition : DefinitionContainer) (definition_id : string)
  : M (PyVal * InstanceContainer) :=
  let variant_container := empty_variant_container application in
  let variant_name := VNone in
  if parseBool application (getMetaDataEntry machine_definition "has_variants" (VBool false))
  then
    let variant_name := getMetaDataEntry machine_definition "preferred_variant_name" VNone in
    if truthy variant_name
    then
      emit (EvGetVariantNode definition_id variant_name);;
      match getVariantNode application definition_id variant_name with
      | None =>
          raise (RuntimeError
                   "Cannot find variant with definition [%s] and variant name [%s]"
                   [VStr definition_id; variant_name])
      | Some variant_node => mret (variant_name, getContainer variant_node)
      end
    else mret (variant_name, variant_container)
  else mret (variant_name, variant_container).

(** Lines 53-66 of [createMachine]: the material container for the
    extruders.  [round] of a missing diameter is a TypeError. *)
Definition select_material (machine_definition : DefinitionContainer) (definition_id : string)
    (variant_name : PyVal) : M InstanceContainer :=
  let material_container := empty_material_container application in
  if parseBool application (getMetaDataEntry machine_definition "has_materials" (VBool false))
  then
    match getProperty machine_definition "material_diameter" with
    | None => raise TypeError
    | Some material_diameter =>
        let approximate_material_diameter := py_str_int (py_round material_diameter) in
        let root_material_id :=
          getMetaDataEntry machine_definition "preferred_material" VNone in
        emit (EvGetRootMaterialIDForDiameter root_material_id approximate_material_diameter);;
        let root_material_id :=
          getRootMaterialIDForDiameter application root_material_id
            approximate_material_diameter in
        emit (EvGetMaterialNode definition_id variant_name material_diameter
                root_material_id);;
        match getMaterialNode application definition_id variant_name material_diameter
                root_material_id with
        | None =>
            raise (RuntimeError
                     "Cannot find material with definition [%s], variant_name [%s], and root_material_id [%s]"
                     [VStr definition_id; variant_name; root_material_id])
        | Some material_node => mret (getContainer material_node)
        end
    end
  else mret material_container.

(** Lines 68-73 of [createMachine]: the name of the new machine. *)
Definition generate_name (name : string) (machine_definition : DefinitionContainer)
  : M string :=
  generated_name ← createUniqueName "machine" "" name (def_name machine_definition);
  clashes ← findContainersMetadata generated_name;
  match clashes with
  | [] => mret generated_name
  | _ :: _ => uniqueName generated_name
  end.

(** Lines 40-82 of [createMachine]: everything between the lookup of the
    machine definition and the loop over the extruder trains.  The result is
    the new global stack with the variant and material containers chosen for
    its extruders. *)
Definition prepare_machine (name definition_id : string)
    (machine_definition : DefinitionContainer)
  : M (loc * InstanceContainer * InstanceContainer) :=
  '(variant_name, variant_container) ← select_variant machine_definition definition_id;
  material_container ← select_material machine_definition definition_id variant_name;
  generated_name ← generate_name name machine_definition;
  new_global_stack ←
    createGlobalStack generated_name machine_definition
      (empty_variant_container application)
      (empty_material_container application)
      (empty_quality_container application);
  setName new_global_stack generated_name;;
  mret (new_global_stack, variant_container, material_container).

(** Lines 87-108 of [createMachine]: the body of the loop over
    [extruder_dict.items()]. *)
Definition create_extruder (definition_id : string) (new_global_stack : loc)
    (variant_container material_container : InstanceContainer)
    (item : string * string) : M unit :=
  let '(position, extruder_definition_id) := item in
  found ← findDefinitionContainers extruder_definition_id;
  match found with
  | [] => raise IndexError
  | extruder_definition :: _ =>
      let position_in_extruder_def :=
        getMetaDataEntry extruder_definition "position" VNone in
      if py_ne_str position_in_extruder_def position
      then
        raise (RuntimeError
                 "Extruder position [%s] defined in extruder definition [%s] is not the same as in machine definition [%s] position [%s]"
                 [position_in_extruder_def; VStr extruder_definition_id;
                  VStr definition_id; VStr position])
      else
        new_extruder_id ← uniqueName extruder_definition_id;
        new_extruder ←
          createExtruderStack new_extruder_id extruder_definition definition_id
            position variant_container material_container
            (empty_quality_container application);
        setNextStack new_extruder new_global_stack;;
        addExtruder new_global_stack new_extruder;;
        addContainer (EStack new_extruder)
  end.

(** [quality_group_dict.get(preferred_quality_type)]: the keys are quality
    types, that is strings; a dict as key is unhashable. *)
Definition get_quality_group (quality_group_dict : list (string * QualityGroup))
    (preferred_quality_type : PyVal) : Outcome (option QualityGroup) :=
  match preferred_quality_type with
  | VStr quality_type => Return (assoc quality_type quality_group_dict)
  | VDict _ => Raise TypeError
  | _ => Return None
  end.

(** Line 116 of [createMachine]: the body of the loop over
    [new_global_stack.extruders.items()]. *)
Definition set_extruder_quality (quality_group : QualityGroup) (item : string * loc)
  : M unit :=
  let '(position, extruder_stack) := item in
  match assoc position (nodes_for_extruders quality_group) with
  | None => raise KeyError
  | Some node => assign extruder_stack Quality (getContainer node)
  end.

(** Lines 110-116 of [createMachine]: the quality of the global stack and of
    its extruders.  Nothing guards the group against being [None]. *)
Definition apply_quality (machine_definition : DefinitionContainer) (new_global_stack : loc)
  : M unit :=
  let preferred_quality_type :=
    getMetaDataEntry machine_definition "preferred_quality_type" VNone in
  st ← get_state;
  emit (EvGetQualityGroups new_global_stack);;
  let quality_group_dict := getQualityGroups application st new_global_stack in
  match get_quality_group quality_group_dict preferred_quality_type with
  | Raise e => raise e
  | Return None => raise AttributeError
  | Return (Some quality_group) =>
      assign new_global_stack Quality (getContainer (node_for_global quality_group));;
      g ← deref new_global_stack;
      match g with
      | GlobalStack _ extruders => for_each extruders (set_extruder_quality quality_group)
      | ExtruderStack _ _ => raise AttributeError
      end
  end.

(** [createMachine(name, definition_id)]: the new global stack, or [None]
    when the definition is not found. *)
Definition createMachine (name definition_id : string) : M (option loc) :=
  definitions ← findDefinitionContainers definition_id;
  match definitions with
  | [] =>
      Logger_log "w" "Definition {definition} was not found!"
        [("definition", definition_id)];;
      mret None
  | machine_definition :: _ =>
      '(new_global_stack, variant_container, material_container) ←
        prepare_machine name definition_id machine_definition;
      (* Create ExtruderStacks *)
      match getMetaDataEntry machine_definition "machine_extruder_trains" VNone with
      | VDict extruder_dict =>
          for_each extruder_dict
            (create_extruder definition_id new_global_stack variant_container
               material_container);;
          apply_quality machine_definition new_global_stack;;
          (* Register the global stack after the extruder stacks are created. *)
          addContainer (EStack new_global_stack);;
          mret (Some new_global_stack)
      | _ => raise AttributeError
      end
  end.

End Builder.


(** ** Vocabulary for statements about runs *)

(** [reached G old l]: the list of visited states [l] extends [old] by states
    that all satisfy [G]. *)
Inductive reached (G : State -> Prop) (old : list State) : list State -> Prop :=
| reached_here : reached G old old
| reached_step s l : G s -> reached G old l -> reached G old (s :: l).

Definition is_instance (e : Entity) : Prop :=
  match e with EInstance _ => True | _ => False end.

Definition is_definition (e : Entity) : Prop :=
  match e with EDefinition _ => True | _ => False end.

(** The references of the stacks among some registry entries. *)
Definition stacks_of (es : list Entity) : list loc :=
  omap (fun e => match e with EStack l => Some l | _ => None end) es.

(** Every registered stack exists. *)
Definition stack_exists (h : list StackObj) (e : Entity) : bool :=
  match e with EStack l => Nat.ltb l (length h) | _ => true end.

Definition wf_state (st : State) : Prop :=
  forallb (stack_exists (heap st)) (registry st) = true.

(** The extruder stack [l] sits at position [p] of the global stack [gs]:
    its own metadata, its definition and the extruder map of [gs] agree on
    [p], and its next stack is [gs]. *)
Definition attached (s : State) (gs l : loc) (p : string) : Prop :=
  exists eb gb xs d,
    heap s !! l = Some (ExtruderStack eb (Some gs)) /\
    assoc "position" (stack_metadata eb) = Some (VStr p) /\
    definition eb = Some d /\
    getMetaDataEntry d "position" VNone = VStr p /\
    heap s !! gs = Some (GlobalStack gb xs) /\
    assoc p xs = Some l.

(** An entity a run started in [st] may have registered by the time it is in
    [s]: a container, or an extruder stack that the run created and that is
    attached to the global stack of the run, which is the first object the
    run allocates. *)
Definition added_ok (st s : State) (e : Entity) : Prop :=
  is_instance e \/
  exists l p, e = EStack l /\ length (heap st) <= l /\ attached s (length (heap st)) l p.

(** What holds of every state of a run that started in [st], until the
    global stack is registered: the registry only grows, by entities as
    above, and registered stacks exist. *)
Record Inv (st s : State) : Prop := mkInv {
  inv_old : wf_state st;
  inv_grows : exists adds, registry s = registry st ++ adds /\ Forall (added_ok st s) adds;
  inv_heap : length (heap st) <= length (heap s);
  inv_exists : forall l, EStack l ∈ registry s -> l < length (heap s)
}.

(** A state in which one object is being built on top of [s0]: the heap has
    that one object more, and only containers were registered. *)
Definition building (ok : StackObj -> Prop) (s0 s : State) : Prop :=
  exists o R',
    heap s = heap s0 ++ [o] /\ registry s = registry s0 ++ R' /\
    Forall is_instance R' /\ events s = events s0 /\ ok o.

(** The statements createGlobalStack and createExtruderStack have in common
    once the stack object exists and has its definition: the two fresh
    containers, the six slots, the registration of the user container. *)
Definition finish_stack (application : Application) (new_stack_id definition_id : string)
    (is_global_stack : bool) (stack : loc)
    (variant_container material_container quality_container : InstanceContainer) : M loc :=
  user_container ←
    createUserChangesContainer application (new_stack_id +:+ "_user") definition_id
      new_stack_id is_global_stack;
  dc ← createDefinitionChangesContainer application stack (new_stack_id +:+ "_settings");
  assign stack DefinitionChanges dc;;
  assign stack Variant variant_container;;
  assign stack Material material_container;;
  assign stack Quality quality_container;;
  assign stack QualityChanges (empty_quality_changes_container application);;
  assign stack UserChanges user_container;;
  addContainer (EInstance user_container);;
  mret stack.

(** The base of a stack after [finish_stack]: identity, metadata and
    definition are as before, three slots are as asked. *)
Definition finished (b b' : CuraContainerStack)
    (variant_container material_container quality_container : InstanceContainer)
    (user_container definition_changes_container : InstanceContainer) : Prop :=
  stack_id b' = stack_id b /\ stack_name b' = stack_name b /\
  stack_metadata b' = stack_metadata b /\ definition b' = definition b /\
  variant b' = variant_container /\ material b' = material_container /\
  quality b' = quality_container /\
  userChanges b' = user_container /\ definitionChanges b' = definition_changes_container.

(** A global stack whose variant and material slots hold nothing but an
    empty container. *)
Definition plain (application : Application) (b : CuraContainerStack) : Prop :=
  (variant b = empty_variant_container application \/
   variant b = empty_instance_container application) /\
  (material b = empty_material_container application \/
   material b = empty_instance_container application).

Definition fresh_global (application : Application) (o : StackObj) : Prop :=
  exists gb, o = GlobalStack gb [] /\ plain application gb.

Definition fresh_extruder (o : StackObj) : Prop :=
  exists eb n, o = ExtruderStack eb n.

Definition global_plain (application : Application) (st s : State) : Prop :=
  forall gb xs, heap s !! length (heap st) = Some (GlobalStack gb xs) -> plain application gb.

(** The invariant of a run of [createMachine] started in [st]. *)
Definition Safe (application : Application) (st s : State) : Prop :=
  Inv st s /\ global_plain application st s.

(** What the rest of the builder leaves alone in a stack: everything but the
    quality slots and the two change containers. *)
Definition base_kept (b b' : CuraContainerStack) : Prop :=
  stack_id b' = stack_id b /\ stack_name b' = stack_name b /\
  stack_metadata b' = stack_metadata b /\ definition b' = definition b /\
  variant b' = variant b /\ material b' = material b /\
  userChanges b' = userChanges b /\ definitionChanges b' = definitionChanges b.

Definition obj_kept (o o' : StackObj) : Prop :=
  match o, o' with
  | ExtruderStack b n, ExtruderStack b' n' => n' = n /\ base_kept b b'
  | GlobalStack b xs, GlobalStack b' xs' => base_kept b b' /\ exists more, xs' = xs ++ more
  | _, _ => False
  end.

Definition heap_kept (h h' : list StackObj) : Prop :=
  forall l o, h !! l = Some o -> exists o', h' !! l = Some o' /\ obj_kept o o'.

(** A state that differs from [s0] in its events only. *)
Definition quiet (s0 s : State) : Prop :=
  heap s = heap s0 /\ registry s = registry s0.

(** ** What the specification says the builder chooses *)

(** Step 2: the variant for the extruders, with the variant name; [None]
    when the preferred variant cannot be resolved. *)
Definition chosen_variant (application : Application) (d : DefinitionContainer)
    (definition_id : string) : option (PyVal * InstanceContainer) :=
  if parseBool application (getMetaDataEntry d "has_variants" (VBool false))
  then
    let variant_name := getMetaDataEntry d "preferred_variant_name" VNone in
    if truthy variant_name
    then (fun node => (variant_name, getContainer node))
           <$> getVariantNode application definition_id variant_name
    else Some (variant_name, empty_variant_container application)
  else Some (VNone, empty_variant_container application).

(** Step 3: the material for the extruders; [None] when there is no
    diameter or no material node. *)
Definition chosen_material (application : Application) (d : DefinitionContainer)
    (definition_id : string) (variant_name : PyVal) : option InstanceContainer :=
  if parseBool application (getMetaDataEntry d "has_materials" (VBool false))
  then
    match getProperty d "material_diameter" with
    | None => None
    | Some diameter =>
        getContainer
          <$> getMaterialNode application definition_id variant_name diameter
                (getRootMaterialIDForDiameter application
                   (getMetaDataEntry d "preferred_material" VNone)
                   (py_str_int (py_round diameter)))
    end
  else Some (empty_material_container application).

(** Step 4, first half: a name no registered stack uses, for the requested
    name or, when that is empty, for the name of the definition. *)
Definition stack_unique_name (st : State) (name : string) (d : DefinitionContainer) : string :=
  allocate_name (in_use_by_stack st) (2 * length (registry st))
    (if String.eqb name "" then def_name d else name).

(** Step 4: the two-step rule. *)
Definition machine_name (st : State) (name : string) (d : DefinitionContainer) : string :=
  let first := stack_unique_name st name d in
  if existsb (has_id st first) (registry st)
  then allocate_name (in_use st) (2 * length (registry st)) first
  else first.

(** The extruder stack [x.2] built for the entry [item] of
    machine_extruder_trains. *)
Definition built (st s : State) (vc mc : InstanceContainer)
    (item : string * string) (x : string * loc) : Prop :=
  x.1 = item.1 /\ length (heap st) < x.2 /\ EStack x.2 ∈ registry s /\
  exists eb de,
    heap s !! x.2 = Some (ExtruderStack eb (Some (length (heap st)))) /\
    variant eb = vc /\ material eb = mc /\
    definition eb = Some de /\ head (definitions_with_id st item.2) = Some de /\
    assoc "position" (stack_metadata eb) = Some (VStr item.1).

(** The entities a run started in [st] has registered by the time it is in
    [s]. *)
Definition added (st s : State) : list Entity :=
  drop (length (registry st)) (registry s).

(** The machine as it stands when the extruders for [items] have been
    created: the global stack holds them at [xs], in order. *)
Record Assembled (application : Application) (st : State) (name : string)
    (d : DefinitionContainer) (vc mc : InstanceContainer)
    (items : list (string * string)) (xs : list (string * loc)) (s : State) : Prop :=
  mkAssembled {
  asm_safe : Safe application st s;
  asm_global : exists gb,
      heap s !! length (heap st) = Some (GlobalStack gb xs) /\
      stack_id gb = name /\ stack_name gb = name /\ definition gb = Some d /\
      variant gb = empty_variant_container application /\
      material gb = empty_material_container application /\
      EInstance (userChanges gb) ∈ added st s /\
      EInstance (definitionChanges gb) ∈ added st s;
  asm_extruders : Forall2 (built st s vc mc) items xs;
  asm_stacks : stacks_of (added st s) = xs.*2;
  asm_nodup : NoDup xs.*2
}.

(** The extruder at [x] holds the quality container the group has for its
    position. *)
Definition quality_set (g : QualityGroup) (s : State) (x : string * loc) : Prop :=
  exists node eb n,
    assoc x.1 (nodes_for_extruders g) = Some node /\
    heap s !! x.2 = Some (ExtruderStack eb n) /\
    quality eb = getContainer node.

(** The state in which an event was recorded, given the state before. *)
Definition recorded (ev : Event) (s : State) : State :=
  mkState (heap s) (registry s) (events s ++ [ev]).

(** The ids and display names of the registered stacks. *)
Definition stack_names (st : State) : list string :=
  flat_map (fun e =>
              if is_stack e
              then option_list (entity_id (heap st) e) ++ option_list (entity_name (heap st) e)
              else []) (registry st).

(** The trace after an event was recorded. *)
Definition record_event (ev : Event) (tr : Trace) : Trace :=
  mkTrace (recorded ev (now tr)) (now tr :: past tr).

(** ** What the claims say of a run *)

(** The global stack [gs] is registered last: in the state [s_pre] just before,
    every entry of machine_extruder_trains has its extruder stack, created,
    attached and registered; the stacks the call registers are those
    extruders and then [gs]; and in no state of the run is [gs] registered
    while an extruder is missing from it. *)
Definition registered_last (st : State) (definition_id : string) (gs : loc) (tr' : Trace)
  : Prop :=
  exists d trains gb xs adds s_pre ps,
    head (definitions_with_id st definition_id) = Some d /\
    getMetaDataEntry d "machine_extruder_trains" VNone = VDict trains /\
    past tr' = s_pre :: ps /\
    registry s_pre = registry st ++ adds /\
    (EStack gs ∉ registry s_pre) /\
    heap s_pre !! gs = Some (GlobalStack gb xs) /\
    xs.*1 = trains.*1 /\
    (forall p l, (p, l) ∈ xs -> EStack l ∈ adds /\ attached s_pre gs l p) /\
    now tr' = mkState (heap s_pre) (registry s_pre ++ [EStack gs]) (events s_pre) /\
    stacks_of (adds ++ [EStack gs]) = xs.*2 ++ [gs] /\
    NoDup (xs.*2 ++ [gs]) /\
    (length trains = 2 ->
     exists l1 l2 p1 p2,
       stacks_of (adds ++ [EStack gs]) = [l1; l2; gs] /\
       attached (now tr') gs l1 p1 /\ attached (now tr') gs l2 p2) /\
    forall s, s ∈ visited tr' -> EStack gs ∈ registry s ->
      exists gb', heap s !! gs = Some (GlobalStack gb' xs).

(** The asymmetry between the global stack [gs] and its extruders.  The
    global stack starts with the empty variant, material and quality
    containers and never holds anything but an empty container as variant
    or material.  Besides the global stack the run creates one object for
    every entry of machine_extruder_trains and no other; each of them is an
    extruder stack, filed in the extruder map of [gs] under the position of
    its entry and registered by the run, and holds the variant and the
    material chosen for the machine. *)
Definition asymmetric_slots (application : Application) (st : State)
    (definition_id : string) (gs : loc) (tr' : Trace) : Prop :=
  exists d trains vn vc mc gb xs,
    head (definitions_with_id st definition_id) = Some d /\
    getMetaDataEntry d "machine_extruder_trains" VNone = VDict trains /\
    chosen_variant application d definition_id = Some (vn, vc) /\
    chosen_material application d definition_id vn = Some mc /\
    gs = length (heap st) /\
    length (heap (now tr')) = length (heap st) + 1 + length trains /\
    heap (now tr') !! gs = Some (GlobalStack gb xs) /\
    variant gb = empty_variant_container application /\
    material gb = empty_material_container application /\
    (exists s gb0,
        s ∈ visited tr' /\ heap s !! gs = Some (GlobalStack gb0 []) /\
        variant gb0 = empty_variant_container application /\
        material gb0 = empty_material_container application /\
        quality gb0 = empty_quality_container application) /\
    xs.*1 = trains.*1 /\
    stacks_of (added st (now tr')) = xs.*2 ++ [gs] /\
    (forall p l, (p, l) ∈ xs ->
        gs < l /\
        exists eb n, heap (now tr') !! l = Some (ExtruderStack eb n) /\
                     variant eb = vc /\ material eb = mc) /\
    (forall l o, gs < l -> heap (now tr') !! l = Some o ->
        exists p eb n, (p, l) ∈ xs /\ o = ExtruderStack eb n /\
                       variant eb = vc /\ material eb = mc) /\
    (forall s gb' xs', s ∈ visited tr' -> heap s !! gs = Some (GlobalStack gb' xs') ->
        plain application gb').

(** The quality step: the quality collaborator is consulted in a state
    [s_q] in which every extruder is attached and registered; the group for
    the preferred quality type gives the global stack its quality container
    and every extruder the container for its position. *)
Definition quality_applied (application : Application) (st : State)
    (definition_id : string) (gs : loc) (tr' : Trace) : Prop :=
  exists d trains xs s_q qt g gb,
    head (definitions_with_id st definition_id) = Some d /\
    getMetaDataEntry d "machine_extruder_trains" VNone = VDict trains /\
    (exists pre post,
        visited tr' = pre ++ recorded (EvGetQualityGroups gs) s_q :: s_q :: post) /\
    (exists gbq, heap s_q !! gs = Some (GlobalStack gbq xs)) /\
    xs.*1 = trains.*1 /\
    (forall p l, (p, l) ∈ xs -> EStack l ∈ registry s_q /\ attached s_q gs l p) /\
    getMetaDataEntry d "preferred_quality_type" VNone = VStr qt /\
    assoc qt (getQualityGroups application s_q gs) = Some g /\
    heap (now tr') !! gs = Some (GlobalStack gb xs) /\
    quality gb = getContainer (node_for_global g) /\
    Forall (quality_set g (now tr')) xs.

(** The two-step rule for the name of the machine, as the base [gb] of a
    global stack carries it: both id and display name are [machine_name];
    [createUniqueName], given an empty current name, yields a name that no
    stack uses, for the requested name or for the name of the definition when
    the requested name is empty; and [uniqueName] comes second exactly when
    an entity that is not a stack has that name as its id. *)
Definition named_by_two_step_rule (st : State) (name : string) (d : DefinitionContainer)
    (gb : CuraContainerStack) : Prop :=
  stack_id gb = machine_name st name d /\
  stack_name gb = machine_name st name d /\
  createUniqueName "machine" "" name (def_name d) (mkTrace st [])
    = (Return (stack_unique_name st name d), mkTrace st []) /\
  in_use_by_stack st (stack_unique_name st name d) = false /\
  ((exists e, e ∈ registry st /\ is_stack e = false /\
              entity_id (heap st) e = Some (stack_unique_name st name d)) ->
   uniqueName (stack_unique_name st name d) (mkTrace st [])
     = (Return (machine_name st name d), mkTrace st [])) /\
  ((forall e, e ∈ registry st -> is_stack e = false ->
              entity_id (heap st) e <> Some (stack_unique_name st name d)) ->
   machine_name st name d = stack_unique_name st name d).

(** ** A small world to run the builder in *)

Definition typed_container (id type : string) : InstanceContainer :=
  mkInstanceContainer id None [("type", VStr type)].

(** UM.Util.parseBool accepts True, 1 and the strings "True", "true", "Yes"
    and "yes". *)
Definition demo_parseBool (v : PyVal) : bool :=
  match v with
  | VBool b => b
  | VInt n => (n =? 1)%Z
  | VStr s =>
      String.eqb s "True" || String.eqb s "true" || String.eqb s "Yes" || String.eqb s "yes"
  | _ => false
  end.

Definition demo_group : QualityGroup :=
  mkQualityGroup (mkNode (typed_container "normal_global" "quality"))
    [("0", mkNode (typed_container "normal_0" "quality"));
     ("1", mkNode (typed_container "normal_1" "quality"))].

Definition demo_app : Application :=
  mkApplication
    (typed_container "empty" "empty")
    (typed_container "empty_variant" "variant")
    (typed_container "empty_material" "material")
    (typed_container "empty_quality" "quality")
    (typed_container "empty_quality_changes" "quality_changes")
    4 demo_parseBool
    (fun _ variant_name =>
       match variant_name with
       | VStr "0.4 mm" => Some (mkNode (typed_container "nozzle_0.4" "variant"))
       | _ => None
       end)
    (fun root approximate =>
       match root with VStr r => VStr (r +:+ "_" +:+ approximate) | _ => VNone end)
    (fun _ _ _ root =>
       match root with
       | VStr "pla_3" => Some (mkNode (typed_container "pla_2.85" "material"))
       | _ => None
       end)
    (fun _ _ => [("normal", demo_group)]).

Definition demo_extruder_0 : DefinitionContainer :=
  mkDefinitionContainer "extruder_0" "Extruder 1" [("position", VStr "0")] [].

Definition demo_extruder_1 : DefinitionContainer :=
  mkDefinitionContainer "extruder_1" "Extruder 2" [("position", VStr "1")] [].

(** One extruder, neither variants nor materials. *)
Definition demo_single : DefinitionContainer :=
  mkDefinitionContainer "single" "Single"
    [("preferred_quality_type", VStr "normal");
     ("machine_extruder_trains", VDict [("0", "extruder_0")])] [].

(** Two extruders, a preferred variant and a preferred material. *)
Definition demo_dual : DefinitionContainer :=
  mkDefinitionContainer "dual" "Dual"
    [("has_variants", VBool true); ("preferred_variant_name", VStr "0.4 mm");
     ("has_materials", VStr "True"); ("preferred_material", VStr "pla");
     ("preferred_quality_type", VStr "normal");
     ("machine_extruder_trains", VDict [("0", "extruder_0"); ("1", "extruder_1")])]
    [("material_diameter", 285 # 100)].

(** Lists extruder_0 at position "1", while extruder_0 says "0". *)
Definition demo_mismatch : DefinitionContainer :=
  mkDefinitionContainer "mismatch" "Mismatch"
    [("preferred_quality_type", VStr "normal");
     ("machine_extruder_trains", VDict [("1", "extruder_0")])] [].

(** Has variants, but names no preferred one. *)
Definition demo_unnamed_variant : DefinitionContainer :=
  mkDefinitionContainer "unnamed_variant" "Unnamed variant"
    [("has_variants", VBool true);
     ("preferred_quality_type", VStr "normal");
     ("machine_extruder_trains", VDict [("0", "extruder_0")])] [].

(** Has variants and prefers one that the variant manager does not know. *)
Definition demo_unknown_variant : DefinitionContainer :=
  mkDefinitionContainer "unknown_variant" "Unknown variant"
    [("has_variants", VBool true); ("preferred_variant_name", VStr "0.8 mm");
     ("preferred_quality_type", VStr "normal");
     ("machine_extruder_trains", VDict [("0", "extruder_0")])] [].

(** Has materials, but the material manager has none for the preference. *)
Definition demo_unknown_material : DefinitionContainer :=
  mkDefinitionContainer "unknown_material" "Unknown material"
    [("has_materials", VBool true); ("preferred_material", VStr "abs");
     ("preferred_quality_type", VStr "normal");
     ("machine_extruder_trains", VDict [("0", "extruder_0")])]
    [("material_diameter", 175 # 100)].

(** Prefers a quality type for which there is no group. *)
Definition demo_no_quality : DefinitionContainer :=
  mkDefinitionContainer "no_quality" "No quality"
    [("preferred_quality_type", VStr "draft");
     ("machine_extruder_trains", VDict [("0", "extruder_0")])] [].

(** A registry that holds the definitions above and nothing else. *)
Definition demo_state : State :=
  mkState []
    [EDefinition demo_extruder_0; EDefinition demo_extruder_1; EDefinition demo_single;
     EDefinition demo_dual; EDefinition demo_mismatch; EDefinition demo_unnamed_variant;
     EDefinition demo_unknown_variant; EDefinition demo_unknown_material;
     EDefinition demo_no_quality]
    [].

(** The trace a run ends with. *)
Definition final_trace (r : Outcome (option loc) * Trace) : Trace := snd r.


(** ** Vocabulary for the building blocks on their own *)

(** The ids of the registered entities, and their display names in lower
    case: what [in_use] compares a name with. *)
Definition registered_ids (st : State) : list string :=
  flat_map (fun e => option_list (entity_id (heap st) e)) (registry st).

Definition registered_names (st : State) : list string :=
  flat_map (fun e => option_list (lower <$> entity_name (heap st) e)) (registry st).

(** The name [uniqueName] returns for a candidate in the state [st]. *)
Definition fresh_name (st : State) (candidate : string) : string :=
  allocate_name (in_use st) (2 * length (registry st)) candidate.

(** The first of the four containers handed to a stack, in the order of
    the assignments, that its slot refuses. *)
Definition first_refused (application : Application)
    (variant_container material_container quality_container : InstanceContainer)
  : option Slot :=
  if negb (type_agrees Variant variant_container) then Some Variant
  else if negb (type_agrees Material material_container) then Some Material
  else if negb (type_agrees Quality quality_container) then Some Quality
  else if negb (type_agrees QualityChanges (empty_quality_changes_container application))
       then Some QualityChanges
  else None.

(** A user-changes container for the stack [stack_id]: of type user, at the
    setting version of the application, bound to [definition_id], and with
    one entry that names the stack, under "machine" for a global stack and
    under "extruder" for an extruder stack. *)
Definition is_user_changes (application : Application) (c : InstanceContainer)
    (definition_id stack_id : string) (is_global_stack : bool) : Prop :=
  ic_definition c = Some definition_id /\
  ic_metadata c =
    [("type", VStr "user"); ("setting_version", VInt (SettingVersion application));
     (if is_global_stack then "machine" else "extruder", VStr stack_id)].

(** A definition-changes container: of type definition_changes, at the
    setting version of the application, bound to [definition_id]. *)
Definition is_definition_changes (application : Application) (c : InstanceContainer)
    (definition_id : string) : Prop :=
  ic_definition c = Some definition_id /\
  ic_metadata c =
    [("type", VStr "definition_changes");
     ("setting_version", VInt (SettingVersion application))].

(** The two containers as the builder makes them in the state [st]. *)
Definition user_changes_of (application : Application) (st : State)
    (container_name definition_id stack_id : string) (is_global_stack : bool)
  : InstanceContainer :=
  mkInstanceContainer (fresh_name st container_name) (Some definition_id)
    [("type", VStr "user"); ("setting_version", VInt (SettingVersion application));
     (if is_global_stack then "machine" else "extruder", VStr stack_id)].

Definition definition_changes_of (application : Application) (st : State)
    (container_name : string) (bottom : DefinitionContainer) : InstanceContainer :=
  mkInstanceContainer (fresh_name st container_name) (Some (def_id bottom))
    [("type", VStr "definition_changes");
     ("setting_version", VInt (SettingVersion application))].

(** The base of a stack with its six slots filled. *)
Definition wired (application : Application) (b : CuraContainerStack)
    (variant_container material_container quality_container : InstanceContainer)
    (user_container definition_changes_container : InstanceContainer) : Prop :=
  variant b = variant_container /\ material b = material_container /\
  quality b = quality_container /\
  qualityChanges b = empty_quality_changes_container application /\
  userChanges b = user_container /\ definitionChanges b = definition_changes_container.

(** The container [c] got its id from [uniqueName], asked for [candidate]
    in the state [st]: nothing registered uses the id, and it is the
    candidate itself when that is free. *)
Definition named_fresh (st : State) (c : InstanceContainer) (candidate : string) : Prop :=
  ic_id c = fresh_name st candidate /\
  in_use st (ic_id c) = false /\
  (in_use st candidate = false -> ic_id c = candidate).

(** ** What the two stack builders do *)

(** [createGlobalStack], run at [tr], returns a new global stack without
    extruders: its id is [new_stack_id], it has the definition [d], the
    three containers are in their slots, the quality-changes slot holds the
    empty quality-changes container, and its two own containers are new.
    The registry gets the definition-changes container and then the
    user-changes container; the stack is not registered. *)
Definition global_stack_built (application : Application) (new_stack_id : string)
    (d : DefinitionContainer)
    (variant_container material_container quality_container : InstanceContainer) (tr : Trace)
  : Prop :=
  exists gb tr',
    createGlobalStack application new_stack_id d variant_container material_container
      quality_container tr = (Return (length (heap (now tr))), tr') /\
    now tr' = mkState (heap (now tr) ++ [GlobalStack gb []])
                (registry (now tr)
                   ++ [EInstance (definitionChanges gb); EInstance (userChanges gb)])
                (events (now tr)) /\
    stack_id gb = new_stack_id /\ definition gb = Some d /\
    variant gb = variant_container /\ material gb = material_container /\
    quality gb = quality_container /\
    qualityChanges gb = empty_quality_changes_container application /\
    named_fresh (now tr) (userChanges gb) (new_stack_id +:+ "_user") /\
    named_fresh (now tr) (definitionChanges gb) (new_stack_id +:+ "_settings") /\
    is_user_changes application (userChanges gb) (def_id d) new_stack_id true /\
    is_definition_changes application (definitionChanges gb) (def_id d).

(** [createExtruderStack], run at [tr], returns a new extruder stack with
    no next stack: its id is [new_stack_id], its display name the name of
    the extruder definition [d], its position entry the position. *)
Definition extruder_stack_built (application : Application) (new_stack_id : string)
    (d : DefinitionContainer) (machine_definition_id position : string)
    (variant_container material_container quality_container : InstanceContainer) (tr : Trace)
  : Prop :=
  exists eb tr',
    createExtruderStack application new_stack_id d machine_definition_id position
      variant_container material_container quality_container tr
      = (Return (length (heap (now tr))), tr') /\
    now tr' = mkState (heap (now tr) ++ [ExtruderStack eb None])
                (registry (now tr)
                   ++ [EInstance (definitionChanges eb); EInstance (userChanges eb)])
                (events (now tr)) /\
    stack_id eb = new_stack_id /\ stack_name eb = def_name d /\
    assoc "position" (stack_metadata eb) = Some (VStr position) /\
    definition eb = Some d /\
    variant eb = variant_container /\ material eb = material_container /\
    quality eb = quality_container /\
    qualityChanges eb = empty_quality_changes_container application /\
    named_fresh (now tr) (userChanges eb) (new_stack_id +:+ "_user") /\
    named_fresh (now tr) (definitionChanges eb) (new_stack_id +:+ "_settings") /\
    is_user_changes application (userChanges eb) machine_definition_id new_stack_id false /\
    is_definition_changes application (definitionChanges eb) (def_id d).

(** The two builders stopped by the slot [sl]: the new stack is on the heap
    with its definition-changes container, which is registered; it has no
    user-changes container, and none was registered. *)
Definition global_stack_refused (application : Application) (new_stack_id : string)
    (d : DefinitionContainer)
    (variant_container material_container quality_container : InstanceContainer) (tr : Trace)
    (sl : Slot) : Prop :=
  exists gb tr',
    createGlobalStack application new_stack_id d variant_container material_container
      quality_container tr = (Raise (InvalidContainerError sl), tr') /\
    now tr' = mkState (heap (now tr) ++ [GlobalStack gb []])
                (registry (now tr) ++ [EInstance (definitionChanges gb)])
                (events (now tr)) /\
    named_fresh (now tr) (definitionChanges gb) (new_stack_id +:+ "_settings") /\
    is_definition_changes application (definitionChanges gb) (def_id d) /\
    userChanges gb = empty_instance_container application.

Definition extruder_stack_refused (application : Application) (new_stack_id : string)
    (d : DefinitionContainer) (machine_definition_id position : string)
    (variant_container material_container quality_container : InstanceContainer) (tr : Trace)
    (sl : Slot) : Prop :=
  exists eb tr',
    createExtruderStack application new_stack_id d machine_definition_id position
      variant_container material_container quality_container tr
      = (Raise (InvalidContainerError sl), tr') /\
    now tr' = mkState (heap (now tr) ++ [ExtruderStack eb None])
                (registry (now tr) ++ [EInstance (definitionChanges eb)])
                (events (now tr)) /\
    named_fresh (now tr) (definitionChanges eb) (new_stack_id +:+ "_settings") /\
    is_definition_changes application (definitionChanges eb) (def_id d) /\
    userChanges eb = empty_instance_container application.

(** ** What a run leaves alone *)

(** An object whose links, if it is a global stack, all lead to objects at
    or above [N]. *)
Definition new_links (N : nat) (o : StackObj) : Prop :=
  match o with
  | GlobalStack _ xs => Forall (fun x => N <= x.2) xs
  | ExtruderStack _ _ => True
  end.

(** The state [s] has left alone what [s0] had: the first [N] objects of
    the heap are the same, the registry has grown at its end and by no
    definition, the events have grown at their end and by events in [Pv]
    only.  Objects at or above [N] link to objects at or above [N]. *)
Definition undisturbed (Pv : Event -> Prop) (N : nat) (s0 s : State) : Prop :=
  N <= length (heap s) /\
  take N (heap s) = take N (heap s0) /\
  (forall l o, N <= l -> heap s !! l = Some o -> new_links N o) /\
  (exists adds, registry s = registry s0 ++ adds /\ Forall (fun e => ~ is_definition e) adds) /\
  (exists evs, events s = events s0 ++ evs /\ Forall Pv evs).

(** A computation that, run in a state undisturbed since [s0], goes
    through such states only, and returns values in [Q]. *)
Definition fenced (Pv : Event -> Prop) (N : nat) {A : Type} (m : M A) (Q : A -> Prop) : Prop :=
  forall s0 tr out tr',
    undisturbed Pv N s0 (now tr) ->
    m tr = (out, tr') ->
    reached (undisturbed Pv N s0) (visited tr) (visited tr') /\
    forall a, out = Return a -> Q a.

(** What a call started in [st] leaves alone in every later state [s]: the
    stack objects that existed, whatever was in the registry, and whatever
    was in the log; and it registers no definition. *)
Definition left_alone (st s : State) : Prop :=
  take (length (heap st)) (heap s) = heap st /\
  (exists adds, registry s = registry st ++ adds /\ Forall (fun e => ~ is_definition e) adds) /\
  (exists evs, events s = events st ++ evs).

(** ** When createMachine is bound to succeed *)

(** No registered entity has [id] as its id. *)
Definition no_clash (id : string) (s : State) : Prop :=
  existsb (has_id s id) (registry s) = false.

(** The keys of a dict are distinct. *)
Fixpoint keys_distinct {V : Type} (d : list (string * V)) : bool :=
  match d with
  | [] => true
  | (k, _) :: d' =>
      match assoc k d' with
      | Some _ => false
      | None => keys_distinct d'
      end
  end.

(** Every extruder definition that [trains] lists is registered, and says
    of itself that it is at the position it is listed under. *)
Definition extruders_declared (st : State) (trains : list (string * string)) : bool :=
  forallb (fun item =>
             match definitions_with_id st item.2 with
             | de :: _ => negb (py_ne_str (getMetaDataEntry de "position" VNone) item.1)
             | [] => false
             end) trains.

(** No id of an extruder definition of [trains] is the beginning of
    [name]: no name made from such an id is [name]. *)
Definition names_apart (name : string) (trains : list (string * string)) : bool :=
  forallb (fun item => negb (String.prefix item.2 name)) trains.

(** The quality group has a quality container for the global stack and one
    for every position of [trains]. *)
Definition quality_fits (g : QualityGroup) (trains : list (string * string)) : bool :=
  type_agrees Quality (getContainer (node_for_global g))
  && forallb (fun item =>
                match assoc item.1 (nodes_for_extruders g) with
                | Some node => type_agrees Quality (getContainer node)
                | None => false
                end) trains.

(** The questions [select_variant] and [select_material] put to the
    variant manager and to the material manager. *)
Definition variant_events (application : Application) (d : DefinitionContainer)
    (definition_id : string) : list Event :=
  if parseBool application (getMetaDataEntry d "has_variants" (VBool false))
     && truthy (getMetaDataEntry d "preferred_variant_name" VNone)
  then [EvGetVariantNode definition_id (getMetaDataEntry d "preferred_variant_name" VNone)]
  else [].

Definition material_events (application : Application) (d : DefinitionContainer)
    (definition_id : string) (variant_name : PyVal) : list Event :=
  if parseBool application (getMetaDataEntry d "has_materials" (VBool false))
  then
    match getProperty d "material_diameter" with
    | Some diameter =>
        [EvGetRootMaterialIDForDiameter (getMetaDataEntry d "preferred_material" VNone)
           (py_str_int (py_round diameter));
         EvGetMaterialNode definition_id variant_name diameter
           (getRootMaterialIDForDiameter application
              (getMetaDataEntry d "preferred_material" VNone)
              (py_str_int (py_round diameter)))]
    | None => []
    end
  else [].

(** The heap has at least [N] objects, and those at or above [N] link to
    objects at or above [N]. *)
Definition links_sound (N : nat) (s : State) : Prop :=
  N <= length (heap s) /\
  forall l o, N <= l -> heap s !! l = Some o -> new_links N o.

Definition is_dict (v : PyVal) : bool :=
  match v with VDict _ => true | _ => false end.

(** ** More machines for the small world *)

(** Says nothing about extruder trains. *)
Definition demo_no_trains : DefinitionContainer :=
  mkDefinitionContainer "no_trains" "No trains"
    [("preferred_quality_type", VStr "normal")] [].

(** Lists an extruder definition that is not registered. *)
Definition demo_lost_extruder : DefinitionContainer :=
  mkDefinitionContainer "lost_extruder" "Lost extruder"
    [("preferred_quality_type", VStr "normal");
     ("machine_extruder_trains", VDict [("0", "extruder_0"); ("1", "extruder_9")])] [].

(** Has materials, but no material_diameter setting. *)
Definition demo_no_diameter : DefinitionContainer :=
  mkDefinitionContainer "no_diameter" "No diameter"
    [("has_materials", VBool true); ("preferred_material", VStr "pla");
     ("preferred_quality_type", VStr "normal");
     ("machine_extruder_trains", VDict [("0", "extruder_0")])] [].

(** Three extruders, of which the quality group knows two. *)
Definition demo_extruder_2 : DefinitionContainer :=
  mkDefinitionContainer "extruder_2" "Extruder 3" [("position", VStr "2")] [].

Definition demo_triple : DefinitionContainer :=
  mkDefinitionContainer "triple" "Triple"
    [("preferred_quality_type", VStr "normal");
     ("machine_extruder_trains",
      VDict [("0", "extruder_0"); ("1", "extruder_1"); ("2", "extruder_2")])] [].

(** Lists extruder_0 at position "0", where it belongs, and then
    extruder_2 at position "1", while extruder_2 says "2". *)
Definition demo_late_mismatch : DefinitionContainer :=
  mkDefinitionContainer "late_mismatch" "Late mismatch"
    [("preferred_quality_type", VStr "normal");
     ("machine_extruder_trains", VDict [("0", "extruder_0"); ("1", "extruder_2")])] [].

(** The registry of [demo_state] with these two definitions as well. *)
Definition demo_late_state : State :=
  mkState []
    (registry demo_state ++ [EDefinition demo_extruder_2; EDefinition demo_late_mismatch])
    [].

(** The registry of [demo_state] with these definitions after the others,
    and one machine already there: a global stack "Old" with its extruder. *)
Definition demo_old_global : StackObj :=
  GlobalStack
    (mkStack "Old" "Old" [] (Some demo_single)
       (typed_container "Old_user" "user") (typed_container "empty_quality_changes" "quality_changes")
       (typed_container "normal_global" "quality") (typed_container "empty_material" "material")
       (typed_container "empty_variant" "variant")
       (typed_container "Old_settings" "definition_changes"))
    [("0", 1)].

Definition demo_old_extruder : StackObj :=
  ExtruderStack
    (mkStack "extruder_0 #2" "Extruder 1" [("position", VStr "0")] (Some demo_extruder_0)
       (typed_container "extruder_0 #2_user" "user")
       (typed_container "empty_quality_changes" "quality_changes")
       (typed_container "normal_0" "quality") (typed_container "empty_material" "material")
       (typed_container "empty_variant" "variant")
       (typed_container "extruder_0 #2_settings" "definition_changes"))
    (Some 0).

Definition demo_busy_state : State :=
  mkState [demo_old_global; demo_old_extruder]
    (registry demo_state
       ++ [EDefinition demo_no_trains; EDefinition demo_lost_extruder;
           EDefinition demo_no_diameter; EDefinition demo_extruder_2;
           EDefinition demo_triple;
           EInstance (typed_container "Old_settings" "definition_changes");
           EInstance (typed_container "Old_user" "user");
           EInstance (typed_container "extruder_0 #2_settings" "definition_changes");
           EInstance (typed_container "extruder_0 #2_user" "user");
           EStack 1; EStack 0])
    [].

(** ** The containers of a finished machine *)

(** The extruder stack [x.2], made for the entry [item] of
    machine_extruder_trains, as it stands in [s]: its id is the id of its
    extruder definition with a number, its display name is the name of that
    definition, its user-changes container is bound to the machine
    definition [definition_id] and names the stack under "extruder", its
    definition-changes container is bound to the extruder definition, and
    both containers are registered. *)
Definition fitted (application : Application) (definition_id : string) (st s : State)
    (gs : loc) (item : string * string) (x : string * loc) : Prop :=
  x.1 = item.1 /\
  exists eb de k,
    heap s !! x.2 = Some (ExtruderStack eb (Some gs)) /\
    head (definitions_with_id st item.2) = Some de /\
    2 <= k /\ stack_id eb = numbered item.2 k /\
    stack_name eb = def_name de /\
    stack_metadata eb = [("position", VStr item.1)] /\
    is_user_changes application (userChanges eb) definition_id (stack_id eb) false /\
    is_definition_changes application (definitionChanges eb) item.2 /\
    EInstance (userChanges eb) ∈ registry s /\
    EInstance (definitionChanges eb) ∈ registry s.

(** The same for the global stack [gs] and its extruders [xs]. *)
Definition machine_fitted (application : Application) (definition_id : string) (st s : State)
    (gs : loc) (trains : list (string * string)) : Prop :=
  exists gb xs,
    heap s !! gs = Some (GlobalStack gb xs) /\
    is_user_changes application (userChanges gb) definition_id (stack_id gb) true /\
    is_definition_changes application (definitionChanges gb) definition_id /\
    EInstance (userChanges gb) ∈ registry s /\
    EInstance (definitionChanges gb) ∈ registry s /\
    Forall2 (fitted application definition_id st s gs) trains xs.


(** * Proofs *)

(** ** Lists and heaps *)

Lemma lookup_snoc {A} (h : list A) (o : A) : (h ++ [o]) !! length h = Some o.
Proof. rewrite lookup_app_r by lia. by rewrite Nat.sub_diag. Qed.

Lemma lookup_snoc_at {A} (h : list A) (o : A) n : length h = n -> (h ++ [o]) !! n = Some o.
Proof. intros <-. apply lookup_snoc. Qed.

Lemma insert_snoc {A} (h : list A) (o o' : A) : <[length h := o']> (h ++ [o]) = h ++ [o'].
Proof.
  replace (length h) with (length h + 0)%nat at 1 by lia.
  by rewrite insert_app_r.
Qed.

(** ** Running the primitives *)

Lemma run_bind {A B} (m : M A) (k : A -> M B) tr :
  (m ≫= k) tr = match m tr with
                | (Return a, tr') => k a tr'
                | (Raise e, tr') => (Raise e, tr')
                end.
Proof. reflexivity. Qed.

Lemma mutate_snoc h o R ev ps f :
  mutate (length h) f (mkTrace (mkState (h ++ [o]) R ev) ps) =
  match f o with
  | Return o' =>
      (Return tt, mkTrace (mkState (h ++ [o']) R ev) (mkState (h ++ [o]) R ev :: ps))
  | Raise e => (Raise e, mkTrace (mkState (h ++ [o]) R ev) ps)
  end.
Proof.
  unfold mutate; cbn. rewrite lookup_snoc.
  destruct (f o); [|done]. by rewrite insert_snoc.
Qed.

Lemma deref_snoc h o R ev ps :
  deref (length h) (mkTrace (mkState (h ++ [o]) R ev) ps) =
  (Return o, mkTrace (mkState (h ++ [o]) R ev) ps).
Proof. unfold deref; cbn. by rewrite lookup_snoc. Qed.

Lemma run_ret {A} (a : A) tr : (mret a : M A) tr = (Return a, tr).
Proof. reflexivity. Qed.

Lemma run_raise {A} e tr : (raise e : M A) tr = (Raise e, tr).
Proof. reflexivity. Qed.

Lemma run_get tr : get_state tr = (Return (now tr), tr).
Proof. reflexivity. Qed.

Lemma run_update f tr : update f tr = (Return tt, mkTrace (f (now tr)) (now tr :: past tr)).
Proof. reflexivity. Qed.

Lemma run_alloc o tr :
  alloc o tr =
  (Return (length (heap (now tr))),
   mkTrace (mkState (heap (now tr) ++ [o]) (registry (now tr)) (events (now tr)))
     (now tr :: past tr)).
Proof. reflexivity. Qed.

Ltac step :=
  first [ rewrite run_bind | rewrite run_ret | rewrite run_raise | rewrite run_get
        | rewrite run_update | rewrite run_alloc | rewrite mutate_snoc
        | rewrite deref_snoc ];
  cbv beta iota; unfold set_heap, set_registry, set_events;
  cbn [now past heap registry events entity_id].

Lemma reached_trans G l0 l1 l2 :
  reached G l0 l1 -> reached G l1 l2 -> reached G l0 l2.
Proof. induction 2; [done|]. by constructor. Qed.

Lemma reached_mono (G G' : State -> Prop) l0 l1 :
  (forall s, G s -> G' s) -> reached G l0 l1 -> reached G' l0 l1.
Proof. intros HG; induction 1; constructor; auto. Qed.

Lemma reached_elem G l0 l1 s : reached G l0 l1 -> s ∈ l1 -> s ∈ l0 \/ G s.
Proof.
  induction 1; [by left|]. intros [->|Hin]%elem_of_cons; [by right|auto].
Qed.

Lemma reached_app G l0 l1 : reached G l0 l1 -> exists news, l1 = news ++ l0 /\ Forall G news.
Proof.
  induction 1 as [|s l HG _ (news & -> & Hn)]; [by exists []|].
  exists (s :: news); split; [done|by constructor].
Qed.

Ltac step_in H :=
  first [ rewrite run_bind in H | rewrite run_ret in H | rewrite run_raise in H
        | rewrite run_get in H | rewrite run_update in H | rewrite run_alloc in H
        | rewrite mutate_snoc in H | rewrite deref_snoc in H ];
  cbv beta iota in H; unfold set_heap, set_registry, set_events in H;
  cbn [now past heap registry events entity_id] in H.

(** Case analysis on the test a run is waiting for. *)
Ltac branch H :=
  match type of H with
  | context [if ?c then _ else _] => destruct c eqn:?
  end.

Ltac finish_run H := injection H as <- <-.

(** Splitting a run of [m ≫= k] into the run of [m] and, when that
    returns, the run of [k]. *)
Ltac peel H Hm :=
  try rewrite run_bind in H;
  match type of H with
  | (match ?x with pair _ _ => _ end) = _ =>
      let o := fresh "o" in let tr := fresh "tr" in
      destruct x as [o tr] eqn:Hm; destruct o; cbv beta iota in H
  end.

Lemma building_0 ok h R ev o : ok o -> building ok (mkState h R ev) (mkState (h ++ [o]) R ev).
Proof. intros; exists o, []; cbn; by rewrite app_nil_r. Qed.

Lemma building_1 ok h R ev o e :
  ok o -> is_instance e ->
  building ok (mkState h R ev) (mkState (h ++ [o]) (R ++ [e]) ev).
Proof. intros; exists o, [e]; cbn; repeat split; auto. Qed.

Lemma building_2 ok h R ev o e e' :
  ok o -> is_instance e -> is_instance e' ->
  building ok (mkState h R ev) (mkState (h ++ [o]) ((R ++ [e]) ++ [e']) ev).
Proof. intros; exists o, [e; e']; cbn; rewrite <- app_assoc; repeat split; auto. Qed.

Lemma set_base_compose f g o : set_base f (set_base g o) = set_base (fun b => f (g b)) o.
Proof. by destruct o. Qed.

Ltac solve_reached tac :=
  unfold visited; cbn [now past];
  repeat first [ apply reached_here | apply reached_step; [tac|] ].

Ltac solve_building tac :=
  first [ apply building_0 | apply building_1 | apply building_2 ];
  first [ exact I | tac ].

Lemma first_free_ext (u u' : string -> bool) base i fuel :
  (forall n, u n = u' n) -> first_free u base i fuel = first_free u' base i fuel.
Proof.
  intros E. revert i. induction fuel as [|fuel IH]; intros i; cbn; [done|].
  rewrite E. by rewrite IH.
Qed.

Lemma allocate_name_ext (u u' : string -> bool) fuel c :
  (forall n, u n = u' n) -> allocate_name u fuel c = allocate_name u' fuel c.
Proof. intros E. unfold allocate_name. rewrite E. by rewrite (first_free_ext u u'). Qed.

(** ** Unique names *)

Lemma to_uint_not_Nil n : Nat.to_uint n <> Nil.
Proof.
  pose proof (Unsigned.to_of (Nat.to_uint n)) as H. rewrite Unsigned.of_to in H.
  intros E. rewrite E in H. discriminate.
Qed.

Lemma numbered_inj base i j : numbered base i = numbered base j -> i = j.
Proof.
  unfold numbered. intros H. repeat apply String.app_inj in H.
  apply (f_equal NilZero.uint_of_string) in H.
  rewrite !NilZero.usu in H by apply to_uint_not_Nil.
  injection H as H. by apply Unsigned.to_uint_inj.
Qed.

Lemma first_free_used (used : string -> bool) base fuel :
  forall i, used (first_free used base i fuel) = true ->
  forall k, i <= k <= i + fuel -> used (numbered base k) = true.
Proof.
  induction fuel as [|fuel IH]; intros i H k Hk; cbn in H.
  - by replace k with i by lia.
  - destruct (used (numbered base i)) eqn:E; [|congruence].
    destruct (decide (k = i)) as [->|Hne]; [done|]. apply (IH (S i) H). lia.
Qed.

Lemma allocate_name_free (used : string -> bool) (names : list string) fuel c :
  (forall n, used n = true -> n ∈ names) ->
  length names <= fuel ->
  used (allocate_name used fuel c) = false.
Proof.
  intros Hnames Hlen. unfold allocate_name. destruct (used c) eqn:E; [|done].
  destruct (used (first_free used c 2 fuel)) eqn:F; [exfalso|done].
  pose proof (first_free_used used c fuel 2 F) as Hall.
  assert (Hsub : numbered c <$> seq 2 (S fuel) ⊆+ names).
  { apply NoDup_submseteq.
    - apply NoDup_fmap_2; [intros i j; apply numbered_inj|apply NoDup_seq].
    - intros n (k & -> & Hk%elem_of_seq)%list_elem_of_fmap. apply Hnames, Hall. lia. }
  apply submseteq_length in Hsub. rewrite length_fmap, length_seq in Hsub. lia.
Qed.

Lemma stack_names_length st : length (stack_names st) <= 2 * length (registry st).
Proof.
  unfold stack_names. induction (registry st) as [|e r IH]; [done|].
  cbn [flat_map]. rewrite length_app. cbn [length].
  assert (length (if is_stack e
                  then option_list (entity_id (heap st) e)
                         ++ option_list (entity_name (heap st) e)
                  else []) <= 2); [|lia].
  destruct (is_stack e); [|cbn; lia]. rewrite length_app.
  destruct (entity_id (heap st) e), (entity_name (heap st) e); cbn; lia.
Qed.

Lemma in_use_by_stack_names st n : in_use_by_stack st n = true -> n ∈ stack_names st.
Proof.
  unfold in_use_by_stack, stack_names, has_id, opt_is.
  intros (e & Hin & He)%existsb_exists. apply list_elem_of_In, in_flat_map.
  exists e. split; [done|]. apply andb_true_iff in He as [-> He].
  apply list_elem_of_In, elem_of_app. apply orb_true_iff in He as [He|He].
  - left. destruct (entity_id (heap st) e); [|done].
    apply String.eqb_eq in He. subst. apply list_elem_of_here.
  - right. destruct (entity_name (heap st) e); [|done].
    apply String.eqb_eq in He. subst. apply list_elem_of_here.
Qed.

Lemma stack_unique_name_free st name d :
  in_use_by_stack st (stack_unique_name st name d) = false.
Proof.
  apply (allocate_name_free _ (stack_names st));
    [apply in_use_by_stack_names|apply stack_names_length].
Qed.

(** ** Association lists *)

Lemma assoc_app_l {V} k (xs ys : list (string * V)) v :
  assoc k xs = Some v -> assoc k (xs ++ ys) = Some v.
Proof.
  induction xs as [|[k' v'] xs IH]; [done|]. cbn. by destruct (String.eqb k k').
Qed.

Lemma assoc_app_r {V} k (xs ys : list (string * V)) :
  assoc k xs = None -> assoc k (xs ++ ys) = assoc k ys.
Proof.
  induction xs as [|[k' v'] xs IH]; [done|]. cbn. by destruct (String.eqb k k').
Qed.

Lemma assoc_snoc {V} k (xs : list (string * V)) v :
  assoc k xs = None -> assoc k (xs ++ [(k, v)]) = Some v.
Proof. intros H. rewrite assoc_app_r by done. cbn. by rewrite String.eqb_refl. Qed.

(** ** What later steps keep of an object *)

Lemma base_kept_refl b : base_kept b b.
Proof. by repeat split. Qed.

Lemma base_kept_quality c b : base_kept b (with_slot Quality c b).
Proof. by repeat split. Qed.

Lemma base_kept_trans b1 b2 b3 : base_kept b1 b2 -> base_kept b2 b3 -> base_kept b1 b3.
Proof. unfold base_kept. intuition congruence. Qed.

Lemma obj_kept_refl o : obj_kept o o.
Proof.
  destruct o; cbn; (split; [|by exists []; rewrite app_nil_r]) || split;
    auto using base_kept_refl.
Qed.

Lemma obj_kept_trans o1 o2 o3 : obj_kept o1 o2 -> obj_kept o2 o3 -> obj_kept o1 o3.
Proof.
  destruct o1, o2, o3; cbn; try tauto.
  - intros [H1 [m1 ->]] [H2 [m2 ->]]. split; [eauto using base_kept_trans|].
    exists (m1 ++ m2). by rewrite app_assoc.
  - intros [-> H1] [-> H2]. eauto using base_kept_trans.
Qed.

Lemma heap_kept_refl h : heap_kept h h.
Proof. intros l o H. eauto using obj_kept_refl. Qed.

Lemma heap_kept_trans h1 h2 h3 : heap_kept h1 h2 -> heap_kept h2 h3 -> heap_kept h1 h3.
Proof.
  intros H1 H2 l o Hl. destruct (H1 l o Hl) as (o' & Hl' & K1).
  destruct (H2 l o' Hl') as (o'' & Hl'' & K2). eauto using obj_kept_trans.
Qed.

Lemma heap_kept_app h o : heap_kept h (h ++ [o]).
Proof.
  intros l o' H. exists o'. split; [|apply obj_kept_refl].
  rewrite lookup_app_l; [done|]. by eapply lookup_lt_Some.
Qed.

Lemma heap_kept_insert h l o o' :
  h !! l = Some o -> obj_kept o o' -> heap_kept h (<[l := o']> h).
Proof.
  intros Hl K l' o1 Hl'. destruct (decide (l = l')) as [<-|Hne].
  - exists o'. rewrite list_lookup_insert_eq by (by eapply lookup_lt_Some).
    split; [done|]. congruence.
  - exists o1. rewrite list_lookup_insert_ne by done. eauto using obj_kept_refl.
Qed.

Lemma heap_kept_length h h' : heap_kept h h' -> length h <= length h'.
Proof.
  intros K. destruct (decide (length h <= length h')) as [|Hn]; [done|].
  destruct (lookup_lt_is_Some_2 h (length h')) as [o Ho]; [lia|].
  destruct (K _ _ Ho) as (o' & Ho' & _). apply lookup_lt_Some in Ho'. lia.
Qed.

Lemma attached_kept s s' gs l p :
  attached s gs l p -> heap_kept (heap s) (heap s') -> attached s' gs l p.
Proof.
  intros (eb & gb & xs & d & Hl & Hp & Hd & Hdp & Hg & Hx) K.
  destruct (K _ _ Hl) as (o' & Hl' & Kl). destruct (K _ _ Hg) as (g' & Hg' & Kg).
  destruct o' as [|eb' n']; [done|]. destruct g' as [gb' xs'|]; [|done].
  destruct Kl as [-> (_ & _ & Hm & Hdef & _)]. destruct Kg as [_ [more ->]].
  exists eb', gb', (xs ++ more), d. rewrite Hm, Hdef.
  split_and!; auto using assoc_app_l.
Qed.

(** ** Keeping the invariant *)

Lemma wf_state_elim st l : wf_state st -> EStack l ∈ registry st -> l < length (heap st).
Proof.
  unfold wf_state. rewrite forallb_forall. intros H Hin%list_elem_of_In.
  apply H in Hin. cbn in Hin. by apply Nat.ltb_lt.
Qed.

Lemma Inv_start st : wf_state st -> Inv st st.
Proof.
  intros Hwf. split; [done| |done|intros l; by apply wf_state_elim].
  exists []. split; [by rewrite app_nil_r|apply Forall_nil_2].
Qed.

Lemma added_ok_kept st s s' e :
  added_ok st s e -> heap_kept (heap s) (heap s') -> added_ok st s' e.
Proof.
  intros [Hi|(l & p & -> & Hge & Hat)] K; [by left|].
  right. exists l, p. eauto using attached_kept.
Qed.

Lemma Inv_kept st s s' adds :
  Inv st s ->
  heap_kept (heap s) (heap s') ->
  registry s' = registry s ++ adds ->
  Forall (added_ok st s') adds ->
  Inv st s'.
Proof.
  intros [Hwf (adds0 & Hr0 & Hd0) Hlen Hex] K Hr Hadds.
  pose proof (heap_kept_length _ _ K) as Hle.
  split; [done| |lia|].
  - exists (adds0 ++ adds). rewrite Hr, Hr0, app_assoc. split; [done|].
    apply Forall_app. split; [|done].
    eapply Forall_impl; [exact Hd0|]. eauto using added_ok_kept.
  - intros l Hl. rewrite Hr in Hl. apply elem_of_app in Hl as [Hl|Hl].
    + apply Hex in Hl. lia.
    + rewrite Forall_forall in Hadds.
      destruct (Hadds _ Hl) as [[]|(l' & p & [= <-] & _ & Hat)].
      destruct Hat as (? & ? & ? & ? & Hlk & _). by eapply lookup_lt_Some.
Qed.

Lemma inv_new st s l :
  Inv st s -> EStack l ∈ registry s -> EStack l ∉ registry st ->
  length (heap st) <= l /\ exists p, attached s (length (heap st)) l p.
Proof.
  intros [_ (adds & Hr & Hadds) _ _] Hl Hnew. rewrite Hr in Hl.
  apply elem_of_app in Hl as [Hl|Hl]; [done|].
  rewrite Forall_forall in Hadds.
  destruct (Hadds _ Hl) as [[]|(l' & p & [= <-] & Hge & Hat)]. eauto.
Qed.

Lemma inv_no_definition st s :
  Inv st s ->
  exists adds, registry s = registry st ++ adds /\ Forall (fun e => ~ is_definition e) adds.
Proof.
  intros [_ (adds & Hr & Hadds) _ _]. exists adds. split; [done|].
  eapply Forall_impl; [exact Hadds|]. intros e [Hi|(l & p & -> & _)]; [|by intros []].
  destruct e; cbn in *; tauto.
Qed.

Lemma Inv_quiet st s s' : Inv st s -> quiet s s' -> Inv st s'.
Proof.
  intros HI [Hh Hr]. eapply (Inv_kept st s s' []); auto.
  - rewrite Hh. apply heap_kept_refl.
  - by rewrite app_nil_r.
Qed.

Lemma Inv_building ok st s s' : Inv st s -> building ok s s' -> Inv st s'.
Proof.
  intros HI (o & R' & Hh & Hr & HR' & _ & _). eapply Inv_kept; eauto.
  - rewrite Hh. apply heap_kept_app.
  - eapply Forall_impl; [exact HR'|]. by left.
Qed.

Section Proofs.
Variable app : Application.

Lemma createUserChangesContainer_run n d sid g tr :
  exists c, createUserChangesContainer app n d sid g tr = (Return c, tr) /\
            type_agrees UserChanges c = true.
Proof.
  eexists; split; [reflexivity|]. by destruct g.
Qed.

Lemma createDefinitionChangesContainer_run h o R ev ps n bottom :
  definition (stack_base o) = Some bottom ->
  exists dc, type_agrees DefinitionChanges dc = true /\
    createDefinitionChangesContainer app (length h) n (mkTrace (mkState (h ++ [o]) R ev) ps) =
    if existsb (has_id (mkState (h ++ [o]) R ev) (ic_id dc)) R
    then (Raise (DuplicateIdError (ic_id dc)), mkTrace (mkState (h ++ [o]) R ev) ps)
    else (Return dc,
          mkTrace (mkState (h ++ [set_base (with_slot DefinitionChanges dc) o])
                     (R ++ [EInstance dc]) ev)
            (mkState (h ++ [o]) (R ++ [EInstance dc]) ev
               :: mkState (h ++ [o]) R ev :: ps)).
Proof.
  intros Hd.
  exists (ic_addMetaDataEntry "setting_version" (VInt (SettingVersion app))
            (ic_addMetaDataEntry "type" (VStr "definition_changes")
               (ic_setDefinition (def_id bottom)
                  (new_InstanceContainer
                     (allocate_name (in_use (mkState (h ++ [o]) R ev))
                        (2 * length R) n))))).
  split; [reflexivity|].
  unfold createDefinitionChangesContainer, uniqueName, addContainer, assign.
  repeat step. rewrite Hd. repeat step.
  match goal with |- context [existsb ?f ?l] => destruct (existsb f l) end.
  - by repeat step.
  - repeat step.
    match goal with |- context [type_agrees ?a ?b] =>
      replace (type_agrees a b) with true by reflexivity end.
    by repeat step.
Qed.

Lemma finish_stack_run (ok : StackObj -> Prop) h o R ev ps sid did g vc mc qc out tr' bottom :
  definition (stack_base o) = Some bottom ->
  ok o ->
  (forall o sl c, ok o -> (sl = Variant -> c = vc) -> (sl = Material -> c = mc) ->
                  ok (set_base (with_slot sl c) o)) ->
  finish_stack app sid did g (length h) vc mc qc (mkTrace (mkState (h ++ [o]) R ev) ps)
    = (out, tr') ->
  reached (building ok (mkState h R ev)) (mkState (h ++ [o]) R ev :: ps) (visited tr') /\
  forall l, out = Return l ->
    l = length h /\
    exists f uc dc,
      now tr' = mkState (h ++ [set_base f o]) (R ++ [EInstance dc; EInstance uc]) ev /\
      ok (set_base f o) /\
      finished (stack_base o) (f (stack_base o)) vc mc qc uc dc.
Proof.
  intros Hd Hok Hpres H.
  unfold finish_stack, assign, addContainer in H.
  destruct (createUserChangesContainer_run (sid +:+ "_user") did sid g
              (mkTrace (mkState (h ++ [o]) R ev) ps)) as (uc & Huc & Tuc).
  destruct (createDefinitionChangesContainer_run h o R ev ps (sid +:+ "_settings") bottom Hd)
    as (dc & Tdc & Hdc).
  step_in H. rewrite Huc in H. step_in H. rewrite Hdc in H.
  repeat first [ step_in H | rewrite Tdc in H | rewrite Tuc in H
               | progress cbv beta iota in H | branch H ].
  all: finish_run H.
  all: split;
    [ solve_reached ltac:(solve_building
        ltac:(repeat (apply Hpres; [| intros; first [reflexivity | discriminate] ..]);
              exact Hok))
    | intros l [= <-] || (intros ? [=]) ].
  split; [done|].
  match goal with |- context [mkState (h ++ [?x]) _ _] => assert (Hx : ok x) end.
  { repeat (apply Hpres; [| intros; first [reflexivity | discriminate] ..]); exact Hok. }
  rewrite !set_base_compose in *.
  eexists _, uc, dc; split_and!.
  - by rewrite <- app_assoc.
  - exact Hx.
  - by repeat split.
Qed.
Lemma createExtruderStack_run id d mid p vc mc qc tr out tr' :
  createExtruderStack app id d mid p vc mc qc tr = (out, tr') ->
  reached (building fresh_extruder (now tr)) (visited tr) (visited tr') /\
  forall l, out = Return l ->
    l = length (heap (now tr)) /\
    exists eb,
      now tr' = mkState (heap (now tr) ++ [ExtruderStack eb None])
                  (registry (now tr)
                     ++ [EInstance (definitionChanges eb); EInstance (userChanges eb)])
                  (events (now tr)) /\
      stack_id eb = id /\ stack_name eb = def_name d /\
      stack_metadata eb = [("position", VStr p)] /\ definition eb = Some d /\
      variant eb = vc /\ material eb = mc /\ quality eb = qc.
Proof.
  destruct tr as [[h R ev] ps]. intros H.
  change (createExtruderStack app id d mid p vc mc qc) with
    (alloc (ExtruderStack (new_stack app id) None) ≫= fun stack =>
     setName stack (def_name d) ≫= fun _ =>
     setDefinition stack d ≫= fun _ =>
     addMetaDataEntry stack "position" (VStr p) ≫= fun _ =>
     finish_stack app id mid false stack vc mc qc) in H.
  unfold setName, setDefinition, addMetaDataEntry in H.
  repeat step_in H. cbn [set_base] in H.
  eapply (finish_stack_run fresh_extruder) in H as [Hr Hpost]; cycle 1.
  - reflexivity.
  - by eexists _, _.
  - intros o sl c (eb & n & ->) _ _. by eexists _, _.
  - cbn [now heap registry events]. split.
    + eapply reached_trans; [|exact Hr].
      solve_reached ltac:(solve_building ltac:(by eexists _, _)).
    + intros l Hl. destruct (Hpost l Hl) as (-> & f & uc & dc & Hnow & _ & Hfin).
      split; [done|]. cbn [set_base stack_base] in *.
      destruct Hfin as (? & ? & ? & ? & ? & ? & ? & <- & <-).
      by eexists.
Qed.

Lemma createGlobalStack_run id d qc tr out tr' :
  createGlobalStack app id d (empty_variant_container app) (empty_material_container app) qc tr
    = (out, tr') ->
  reached (building (fresh_global app) (now tr)) (visited tr) (visited tr') /\
  forall l, out = Return l ->
    l = length (heap (now tr)) /\
    exists gb,
      now tr' = mkState (heap (now tr) ++ [GlobalStack gb []])
                  (registry (now tr)
                     ++ [EInstance (definitionChanges gb); EInstance (userChanges gb)])
                  (events (now tr)) /\
      stack_id gb = id /\ stack_name gb = id /\ definition gb = Some d /\
      variant gb = empty_variant_container app /\
      material gb = empty_material_container app /\ quality gb = qc.
Proof.
  destruct tr as [[h R ev] ps]. intros H.
  change (createGlobalStack app id d (empty_variant_container app)
            (empty_material_container app) qc) with
    (alloc (GlobalStack (new_stack app id) []) ≫= fun stack =>
     setDefinition stack d ≫= fun _ =>
     finish_stack app id (def_id d) true stack (empty_variant_container app)
       (empty_material_container app) qc) in H.
  unfold setDefinition in H.
  repeat step_in H. cbn [set_base] in H.
  assert (Hfresh : forall b, plain app b -> fresh_global app (GlobalStack b []))
    by (intros; by eexists).
  eapply (finish_stack_run (fresh_global app)) in H as [Hr Hpost]; cycle 1.
  - reflexivity.
  - apply Hfresh. split; by right.
  - intros o sl c (gb & -> & [Hv Hm]) Hsv Hsm. apply Hfresh.
    destruct sl; cbn; split; auto; left; auto.
  - cbn [now heap registry events]. split.
    + eapply reached_trans; [|exact Hr].
      solve_reached ltac:(solve_building ltac:(apply Hfresh; split; by right)).
    + intros l Hl. destruct (Hpost l Hl) as (-> & f & uc & dc & Hnow & _ & Hfin).
      split; [done|]. cbn [set_base stack_base] in *.
      destruct Hfin as (? & ? & ? & ? & ? & ? & ? & <- & <-).
      by eexists.
Qed.

(** ** Keeping the invariant of a run *)

Lemma Safe_start st : wf_state st -> Safe app st st.
Proof.
  intros Hwf. split; [by apply Inv_start|].
  intros gb xs H. apply lookup_lt_Some in H. lia.
Qed.

Lemma Safe_quiet st s s' : Safe app st s -> quiet s s' -> Safe app st s'.
Proof.
  intros [HI HP] Hq. split; [eauto using Inv_quiet|].
  destruct Hq as [Hh _]. unfold global_plain. by rewrite Hh.
Qed.

Lemma Safe_kept st s s' adds :
  Safe app st s ->
  length (heap st) < length (heap s) ->
  heap_kept (heap s) (heap s') ->
  registry s' = registry s ++ adds ->
  Forall (added_ok st s') adds ->
  Safe app st s'.
Proof.
  intros [HI HP] Hlt K Hr Hadds. split; [eauto using Inv_kept|].
  intros gb' xs' Hg'.
  destruct (lookup_lt_is_Some_2 (heap s) (length (heap st)) Hlt) as [o Ho].
  destruct (K _ _ Ho) as (o' & Ho' & Ko). rewrite Hg' in Ho'. injection Ho' as <-.
  destruct o as [gb xs|]; [|done]. destruct Ko as [Kb _].
  destruct (HP gb xs Ho) as [Hv Hm].
  destruct Kb as (_ & _ & _ & _ & Hv' & Hm' & _). unfold plain. by rewrite Hv', Hm'.
Qed.

Lemma Safe_building_global st s s' :
  Safe app st s -> length (heap s) = length (heap st) ->
  building (fresh_global app) s s' -> Safe app st s'.
Proof.
  intros [HI HP] Hlen Hb. split; [eauto using Inv_building|].
  destruct Hb as (o & R' & Hh & _ & _ & _ & (gb & -> & Hpl)).
  intros gb' xs'. rewrite Hh, <- Hlen, lookup_snoc. by intros [= <- <-].
Qed.

Lemma Safe_building st s s' ok :
  Safe app st s -> length (heap st) < length (heap s) ->
  building ok s s' -> Safe app st s'.
Proof.
  intros HS Hlt (o & R' & Hh & Hr & HR' & _ & _). eapply Safe_kept; eauto.
  - rewrite Hh. apply heap_kept_app.
  - eapply Forall_impl; [exact HR'|]. by left.
Qed.

(** ** The steps before the global stack *)

Lemma quiet_refl s : quiet s s.
Proof. by split. Qed.

Lemma quiet_events s ev : quiet s (mkState (heap s) (registry s) ev).
Proof. by split. Qed.

Lemma select_variant_run d id tr out tr' :
  select_variant app d id tr = (out, tr') ->
  reached (quiet (now tr)) (visited tr) (visited tr') /\ quiet (now tr) (now tr') /\
  forall x, out = Return x -> chosen_variant app d id = Some x.
Proof.
  unfold select_variant, chosen_variant, emit. intros H.
  repeat first [ step_in H | progress cbv beta iota in H | branch H ].
  2,3: finish_run H; split_and!; [solve_reached fail|apply quiet_refl|by intros ? [= <-]].
  destruct (getVariantNode app id _); repeat step_in H; finish_run H.
  all: split_and!; [solve_reached ltac:(apply quiet_events)|apply quiet_events|].
  all: by intros ? [= <-].
Qed.

Lemma select_material_run d id vn tr out tr' :
  select_material app d id vn tr = (out, tr') ->
  reached (quiet (now tr)) (visited tr) (visited tr') /\ quiet (now tr) (now tr') /\
  forall x, out = Return x -> chosen_material app d id vn = Some x.
Proof.
  unfold select_material, chosen_material, emit. intros H.
  repeat first [ step_in H | progress cbv beta iota in H | branch H ].
  2: finish_run H; split_and!; [solve_reached fail|apply quiet_refl|by intros ? [= <-]].
  destruct (getProperty d "material_diameter") as [dia|]; repeat step_in H.
  2: finish_run H; split_and!; [solve_reached fail|apply quiet_refl|by intros ? [=]].
  destruct (getMaterialNode app id vn dia _); repeat step_in H; finish_run H.
  all: split_and!;
    [solve_reached ltac:(first [apply quiet_events|by split])|by split|].
  all: by intros ? [= <-].
Qed.

Lemma entities_with_id_nil st id :
  entities_with_id st id = [] <-> existsb (has_id st id) (registry st) = false.
Proof.
  unfold entities_with_id. induction (registry st) as [|e r IH]; [done|].
  rewrite filter_cons. cbn [existsb]. destruct (has_id st id e) eqn:E.
  - rewrite decide_True by done. cbn. split; discriminate.
  - rewrite decide_False by (by rewrite not_true_iff_false). by cbn.
Qed.

Lemma generate_name_run name d tr :
  generate_name name d tr = (Return (machine_name (now tr) name d), tr).
Proof.
  unfold generate_name, createUniqueName, findContainersMetadata, uniqueName, machine_name,
    stack_unique_name.
  repeat step. rewrite andb_diag.
  destruct (String.eqb name "") eqn:E; cbn [negb]; repeat step.
  all: match goal with |- context [entities_with_id ?s ?n] =>
         pose proof (entities_with_id_nil s n) as Hn;
         destruct (entities_with_id s n) end.
  all: destruct (existsb _ (registry (now tr))) eqn:Ex; try (by repeat step).
  all: try (destruct Hn as [Hn _]; by specialize (Hn eq_refl)).
  all: destruct Hn as [_ Hn]; by specialize (Hn eq_refl).
Qed.

Lemma in_use_quiet s s' n : quiet s s' -> in_use s' n = in_use s n.
Proof. intros [Hh Hr]. unfold in_use, has_id. by rewrite Hh, Hr. Qed.

Lemma in_use_by_stack_quiet s s' n : quiet s s' -> in_use_by_stack s' n = in_use_by_stack s n.
Proof. intros [Hh Hr]. unfold in_use_by_stack, has_id. by rewrite Hh, Hr. Qed.

Lemma quiet_trans s1 s2 s3 : quiet s1 s2 -> quiet s2 s3 -> quiet s1 s3.
Proof. intros [? ?] [? ?]. split; congruence. Qed.

Lemma machine_name_quiet s s' name d : quiet s s' -> machine_name s' name d = machine_name s name d.
Proof.
  intros Hq. pose proof Hq as [Hh Hr]. unfold machine_name, stack_unique_name, has_id.
  rewrite Hh, Hr.
  rewrite (allocate_name_ext (in_use_by_stack s') (in_use_by_stack s))
    by (intros; by apply in_use_by_stack_quiet).
  by rewrite (allocate_name_ext (in_use s') (in_use s)) by (intros; by apply in_use_quiet).
Qed.

Lemma prepare_machine_run name id d tr out tr' :
  wf_state (now tr) ->
  prepare_machine app name id d tr = (out, tr') ->
  reached (Safe app (now tr)) (visited tr) (visited tr') /\
  forall gs vc mc, out = Return (gs, vc, mc) ->
    gs = length (heap (now tr)) /\
    (exists vn, chosen_variant app d id = Some (vn, vc) /\
                chosen_material app d id vn = Some mc) /\
    Assembled app (now tr) (machine_name (now tr) name d) d vc mc [] [] (now tr') /\
    (exists gb, heap (now tr') !! gs = Some (GlobalStack gb []) /\
                quality gb = empty_quality_container app).
Proof.
  intros Hwf H. pose proof (Safe_start _ Hwf) as HS0.
  unfold prepare_machine in H.
  peel H Hv; [|finish_run H].
  2: { apply select_variant_run in Hv as (Hr & _ & _). split; [|by intros ??? [=]].
       eapply reached_mono; [|exact Hr]. eauto using Safe_quiet. }
  destruct a as [vn vc]. apply select_variant_run in Hv as (Hr1 & Hq1 & Hcv).
  specialize (Hcv _ eq_refl).
  assert (R1 : reached (Safe app (now tr)) (visited tr) (visited tr0)).
  { eapply reached_mono; [|exact Hr1]. eauto using Safe_quiet. }
  peel H Hm; apply select_material_run in Hm as (Hr2 & Hq2 & Hcm);
    pose proof (quiet_trans _ _ _ Hq1 Hq2) as Hq;
    assert (R2 : reached (Safe app (now tr)) (visited tr) (visited tr1))
      by (eapply reached_trans; [exact R1|]; eapply reached_mono; [|exact Hr2];
          eauto using Safe_quiet, quiet_trans);
    [|finish_run H; split; [done|by intros ??? [=]]].
  specialize (Hcm _ eq_refl).
  rewrite run_bind, generate_name_run in H. cbv beta iota in H.
  rewrite (machine_name_quiet _ _ _ _ Hq) in H.
  set (gname := machine_name (now tr) name d) in *.
  peel H Hg; [|finish_run H].
  2: { apply createGlobalStack_run in Hg as [Hr3 _]. split; [|by intros ??? [=]].
       eapply reached_trans; [exact R2|]. eapply reached_mono; [|exact Hr3].
       intros s Hb. apply (Safe_building_global (now tr) (now tr1));
         [eauto using Safe_quiet| |exact Hb].
       destruct Hq as [-> _]. done. }
  apply createGlobalStack_run in Hg as [Hr3 Hpost].
  destruct (Hpost _ eq_refl) as (-> & gb & Hnow & Hid & Hname & Hdef & Hvar & Hmat & Hqual).
  assert (R3 : reached (Safe app (now tr)) (visited tr) (visited tr2)).
  { eapply reached_trans; [exact R2|]. eapply reached_mono; [|exact Hr3].
    intros s Hb. apply (Safe_building_global (now tr) (now tr1));
      [eauto using Safe_quiet| |exact Hb].
    destruct Hq as [-> _]. done. }
  destruct tr2 as [s2 ps2]. cbn [now] in Hnow. subst s2.
  unfold setName in H. repeat step_in H. cbn [set_base] in H. finish_run H.
  assert (Hsame : with_name gname gb = gb).
  { destruct gb; cbn in *. by subst. }
  rewrite Hsame.
  assert (HS : Safe app (now tr)
                 (mkState (heap (now tr1) ++ [GlobalStack gb []])
                    (registry (now tr1)
                       ++ [EInstance (definitionChanges gb); EInstance (userChanges gb)])
                    (events (now tr1)))).
  { apply (Safe_building_global (now tr) (now tr1));
      [eauto using Safe_quiet|by destruct Hq as [-> _]|].
    eexists _, _. split_and!; [done|done|repeat constructor|done|].
    eexists. split; [done|]. split; by left. }
  destruct Hq as [Hh Hr]. rewrite Hh, Hr in *.
  split.
  - unfold visited. cbn [now past]. apply reached_step; [done|]. exact R3.
  - intros gs vc' mc' [= <- <- <-]. cbn [now heap]. split_and!; [done|eauto| |].
    + split; [done| | | |].
      * exists gb. unfold added. cbn [heap registry]. rewrite lookup_snoc, drop_app_length.
        split_and!; try done.
        -- apply list_elem_of_further, list_elem_of_here.
        -- apply list_elem_of_here.
      * constructor.
      * unfold added. cbn [registry]. by rewrite drop_app_length.
      * constructor.
    + exists gb. by rewrite lookup_snoc.
Qed.

(** ** One extruder *)

Lemma Forall_instances2 c c' : Forall is_instance [EInstance c; EInstance c'].
Proof. repeat (apply Forall_cons_2; [exact I|]). apply Forall_nil_2. Qed.

Lemma definitions_stable st s id : Inv st s -> definitions_with_id s id = definitions_with_id st id.
Proof.
  intros (adds & Hr & Hd)%inv_no_definition. unfold definitions_with_id. rewrite Hr, omap_app.
  rewrite <- (app_nil_r (omap _ (registry st))) at 2. f_equal. clear Hr.
  induction Hd as [|e adds He _ IH]; [done|]. cbn. rewrite IH.
  destruct e; cbn in *; tauto.
Qed.

Lemma py_ne_str_false v p : py_ne_str v p = false -> v = VStr p.
Proof.
  destruct v; cbn; try discriminate. intros H%negb_false_iff%String.eqb_eq. by subst.
Qed.

Lemma built_kept st s s' vc mc item x :
  built st s vc mc item x ->
  heap_kept (heap s) (heap s') ->
  (forall e, e ∈ registry s -> e ∈ registry s') ->
  built st s' vc mc item x.
Proof.
  intros (Hp & Hlt & Hreg & eb & de & Hl & Hv & Hm & Hd & Hde & Hpos) K Hsub.
  destruct (K _ _ Hl) as (o' & Hl' & Ko). destruct o' as [|eb' n']; [done|].
  destruct Ko as [-> (_ & _ & Hmeta & Hdef & Hvar & Hmat & _)].
  split_and!; auto. exists eb', de. rewrite Hmeta, Hdef, Hvar, Hmat. by split_and!.
Qed.

Lemma built_bound st s vc mc items xs :
  Forall2 (built st s vc mc) items xs -> Inv st s ->
  Forall (fun x => x.2 < length (heap s)) xs.
Proof.
  intros H HI. induction H as [|item x items xs Hb _ IH]; [apply Forall_nil_2|].
  apply Forall_cons_2; [|done]. destruct Hb as (_ & _ & Hreg & _).
  by apply (inv_exists _ _ HI).
Qed.

Lemma stacks_of_app r r' : stacks_of (r ++ r') = stacks_of r ++ stacks_of r'.
Proof. apply omap_app. Qed.

Lemma added_app st s s' adds :
  Inv st s -> registry s' = registry s ++ adds -> added st s' = added st s ++ adds.
Proof.
  intros [_ (adds0 & Hr & _) _ _] Hr'. unfold added.
  by rewrite Hr', Hr, <- app_assoc, !drop_app_length.
Qed.

Lemma added_same st s s' : registry s' = registry s -> added st s' = added st s.
Proof. unfold added. by intros ->. Qed.

Lemma deref_at l o tr : heap (now tr) !! l = Some o -> deref l tr = (Return o, tr).
Proof. unfold deref. by intros ->. Qed.

Lemma mutate_at l o f tr :
  heap (now tr) !! l = Some o ->
  mutate l f tr =
  match f o with
  | Return o' =>
      (Return tt,
       mkTrace (mkState (<[l := o']> (heap (now tr))) (registry (now tr)) (events (now tr)))
         (now tr :: past tr))
  | Raise e => (Raise e, tr)
  end.
Proof. unfold mutate. by intros ->. Qed.

Lemma addExtruder_run h eb n gb xs R ev ps gs p :
  h !! gs = Some (GlobalStack gb xs) ->
  lookup_meta (stack_metadata eb) "position" VNone = VStr p ->
  addExtruder gs (length h) (mkTrace (mkState (h ++ [ExtruderStack eb n]) R ev) ps) =
  match assoc p xs with
  | Some _ =>
      (Raise (DuplicatePositionError p), mkTrace (mkState (h ++ [ExtruderStack eb n]) R ev) ps)
  | None =>
      (Return tt,
       mkTrace (mkState (<[gs := GlobalStack gb (xs ++ [(p, length h)])]> h
                           ++ [ExtruderStack eb (Some gs)]) R ev)
         (mkState (h ++ [ExtruderStack eb n]) R ev :: ps))
  end.
Proof.
  intros Hg Hp. pose proof (lookup_lt_Some _ _ _ Hg) as Hlt.
  unfold addExtruder. repeat step. cbn [stack_base]. rewrite Hp.
  rewrite run_bind, (deref_at gs (GlobalStack gb xs))
    by (cbn [now heap]; by rewrite lookup_app_l).
  cbv beta iota. destruct (assoc p xs); [done|].
  cbn [now heap past]. unfold set_heap. cbn [registry events heap].
  rewrite insert_app_l by done.
  rewrite <- (length_insert h gs (GlobalStack gb (xs ++ [(p, length h)]))) at 1.
  by rewrite insert_snoc.
Qed.

Lemma create_extruder_run st name d vc mc items xs id p e tr out tr' :
  Assembled app st name d vc mc items xs (now tr) ->
  create_extruder app id (length (heap st)) vc mc (p, e) tr = (out, tr') ->
  reached (Safe app st) (visited tr) (visited tr') /\
  forall u, out = Return u ->
    exists l, Assembled app st name d vc mc (items ++ [(p, e)]) (xs ++ [(p, l)]) (now tr').
Proof.
  intros HA H.
  destruct HA as [HS (gb & Hg & Hid & Hname & Hdef & Hvar & Hmat & Hu & Hdc) Hext Hstacks Hnd].
  pose proof (lookup_lt_Some _ _ _ Hg) as Hlt.
  destruct tr as [[h R ev] ps]; cbn [now heap registry events] in *.
  unfold create_extruder, findDefinitionContainers, uniqueName in H.
  repeat step_in H. rewrite (definitions_stable st) in H by apply HS.
  destruct (definitions_with_id st e) as [|de rest] eqn:Hde.
  { repeat step_in H. finish_run H. split; [constructor|by intros ? [=]]. }
  cbv beta iota in H. branch H.
  { repeat step_in H. finish_run H. split; [constructor|by intros ? [=]]. }
  match goal with Hpy : py_ne_str _ _ = false |- _ => apply py_ne_str_false in Hpy as Hpos end.
  repeat step_in H.
  peel H Hc; apply createExtruderStack_run in Hc as [Hr Hpost]; cbn [now heap registry events] in *;
    assert (R1 : reached (Safe app st) (mkState h R ev :: ps) (visited tr))
      by (eapply reached_mono; [|exact Hr]; intros s Hb; by eapply Safe_building);
    [|finish_run H; split; [done|by intros ? [=]]].
  destruct (Hpost _ eq_refl) as
    (-> & eb & Hnow & Hebid & Hebname & Hmeta & Hebdef & Hebvar & Hebmat & Hebq).
  destruct tr as [s1 ps1]. cbn [now] in Hnow. subst s1.
  unfold setNextStack in H. repeat step_in H.
  remember (R ++ [EInstance (definitionChanges eb); EInstance (userChanges eb)]) as R1s
    eqn:ER1s.
  assert (HS2 : Safe app st (mkState (h ++ [ExtruderStack eb (Some (length (heap st)))]) R1s ev)).
  { eapply (Safe_building st (mkState h R ev) _ (fun _ => True)); [done|done|].
    exists (ExtruderStack eb (Some (length (heap st)))),
      [EInstance (definitionChanges eb); EInstance (userChanges eb)].
    split_and!; [done|by subst R1s|apply Forall_instances2|done|done]. }
  rewrite (addExtruder_run _ _ _ gb xs _ _ _ _ p) in H by (done || by rewrite Hmeta).
  destruct (assoc p xs) eqn:Hfree; cbv beta iota in H.
  { finish_run H. split; [|by intros ? [=]]. apply reached_step; [done|]. exact R1. }
  match type of H with
  | context [addContainer _ (mkTrace (mkState ?hh _ _) _)] => remember hh as h3 eqn:Eh3
  end.
  assert (K23 : heap_kept (h ++ [ExtruderStack eb (Some (length (heap st)))]) h3).
  { subst h3. rewrite <- insert_app_l by done. eapply heap_kept_insert.
    - by rewrite lookup_app_l.
    - split; [apply base_kept_refl|by eexists]. }
  assert (Hl3 : h3 !! length h = Some (ExtruderStack eb (Some (length (heap st))))).
  { subst h3. apply lookup_snoc_at, length_insert. }
  assert (Hg3 : h3 !! length (heap st) = Some (GlobalStack gb (xs ++ [(p, length h)]))).
  { subst h3. rewrite lookup_app_l by (by rewrite length_insert).
    by apply list_lookup_insert_eq. }
  assert (HS3 : Safe app st (mkState h3 R1s ev)).
  { eapply (Safe_kept st _ _ []); [exact HS2| | exact K23 | by rewrite app_nil_r | constructor].
    cbn. rewrite length_app. cbn. lia. }
  unfold addContainer in H. repeat step_in H. rewrite Hl3 in H. cbn [fmap option_fmap option_map] in H.
  assert (Hat : attached (mkState h3 (R1s ++ [EStack (length h)]) ev)
                  (length (heap st)) (length h) p).
  { exists eb, gb, (xs ++ [(p, length h)]), de. cbn [heap].
    split_and!; [done|by rewrite Hmeta|done|done|done|by apply assoc_snoc]. }
  branch H; repeat step_in H; finish_run H.
  { split; [|by intros ? [=]].
    apply reached_step; [done|]. apply reached_step; [done|]. exact R1. }
  assert (HS4 : Safe app st (mkState h3 (R1s ++ [EStack (length h)]) ev)).
  { eapply (Safe_kept st (mkState h3 R1s ev) _ [EStack (length h)]);
      [exact HS3| |apply heap_kept_refl|done|].
    - cbn. subst h3. rewrite length_app, length_insert. cbn. lia.
    - apply Forall_cons_2; [|apply Forall_nil_2].
      right. exists (length h), p. split_and!; [done|lia|done]. }
  split.
  { repeat (apply reached_step; [done|]). exact R1. }
  intros _ _. exists (length h). cbn [now].
  assert (K : heap_kept h h3).
  { eapply heap_kept_trans; [apply heap_kept_app|exact K23]. }
  assert (Hsub : forall x, x ∈ R -> x ∈ R1s ++ [EStack (length h)]).
  { intros x Hx. subst R1s. rewrite !elem_of_app. auto. }
  assert (Hadded : added st (mkState h3 (R1s ++ [EStack (length h)]) ev)
                   = added st (mkState h R ev)
                     ++ [EInstance (definitionChanges eb); EInstance (userChanges eb);
                         EStack (length h)]).
  { apply added_app; [apply HS|]. cbn [registry]. subst R1s. by rewrite <- app_assoc. }
  split.
  - exact HS4.
  - exists gb. rewrite Hadded. cbn [heap]. split_and!; auto; apply elem_of_app; by left.
  - apply Forall2_app.
    + eapply Forall2_impl; [exact Hext|]. intros item x Hb.
      eapply built_kept; [exact Hb|exact K|exact Hsub].
    + constructor; [|constructor]. split_and!; cbn [fst snd heap registry]; [done|lia| |].
      * apply elem_of_app. right. apply list_elem_of_here.
      * exists eb, de. rewrite Hde, Hmeta. by split_and!.
  - rewrite Hadded, stacks_of_app, Hstacks, fmap_app. done.
  - rewrite fmap_app. apply NoDup_app. split_and!; [done| |apply NoDup_singleton].
    intros l Hl Hl2. apply list_elem_of_singleton in Hl2. subst l.
    apply list_elem_of_fmap in Hl as (x & Hx & Hin).
    pose proof (built_bound _ _ _ _ _ _ Hext (proj1 HS)) as Hb.
    rewrite Forall_forall in Hb. apply Hb in Hin. cbn in Hx, Hin. lia.
Qed.

(** ** The loop over the extruder trains *)

Lemma extruder_loop_run st name d vc mc id items :
  forall items0 xs0 tr out tr',
  Assembled app st name d vc mc items0 xs0 (now tr) ->
  for_each items (create_extruder app id (length (heap st)) vc mc) tr = (out, tr') ->
  reached (Safe app st) (visited tr) (visited tr') /\
  forall u, out = Return u ->
    exists xs, Assembled app st name d vc mc (items0 ++ items) (xs0 ++ xs) (now tr').
Proof.
  induction items as [|[p e] items IH]; intros items0 xs0 tr out tr' HA H.
  - cbn in H. rewrite run_ret in H. finish_run H. split; [constructor|].
    intros _ _. exists []. by rewrite !app_nil_r.
  - cbn [for_each] in H. peel H Hc.
    + apply (create_extruder_run _ _ _ _ _ _ _ _ _ _ _ _ _ HA) in Hc as [Hr Hpost].
      destruct (Hpost _ eq_refl) as [l HA'].
      destruct (IH _ _ _ _ _ HA' H) as [Hr' Hpost'].
      split; [eauto using reached_trans|].
      intros u Hu. destruct (Hpost' u Hu) as [xs Hxs].
      exists ((p, l) :: xs). rewrite <- !app_assoc in Hxs. exact Hxs.
    + apply (create_extruder_run _ _ _ _ _ _ _ _ _ _ _ _ _ HA) in Hc as [Hr _].
      finish_run H. split; [done|by intros ? [=]].
Qed.

(** ** The quality of the stacks *)

Lemma obj_kept_quality c o : obj_kept o (set_base (with_slot Quality c) o).
Proof.
  destruct o; cbn [obj_kept set_base].
  - split; [apply base_kept_quality|]. exists []. by rewrite app_nil_r.
  - split; [done|apply base_kept_quality].
Qed.

Lemma Assembled_kept st name d vc mc items xs s s' :
  Assembled app st name d vc mc items xs s ->
  heap_kept (heap s) (heap s') ->
  registry s' = registry s ->
  (forall gb, heap s !! length (heap st) = Some (GlobalStack gb xs) ->
              exists gb', heap s' !! length (heap st) = Some (GlobalStack gb' xs)) ->
  Assembled app st name d vc mc items xs s'.
Proof.
  intros [HS (gb & Hg & Hid & Hname & Hdef & Hvar & Hmat & Hu & Hdc) Hext Hstacks Hnd] K Hr Hgs.
  pose proof (lookup_lt_Some _ _ _ Hg) as Hlt.
  split.
  - eapply (Safe_kept st s s' []); [done|done|done|by rewrite app_nil_r|apply Forall_nil_2].
  - destruct (Hgs _ Hg) as [gb' Hg']. exists gb'.
    destruct (K _ _ Hg) as (o' & Ho' & Ko). rewrite Hg' in Ho'. injection Ho' as <-.
    destruct Ko as [(Kid & Kname & _ & Kdef & Kvar & Kmat & Ku & Kdc) _].
    rewrite (added_same _ _ _ Hr), Kid, Kname, Kdef, Kvar, Kmat, Ku, Kdc. by split_and!.
  - eapply Forall2_impl; [exact Hext|]. intros item x Hb.
    eapply built_kept; [exact Hb|exact K|]. by rewrite Hr.
  - by rewrite (added_same _ _ _ Hr).
  - done.
Qed.

Lemma Assembled_events st name d vc mc items xs s ev :
  Assembled app st name d vc mc items xs s ->
  Assembled app st name d vc mc items xs (mkState (heap s) (registry s) ev).
Proof.
  intros HA. eapply Assembled_kept; [exact HA|apply heap_kept_refl|done|eauto].
Qed.

Lemma Assembled_quality st name d vc mc items xs s l o c ev :
  Assembled app st name d vc mc items xs s ->
  heap s !! l = Some o ->
  Assembled app st name d vc mc items xs
    (mkState (<[l := set_base (with_slot Quality c) o]> (heap s)) (registry s) ev).
Proof.
  intros HA Hl. eapply Assembled_kept; [exact HA| |done|].
  - cbn [heap]. eapply heap_kept_insert; [exact Hl|apply obj_kept_quality].
  - intros gb Hg. cbn [heap]. destruct (decide (l = length (heap st))) as [->|Hne].
    + rewrite Hg in Hl. injection Hl as <-. eexists.
      apply list_lookup_insert_eq. by eapply lookup_lt_Some.
    + exists gb. by rewrite list_lookup_insert_ne.
Qed.

Lemma assign_run l sl c o tr :
  heap (now tr) !! l = Some o ->
  assign l sl c tr =
  if type_agrees sl c
  then (Return tt,
        mkTrace (mkState (<[l := set_base (with_slot sl c) o]> (heap (now tr)))
                   (registry (now tr)) (events (now tr)))
          (now tr :: past tr))
  else (Raise (InvalidContainerError sl), tr).
Proof.
  intros Hl. unfold assign. destruct (type_agrees sl c); [|done].
  by rewrite (mutate_at _ _ _ _ Hl).
Qed.

Lemma quality_loop_run st name d vc mc items xs g cq todo :
  forall done tr out tr',
  Assembled app st name d vc mc items xs (now tr) ->
  done ++ todo = xs ->
  Forall (quality_set g (now tr)) done ->
  (exists gb, heap (now tr) !! length (heap st) = Some (GlobalStack gb xs) /\ quality gb = cq) ->
  for_each todo (set_extruder_quality g) tr = (out, tr') ->
  reached (Safe app st) (visited tr) (visited tr') /\
  forall u, out = Return u ->
    Assembled app st name d vc mc items xs (now tr') /\
    Forall (quality_set g (now tr')) xs /\
    exists gb, heap (now tr') !! length (heap st) = Some (GlobalStack gb xs) /\ quality gb = cq.
Proof.
  induction todo as [|[p l] todo IH]; intros done tr out tr' HA Hxs Hdone Hgs H.
  - cbn in H. rewrite run_ret in H. finish_run H. split; [constructor|].
    intros _ _. rewrite app_nil_r in Hxs. by subst.
  - cbn [for_each] in H. rewrite run_bind in H. unfold set_extruder_quality in H at 1.
    destruct (assoc p (nodes_for_extruders g)) as [node|] eqn:Hnode.
    2: { rewrite run_raise in H. finish_run H. split; [constructor|by intros ? [=]]. }
    assert (Hin : (p, l) ∈ xs) by (rewrite <- Hxs, elem_of_app; right; apply list_elem_of_here).
    pose proof (asm_extruders _ _ _ _ _ _ _ _ _ HA) as Hext.
    destruct (proj1 (list_elem_of_lookup _ _) Hin) as [i Hi].
    destruct (Forall2_lookup_r _ _ _ _ _ Hext Hi) as (item & _ & Hb).
    destruct Hb as (_ & Hgt & _ & eb & de & Hl & _). cbn [snd] in *.
    rewrite (assign_run _ _ _ _ _ Hl) in H.
    destruct (type_agrees Quality (getContainer node)).
    2: { finish_run H. split; [constructor|by intros ? [=]]. }
    cbv beta iota in H.
    pose proof (Assembled_quality _ _ _ _ _ _ _ _ _ _ (getContainer node) (events (now tr))
                  HA Hl) as HA'.
    eapply (IH (done ++ [(p, l)])) in H as [Hr Hpost]; cycle 1.
    + exact HA'.
    + by rewrite <- app_assoc.
    + cbn [now]. apply Forall_app. split.
      * rewrite Forall_forall in Hdone |- *. intros [p' l'] Hx.
        destruct (Hdone _ Hx) as (node' & eb' & n' & Hn' & Hl' & Hq').
        exists node', eb', n'. cbn [heap fst snd] in *. split_and!; [done| |done].
        rewrite list_lookup_insert_ne; [done|]. intros <-.
        pose proof (asm_nodup _ _ _ _ _ _ _ _ _ HA) as Hnd.
        rewrite <- Hxs, fmap_app in Hnd. apply NoDup_app in Hnd as (_ & Hnd & _).
        apply (Hnd l).
        -- apply list_elem_of_fmap. by exists (p', l).
        -- cbn. apply list_elem_of_here.
      * apply Forall_cons_2; [|apply Forall_nil_2].
        exists node, (with_slot Quality (getContainer node) eb), (Some (length (heap st))).
        cbn [heap fst snd]. split_and!; [done| |done].
        by rewrite list_lookup_insert_eq by (by eapply lookup_lt_Some).
    + cbn [now heap]. destruct Hgs as (gb & Hg & Hq). exists gb.
      rewrite list_lookup_insert_ne by lia. done.
    + split; [|done]. eapply reached_trans; [|exact Hr].
      apply reached_step; [apply HA'|constructor].
Qed.

Lemma apply_quality_run st name d vc mc items xs tr out tr' :
  Assembled app st name d vc mc items xs (now tr) ->
  apply_quality app d (length (heap st)) tr = (out, tr') ->
  reached (Safe app st) (visited tr) (visited tr') /\
  forall u, out = Return u ->
    Assembled app st name d vc mc items xs (now tr') /\
    exists qt g,
      getMetaDataEntry d "preferred_quality_type" VNone = VStr qt /\
      assoc qt (getQualityGroups app (now tr) (length (heap st))) = Some g /\
      reached (Safe app st)
        (recorded (EvGetQualityGroups (length (heap st))) (now tr) :: visited tr)
        (visited tr') /\
      Forall (quality_set g (now tr')) xs /\
      exists gb, heap (now tr') !! length (heap st) = Some (GlobalStack gb xs) /\
                 quality gb = getContainer (node_for_global g).
Proof.
  intros HA H. unfold apply_quality, emit in H. repeat step_in H.
  pose proof (Assembled_events _ _ _ _ _ _ _ _
                (events (now tr) ++ [EvGetQualityGroups (length (heap st))]) HA) as HA1.
  assert (R1 : reached (Safe app st) (visited tr)
                 (recorded (EvGetQualityGroups (length (heap st))) (now tr) :: visited tr)).
  { apply reached_step; [apply HA1|constructor]. }
  unfold get_quality_group in H.
  destruct (getMetaDataEntry d "preferred_quality_type" VNone) as [| | |qt|] eqn:Hqt;
    try (repeat step_in H; finish_run H; split; [exact R1|by intros ? [=]]).
  destruct (assoc qt _) as [g|] eqn:Hgroup;
    try (repeat step_in H; finish_run H; split; [exact R1|by intros ? [=]]).
  destruct (asm_global _ _ _ _ _ _ _ _ _ HA1) as (gb & Hg & _).
  rewrite run_bind in H.
  match type of H with
  | context [assign ?l ?sl ?c ?t] => rewrite (assign_run l sl c (GlobalStack gb xs) t Hg) in H
  end.
  destruct (type_agrees Quality _);
    [|finish_run H; split; [exact R1|by intros ? [=]]].
  cbv beta iota in H. cbn [now past heap registry events] in H, Hg.
  pose proof (Assembled_quality _ _ _ _ _ _ _ _ _ _ (getContainer (node_for_global g))
                (events (now tr) ++ [EvGetQualityGroups (length (heap st))])
                HA1 Hg) as HA2.
  cbn [heap registry] in HA2.
  assert (Hg2 : <[length (heap st) := set_base (with_slot Quality
                    (getContainer (node_for_global g))) (GlobalStack gb xs)]> (heap (now tr))
                !! length (heap st)
                = Some (GlobalStack (with_slot Quality (getContainer (node_for_global g)) gb) xs)).
  { apply list_lookup_insert_eq. by eapply lookup_lt_Some. }
  rewrite run_bind in H.
  match type of H with
  | context [deref ?l ?t] => rewrite (deref_at l _ t Hg2) in H
  end.
  cbv beta iota in H.
  eapply (quality_loop_run _ _ _ _ _ _ _ g (getContainer (node_for_global g)) xs [])
    in H as [Hr Hpost]; cycle 1.
  - exact HA2.
  - done.
  - apply Forall_nil_2.
  - cbn [now heap]. eexists. split; [exact Hg2|done].
  - assert (R2 : reached (Safe app st)
                   (recorded (EvGetQualityGroups (length (heap st))) (now tr) :: visited tr)
                   (visited tr')).
    { eapply reached_trans; [|exact Hr]. apply reached_step; [apply HA2|constructor]. }
    split; [eauto using reached_trans|].
    intros u Hu. destruct (Hpost u Hu) as (HA' & Hq & Hgq).
    split; [done|]. exists qt, g. by split_and!.
Qed.

(** ** createMachine as a whole *)

Lemma createMachine_not_found name id st :
  definitions_with_id st id = [] ->
  run (createMachine app name id) st =
  (Return None,
   mkTrace (recorded (EvLog "w" "Definition {definition} was not found!" [("definition", id)]) st)
     [st]).
Proof.
  intros Hd. unfold run, createMachine, findDefinitionContainers, Logger_log, emit.
  repeat step. rewrite Hd. by repeat step.
Qed.

Lemma createMachine_found name id st d rest out tr' :
  wf_state st ->
  definitions_with_id st id = d :: rest ->
  run (createMachine app name id) st = (out, tr') ->
  match out with
  | Raise _ => reached (Safe app st) [st] (visited tr')
  | Return None => False
  | Return (Some gs) =>
      gs = length (heap st) /\
      exists trains vn vc mc xs s_b s_q s_pre qt g,
        getMetaDataEntry d "machine_extruder_trains" VNone = VDict trains /\
        chosen_variant app d id = Some (vn, vc) /\
        chosen_material app d id vn = Some mc /\
        Assembled app st (machine_name st name d) d vc mc [] [] s_b /\
        (exists gb, heap s_b !! gs = Some (GlobalStack gb []) /\
                    quality gb = empty_quality_container app) /\
        Assembled app st (machine_name st name d) d vc mc trains xs s_q /\
        getMetaDataEntry d "preferred_quality_type" VNone = VStr qt /\
        assoc qt (getQualityGroups app s_q gs) = Some g /\
        Assembled app st (machine_name st name d) d vc mc trains xs s_pre /\
        Forall (quality_set g s_pre) xs /\
        (exists gb, heap s_pre !! gs = Some (GlobalStack gb xs) /\
                    quality gb = getContainer (node_for_global g)) /\
        now tr' = mkState (heap s_pre) (registry s_pre ++ [EStack gs]) (events s_pre) /\
        (exists ps, past tr' = s_pre :: ps) /\
        reached (Safe app st) [st] (past tr') /\
        s_b ∈ past tr' /\
        exists pre post,
          past tr' = pre ++ recorded (EvGetQualityGroups gs) s_q :: s_q :: post
  end.
Proof.
  intros Hwf Hd H. unfold run, createMachine, findDefinitionContainers in H.
  repeat step_in H. rewrite Hd in H. cbv beta iota in H.
  peel H Hp; apply prepare_machine_run in Hp as [R1 Hpost]; try done;
    [|by finish_run H].
  destruct a as [[gs vc] mc].
  destruct (Hpost _ _ _ eq_refl) as (-> & (vn & Hcv & Hcm) & HA1 & Hgb1).
  cbn [now] in *.
  destruct (getMetaDataEntry d "machine_extruder_trains" VNone) as [| | | |trains] eqn:Ht;
    try (by repeat step_in H; finish_run H).
  peel H Hl; apply (extruder_loop_run _ _ _ _ _ _ _ [] [] _ _ _ HA1) in Hl as [R2 Hpost2];
    [|finish_run H; eauto using reached_trans].
  destruct (Hpost2 _ eq_refl) as [xs HA2]. rewrite !app_nil_l in HA2.
  peel H Hq; apply (apply_quality_run _ _ _ _ _ _ _ _ _ _ HA2) in Hq as [R3 Hpost3];
    [|finish_run H; eauto using reached_trans].
  destruct (Hpost3 _ eq_refl) as (HA3 & qt & g & Hqt & Hg & R3' & Hqs & Hgq).
  assert (R : reached (Safe app st) [st] (visited tr1)) by eauto using reached_trans.
  destruct (asm_global _ _ _ _ _ _ _ _ _ HA3) as (gb & Hgb & _).
  unfold addContainer in H. repeat step_in H. rewrite Hgb in H.
  cbn [fmap option_fmap option_map] in H.
  branch H; repeat step_in H; finish_run H; [done|].
  split; [done|]. cbn [now past].
  exists trains, vn, vc, mc, xs, (now tr), (now tr0), (now tr1), qt, g.
  split_and!; try done.
  - by eexists.
  - apply reached_app in R2 as (n2 & E2 & _). apply reached_app in R3 as (n3 & E3 & _).
    change (now tr1 :: past tr1) with (visited tr1). rewrite E3, E2.
    rewrite !elem_of_app. right. right. apply list_elem_of_here.
  - apply reached_app in R3' as (n3 & E3 & _).
    exists n3, (past tr0). exact E3.
Qed.

(** ** The claims *)

Lemma built_attached st s vc mc item x :
  Inv st s -> built st s vc mc item x ->
  (EStack x.2 ∉ registry st) /\ attached s (length (heap st)) x.2 item.1.
Proof.
  intros HI (Hp & Hlt & Hreg & eb & de & Hl & _ & _ & _ & _ & Hpos).
  assert (Hnew : EStack x.2 ∉ registry st).
  { intros Hold. apply (wf_state_elim _ _ (inv_old _ _ HI)) in Hold. lia. }
  split; [done|].
  destruct (inv_new _ _ _ HI Hreg Hnew) as (_ & p & Hat).
  destruct Hat as (eb' & gb & xs & d & Hl' & Hpos' & Hrest).
  rewrite Hl in Hl'. injection Hl' as <-. rewrite Hpos in Hpos'. injection Hpos' as <-.
  by exists eb, gb, xs, d.
Qed.

Lemma Safe_global_unregistered st s :
  Safe app st s -> EStack (length (heap st)) ∉ registry s.
Proof.
  intros [HI _] Hreg.
  assert (Hnew : EStack (length (heap st)) ∉ registry st).
  { intros Hold. apply (wf_state_elim _ _ (inv_old _ _ HI)) in Hold. lia. }
  destruct (inv_new _ _ _ HI Hreg Hnew) as (_ & p & eb & gb & xs & d & Hl & _ & _ & _ & Hg & _).
  congruence.
Qed.

Lemma attached_events s gs l p R ev :
  attached s gs l p -> attached (mkState (heap s) R ev) gs l p.
Proof. intros H. eapply attached_kept; [exact H|apply heap_kept_refl]. Qed.

(** C1.  In a successful run the global stack is added to the registry only
    after every extruder stack that machine_extruder_trains declares has been
    created, attached to the global stack and registered; the stacks the
    call registers are these extruders and then the global stack (two
    extruders and one global stack for a definition with two positions); and
    at no point of the run is the global stack in the registry with an
    extruder missing. *)
Theorem createMachine_registers_global_stack_last name id st gs tr' :
  wf_state st ->
  run (createMachine app name id) st = (Return (Some gs), tr') ->
  registered_last st id gs tr'.
Proof.
  intros Hwf H.
  destruct (definitions_with_id st id) as [|d rest] eqn:Hd.
  { rewrite (createMachine_not_found _ _ _ Hd) in H. discriminate. }
  pose proof (createMachine_found _ _ _ _ _ _ _ Hwf Hd H) as Hrun. cbn in Hrun.
  destruct Hrun as (-> & trains & vn & vc & mc & xs & s_b & s_q & s_pre & qt & g & Ht & _ & _
                    & _ & _ & _ & _ & _ & HA & _ & _ & Hnow & [ps Hpast] & R & _ & _).
  destruct HA as [HS (gb & Hg & _) Hext Hstacks Hnd].
  pose proof (inv_grows _ _ (proj1 HS)) as (adds & Hr & Hadds).
  assert (Hatt : forall p l, (p, l) ∈ xs ->
            EStack l ∈ adds /\ attached s_pre (length (heap st)) l p /\ length (heap st) < l).
  { intros p l Hin. destruct (proj1 (list_elem_of_lookup _ _) Hin) as [i Hi].
    destruct (Forall2_lookup_r _ _ _ _ _ Hext Hi) as (item & _ & Hb).
    destruct (built_attached _ _ _ _ _ _ (proj1 HS) Hb) as [Hnew Hat].
    destruct Hb as (Hp & Hlt & Hreg & _). cbn [fst snd] in *. subst p.
    split_and!; [|done|done].
    rewrite Hr in Hreg. by apply elem_of_app in Hreg as [?|?]. }
  assert (Hst : stacks_of adds = xs.*2).
  { unfold added in Hstacks. rewrite Hr, drop_app_length in Hstacks. done. }
  assert (Hgs : length (heap st) ∉ xs.*2).
  { intros ([p l] & Heq & Hin)%list_elem_of_fmap. cbn in Heq. subst l.
    apply Hatt in Hin as (_ & _ & ?). lia. }
  exists d, trains, gb, xs, adds, s_pre, ps.
  rewrite Hd. split_and!; try done.
  - by apply Safe_global_unregistered.
  - clear -Hext. induction Hext as [|item x items xs Hb _ IH]; [done|].
    cbn. destruct Hb as (-> & _). by rewrite IH.
  - intros p l Hin. destruct (Hatt p l Hin) as (? & ? & _). done.
  - by rewrite stacks_of_app, Hst.
  - apply NoDup_app. split_and!; [done| |apply NoDup_singleton].
    intros l Hl ->%list_elem_of_singleton. done.
  - intros Hlen. assert (Hlx : length xs = 2).
    { rewrite <- Hlen. symmetry. eapply Forall2_length, Hext. }
    destruct xs as [|[p1 l1] [|[p2 l2] [|? ?]]]; try discriminate.
    exists l1, l2, p1, p2. rewrite stacks_of_app, Hst. split_and!; [done| |].
    + rewrite Hnow. apply attached_events, Hatt. apply list_elem_of_here.
    + rewrite Hnow. apply attached_events, Hatt.
      apply list_elem_of_further, list_elem_of_here.
  - intros s Hs Hreg. unfold visited in Hs. apply elem_of_cons in Hs as [->|Hs].
    + rewrite Hnow. cbn. eauto.
    + exfalso. destruct (reached_elem _ _ _ _ R Hs) as [Hin|HSs].
      * apply list_elem_of_singleton in Hin. subst s.
        apply (wf_state_elim _ _ Hwf) in Hreg. lia.
      * by apply (Safe_global_unregistered _ _ HSs).
Qed.

Lemma Assembled_extruders st name d vc mc items xs s :
  Assembled app st name d vc mc items xs s ->
  xs.*1 = items.*1 /\
  forall p l, (p, l) ∈ xs ->
    EStack l ∈ registry s /\ attached s (length (heap st)) l p /\
    exists eb n, heap s !! l = Some (ExtruderStack eb n) /\ variant eb = vc /\ material eb = mc.
Proof.
  intros [HS _ Hext _ _]. split.
  - clear -Hext. induction Hext as [|item x items xs Hb _ IH]; [done|].
    cbn. destruct Hb as (-> & _). by rewrite IH.
  - intros p l Hin. destruct (proj1 (list_elem_of_lookup _ _) Hin) as [i Hi].
    destruct (Forall2_lookup_r _ _ _ _ _ Hext Hi) as (item & _ & Hb).
    destruct (built_attached _ _ _ _ _ _ (proj1 HS) Hb) as [_ Hat].
    destruct Hb as (Hp & _ & Hreg & eb & de & Hl & Hv & Hm & _). cbn [fst snd] in *. subst p.
    split_and!; [done|done|by exists eb, (Some (length (heap st)))].
Qed.

(** C10.  Whenever an extruder stack created by the run is in the registry,
    its next stack is the new global stack, and its position metadata, the
    position metadata of its definition and its key in the extruder map of
    the global stack are one and the same. *)
Theorem registered_extruder_is_positioned name id st out tr' i s j l eb n :
  wf_state st ->
  run (createMachine app name id) st = (out, tr') ->
  visited tr' !! i = Some s ->
  registry s !! j = Some (EStack l) ->
  length (heap st) <= l ->
  heap s !! l = Some (ExtruderStack eb n) ->
  exists p,
    attached s (length (heap st)) l p /\
    n = Some (length (heap st)) /\
    assoc "position" (stack_metadata eb) = Some (VStr p) /\
    forall gs, out = Return (Some gs) -> gs = length (heap st).
Proof.
  intros Hwf H Hs Hreg Hge Hl.
  apply list_elem_of_lookup_2 in Hs. apply list_elem_of_lookup_2 in Hreg.
  assert (Hnew : EStack l ∉ registry st).
  { intros Hold. apply (wf_state_elim _ _ Hwf) in Hold. lia. }
  assert (Hsafe : Safe app st s ->
            exists p, attached s (length (heap st)) l p /\ n = Some (length (heap st)) /\
                      assoc "position" (stack_metadata eb) = Some (VStr p)).
  { intros [HI _]. destruct (inv_new _ _ _ HI Hreg Hnew) as (_ & p & Hat).
    exists p. split; [done|].
    destruct Hat as (eb' & gb & xs & d & Hl' & Hp & _). rewrite Hl in Hl'.
    by injection Hl' as -> ->. }
  destruct (definitions_with_id st id) as [|d rest] eqn:Hd.
  { rewrite (createMachine_not_found _ _ _ Hd) in H. finish_run H.
    unfold visited in Hs. cbn in Hs.
    apply elem_of_cons in Hs as [->|Hs]; [done|].
    apply list_elem_of_singleton in Hs. by subst. }
  pose proof (createMachine_found _ _ _ _ _ _ _ Hwf Hd H) as Hrun.
  destruct out as [[gs|]|e]; [|done|].
  - destruct Hrun as (-> & trains & vn & vc & mc & xs & s_b & s_q & s_pre & qt & g & _ & _ & _
                      & _ & _ & _ & _ & _ & HA & _ & (gb & Hg & _) & Hnow & [ps Hpast] & R & _).
    assert (forall s p, attached s (length (heap st)) l p /\ n = Some (length (heap st)) /\
              assoc "position" (stack_metadata eb) = Some (VStr p) ->
            attached s (length (heap st)) l p /\ n = Some (length (heap st)) /\
              assoc "position" (stack_metadata eb) = Some (VStr p) /\
              forall gs, Return (Some (length (heap st))) = Return (Some gs) ->
                         gs = length (heap st)) as Hfin.
    { intros s0 p (? & ? & ?). split_and!; try done. by intros ? [= <-]. }
    unfold visited in Hs. apply elem_of_cons in Hs as [->|Hs].
    + rewrite Hnow in Hreg, Hl |- *. cbn [heap registry] in *.
      apply elem_of_app in Hreg as [Hreg|Hreg].
      * destruct (inv_new _ _ _ (proj1 (asm_safe _ _ _ _ _ _ _ _ _ HA)) Hreg Hnew)
          as (_ & p & Hat).
        exists p. apply Hfin. split; [by apply attached_events|].
        destruct Hat as (eb' & gb' & xs' & d' & Hl' & Hp & _). rewrite Hl in Hl'.
        by injection Hl' as -> ->.
      * apply list_elem_of_singleton in Hreg. injection Hreg as ->. congruence.
    + destruct (reached_elem _ _ _ _ R Hs) as [Hin|HSs].
      * apply list_elem_of_singleton in Hin. by subst s.
      * destruct (Hsafe HSs) as [p Hp]. exists p. by apply Hfin.
  - unfold visited in Hs. destruct (reached_elem _ _ _ _ Hrun Hs) as [Hin|HSs].
    + apply list_elem_of_singleton in Hin. by subst s.
    + destruct (Hsafe HSs) as (p & ? & ? & ?). exists p. by split_and!.
Qed.


(** C8.  In a successful run the quality groups are resolved for the global
    stack once all extruders are created, attached and registered; the group
    of the preferred quality type gives the global stack its quality
    container, and every position of the extruder map the container the
    group has for that position. *)
Theorem createMachine_applies_quality name id st gs tr' :
  wf_state st ->
  run (createMachine app name id) st = (Return (Some gs), tr') ->
  quality_applied app st id gs tr'.
Proof.
  intros Hwf H.
  destruct (definitions_with_id st id) as [|d rest] eqn:Hd.
  { rewrite (createMachine_not_found _ _ _ Hd) in H. discriminate. }
  pose proof (createMachine_found _ _ _ _ _ _ _ Hwf Hd H) as Hrun. cbn in Hrun.
  destruct Hrun as (-> & trains & vn & vc & mc & xs & s_b & s_q & s_pre & qt & g & Ht & _ & _
                    & _ & _ & HAq & Hqt & Hg & HA & Hqs & (gb & Hgb & Hq) & Hnow & [ps Hpast]
                    & _ & _ & (pre & post & Hcons)).
  destruct (asm_global _ _ _ _ _ _ _ _ _ HAq) as (gbq & Hgq & _).
  destruct (Assembled_extruders _ _ _ _ _ _ _ _ HAq) as [Hfst Hx].
  exists d, trains, xs, s_q, qt, g, gb. rewrite Hd. split_and!; try done.
  - exists (now tr' :: pre), post. unfold visited. by rewrite Hcons.
  - by exists gbq.
  - intros p l Hin. destruct (Hx p l Hin) as (? & ? & _). done.
  - by rewrite Hnow.
  - by rewrite Hnow.
Qed.

Lemma createMachine_returns_stack name id st d rest tr' :
  definitions_with_id st id = d :: rest ->
  run (createMachine app name id) st <> (Return None, tr').
Proof.
  intros Hd H. unfold run, createMachine, findDefinitionContainers in H.
  repeat step_in H. rewrite Hd in H. cbv beta iota in H.
  peel H Hp; [|discriminate]. destruct a as [[gs vc] mc].
  destruct (getMetaDataEntry d "machine_extruder_trains" VNone);
    try (repeat step_in H; discriminate).
  peel H Hl; [|discriminate]. peel H Hq; [|discriminate].
  peel H Ha; [|discriminate]. repeat step_in H. discriminate.
Qed.

(** C3, as amended.  When the registry has no definition with the requested
    id, createMachine writes one warning to the log and returns None: it
    raises nothing, and the heap and the registry are as before.  A missing
    definition is the only way for createMachine to return None.  It is
    not the only absence the builder lets pass: for a definition that has
    variants and whose preferred variant name is absent or empty, the
    variant step raises nothing, asks nobody and yields the empty variant
    container. *)
Theorem createMachine_unknown_definition name id st :
  definitions_with_id st id = [] ->
  run (createMachine app name id) st =
    (Return None,
     record_event (EvLog "w" "Definition {definition} was not found!" [("definition", id)])
       (mkTrace st [])) /\
  (forall name' id' st' tr',
      run (createMachine app name' id') st' = (Return None, tr') ->
      definitions_with_id st' id' = []) /\
  (forall d id' tr,
      parseBool app (getMetaDataEntry d "has_variants" (VBool false)) = true ->
      truthy (getMetaDataEntry d "preferred_variant_name" VNone) = false ->
      select_variant app d id' tr =
        (Return (getMetaDataEntry d "preferred_variant_name" VNone,
                 empty_variant_container app), tr)).
Proof.
  intros Hd. split_and!; [by apply createMachine_not_found| |].
  - intros name' id' st' tr' H.
    destruct (definitions_with_id st' id') as [|d rest] eqn:Hd'; [done|].
    by apply (createMachine_returns_stack _ _ _ _ _ _ Hd') in H.
  - intros d id' tr Hv Hn. unfold select_variant. by rewrite Hv, Hn.
Qed.


Lemma py_round_nearest (x : Q) : (Qabs (x - inject_Z (py_round x)) <= 1 # 2)%Q.
Proof.
  apply Qabs_Qle_condition. unfold py_round.
  pose proof (Qfloor_le x) as Hlo. pose proof (Qlt_floor x) as Hhi.
  rewrite inject_Z_plus in Hhi. change (inject_Z 1) with 1%Q in Hhi.
  destruct (x - inject_Z (Qfloor x) ?= 1 # 2)%Q eqn:E.
  - apply Qeq_alt in E.
    destruct (Z.even (Qfloor x)); rewrite ?inject_Z_plus; change (inject_Z 1) with 1%Q;
      split; lra.
  - apply Qlt_alt in E. split; lra.
  - apply Qgt_alt in E. rewrite inject_Z_plus. change (inject_Z 1) with 1%Q. split; lra.
Qed.

(** C5.  When the definition has materials, createMachine takes the diameter
    from the definition's material_diameter setting, rounds it to a nearest
    integer, asks the material collaborator for the root material of the
    preferred material at that rounded diameter, and then for the material
    node of (definition, variant name, diameter, root material): if there is
    none it raises the RuntimeError, otherwise the material for the
    extruders is the container of the node. *)
Theorem preferred_material_must_resolve name id st d rest diameter vn vc tr1 :
  definitions_with_id st id = d :: rest ->
  parseBool app (getMetaDataEntry d "has_materials" (VBool false)) = true ->
  getProperty d "material_diameter" = Some diameter ->
  select_variant app d id (mkTrace st []) = (Return (vn, vc), tr1) ->
  (Qabs (diameter - inject_Z (py_round diameter)) <= 1 # 2)%Q /\
  match getMaterialNode app id vn diameter
          (getRootMaterialIDForDiameter app (getMetaDataEntry d "preferred_material" VNone)
             (py_str_int (py_round diameter))) with
  | None =>
      run (createMachine app name id) st =
      (Raise (RuntimeError
                "Cannot find material with definition [%s], variant_name [%s], and root_material_id [%s]"
                [VStr id; vn;
                 getRootMaterialIDForDiameter app
                   (getMetaDataEntry d "preferred_material" VNone)
                   (py_str_int (py_round diameter))]),
       record_event
         (EvGetMaterialNode id vn diameter
            (getRootMaterialIDForDiameter app (getMetaDataEntry d "preferred_material" VNone)
               (py_str_int (py_round diameter))))
         (record_event
            (EvGetRootMaterialIDForDiameter (getMetaDataEntry d "preferred_material" VNone)
               (py_str_int (py_round diameter)))
            tr1))
  | Some node =>
      select_material app d id vn tr1 =
      (Return (getContainer node),
       record_event
         (EvGetMaterialNode id vn diameter
            (getRootMaterialIDForDiameter app (getMetaDataEntry d "preferred_material" VNone)
               (py_str_int (py_round diameter))))
         (record_event
            (EvGetRootMaterialIDForDiameter (getMetaDataEntry d "preferred_material" VNone)
               (py_str_int (py_round diameter)))
            tr1))
  end.
Proof.
  intros Hd Hm Hdia Hv. split; [apply py_round_nearest|].
  destruct (getMaterialNode app id vn diameter _) as [node|] eqn:Hnode.
  - unfold select_material, emit. rewrite Hm, Hdia. repeat step. by rewrite Hnode.
  - unfold run, createMachine, findDefinitionContainers, prepare_machine.
    repeat step. rewrite Hd. cbv beta iota. rewrite !run_bind, Hv. cbv beta iota.
    unfold select_material, emit. rewrite Hm, Hdia. repeat step.
    rewrite Hnode. by repeat step.
Qed.

Lemma for_each_app {A} (l1 l2 : list A) (f : A -> M unit) tr :
  for_each (l1 ++ l2) f tr =
  match for_each l1 f tr with
  | (Return _, tr') => for_each l2 f tr'
  | (Raise e, tr') => (Raise e, tr')
  end.
Proof.
  revert tr. induction l1 as [|x l1 IH]; intros tr; [done|].
  cbn [for_each Datatypes.app]. rewrite !run_bind.
  destruct (f x tr) as [[u|e] tr0]; [apply IH|done].
Qed.


(** C9.  Once the extruders are built, createMachine completes only if the
    quality collaborator has a group for the preferred quality type: when
    the lookup yields None, the access to the group's global node raises an
    AttributeError, right after the collaborator was consulted. *)
Theorem missing_quality_group_is_attribute_error name id st d rest trains gs vc mc tr1 tr2 :
  definitions_with_id st id = d :: rest ->
  getMetaDataEntry d "machine_extruder_trains" VNone = VDict trains ->
  prepare_machine app name id d (mkTrace st []) = (Return (gs, vc, mc), tr1) ->
  for_each trains (create_extruder app id gs vc mc) tr1 = (Return tt, tr2) ->
  (get_quality_group (getQualityGroups app (now tr2) gs)
     (getMetaDataEntry d "preferred_quality_type" VNone) = Return None ->
   run (createMachine app name id) st
     = (Raise AttributeError, record_event (EvGetQualityGroups gs) tr2)) /\
  (forall gs' tr',
     run (createMachine app name id) st = (Return (Some gs'), tr') ->
     exists quality_type group,
       getMetaDataEntry d "preferred_quality_type" VNone = VStr quality_type /\
       assoc quality_type (getQualityGroups app (now tr2) gs) = Some group).
Proof.
  intros Hd Ht Hprep Hloop.
  assert (E : run (createMachine app name id) st =
              (apply_quality app d gs ≫= fun _ =>
               addContainer (EStack gs) ≫= fun _ => mret (Some gs)) tr2).
  { unfold run, createMachine, findDefinitionContainers.
    repeat step. rewrite Hd. cbv beta iota. rewrite run_bind, Hprep. cbv beta iota.
    rewrite Ht. by rewrite run_bind, Hloop. }
  rewrite E. unfold apply_quality, emit. repeat step.
  destruct (get_quality_group _ _) as [[group|]|err] eqn:Hgroup.
  - split; [discriminate|]. intros _ _ _.
    unfold get_quality_group in Hgroup.
    destruct (getMetaDataEntry d "preferred_quality_type" VNone); try discriminate.
    injection Hgroup as Hgroup. eauto.
  - split; [intros _; by repeat step|]. intros gs' tr' H. repeat step_in H. discriminate.
  - split; [discriminate|]. intros gs' tr' H. repeat step_in H. discriminate.
Qed.

(** C7.  The name of the new machine comes from two steps: first
    createUniqueName, which with an empty current name allocates a name that
    no stack uses for the requested name, or for the name of the definition
    when the requested name is empty; then uniqueName, only if an entity that
    is not a stack has the resulting string as its id.  The global stack that
    is returned has that name, as its id and as its display name. *)
Theorem createMachine_names_the_machine name id st gs tr' :
  wf_state st ->
  run (createMachine app name id) st = (Return (Some gs), tr') ->
  exists d gb xs,
    head (definitions_with_id st id) = Some d /\
    heap (now tr') !! gs = Some (GlobalStack gb xs) /\
    named_by_two_step_rule st name d gb.
Proof.
  intros Hwf H.
  destruct (definitions_with_id st id) as [|d rest] eqn:Hd.
  { rewrite (createMachine_not_found _ _ _ Hd) in H. discriminate. }
  pose proof (createMachine_found _ _ _ _ _ _ _ Hwf Hd H) as Hrun. cbn in Hrun.
  destruct Hrun as (-> & trains & vn & vc & mc & xs & s_b & s_q & s_pre & qt & g & _ & _ & _
                    & _ & _ & _ & _ & _ & HA & _ & _ & Hnow & _).
  destruct (asm_global _ _ _ _ _ _ _ _ _ HA) as (gb & Hg & Hid & Hname & _).
  exists d, gb, xs. rewrite Hnow. cbn [heap]. split_and!; try done.
  pose proof (stack_unique_name_free st name d) as Hfree.
  split_and!; try done.
  - unfold createUniqueName, stack_unique_name. repeat step. rewrite andb_diag.
    by destruct (String.eqb name "").
  - intros (e & Hin & Hns & He). unfold uniqueName, machine_name. repeat step.
    replace (existsb _ _) with true; [done|]. symmetry. apply existsb_exists.
    exists e. split; [by apply list_elem_of_In|].
    unfold has_id, opt_is. rewrite He. apply String.eqb_refl.
  - intros Hnone. unfold machine_name.
    destruct (existsb _ _) eqn:Ex; [exfalso|done].
    apply existsb_exists in Ex as (e & Hin%list_elem_of_In & He).
    unfold has_id, opt_is in He.
    destruct (entity_id (heap st) e) as [i|] eqn:Hi; [|done].
    apply String.eqb_eq in He. subst i.
    destruct (is_stack e) eqn:Hs; [|by eapply Hnone].
    assert (in_use_by_stack st (stack_unique_name st name d) = true); [|congruence].
    apply existsb_exists. exists e. split; [by apply list_elem_of_In|].
    rewrite Hs. unfold has_id, opt_is. rewrite Hi, String.eqb_refl. done.
Qed.

End Proofs.

(** ** The builder at work in the small world *)

Example uniqueName_skips_taken_suffixes :
  fst (uniqueName "foo"
         (mkTrace (mkState []
                     [EInstance (typed_container "foo" "user");
                      EInstance (typed_container "foo #2" "user")] []) []))
  = Return "foo #3".
Proof. vm_compute. reflexivity. Qed.

Example single_extruder_machine :
  let r := run (createMachine demo_app "My Printer" "single") demo_state in
  fst r = Return (Some 0) /\
  (stack_name <$> (stack_base <$> heap (now (snd r)) !! 0)) = Some "My Printer" /\
  stacks_of (added demo_state (now (snd r))) = [1; 0].
Proof. vm_compute. by repeat split. Qed.

Example unnamed_variant_keeps_the_empty_variant :
  let r := run (createMachine demo_app "My Printer" "unnamed_variant") demo_state in
  fst r = Return (Some 0) /\
  (variant <$> (stack_base <$> heap (now (snd r)) !! 1))
    = Some (empty_variant_container demo_app) /\
  events (now (snd r)) = [EvGetQualityGroups 0].
Proof. vm_compute. by repeat split. Qed.

Example mismatch_leaves_two_containers :
  let r := run (createMachine demo_app "My Printer" "mismatch") demo_state in
  length (added demo_state (now (snd r))) = 2 /\
  stacks_of (added demo_state (now (snd r))) = [].
Proof. vm_compute. by repeat split. Qed.

(** A successful run with two extruders. *)
Lemma createMachine_registers_global_stack_last_witness :
  registered_last demo_state "dual" 0
    (final_trace (run (createMachine demo_app "My printer" "dual") demo_state)).
Proof.
  apply (createMachine_registers_global_stack_last demo_app "My printer" "dual" demo_state).
  - reflexivity.
  - vm_compute. reflexivity.
Defined.

(** The first extruder of the two-extruder machine, in the last state. *)
Lemma registered_extruder_is_positioned_witness :
  exists p,
    attached (now (final_trace (run (createMachine demo_app "My printer" "dual") demo_state)))
      0 1 p.
Proof.
  destruct (registered_extruder_is_positioned demo_app "My printer" "dual" demo_state
              (fst (run (createMachine demo_app "My printer" "dual") demo_state))
              (final_trace (run (createMachine demo_app "My printer" "dual") demo_state))
              0
              (now (final_trace (run (createMachine demo_app "My printer" "dual") demo_state)))
              13 1
              (match
                  heap (now (final_trace
                               (run (createMachine demo_app "My printer" "dual") demo_state)))
                    !! 1
                with
                | Some o => stack_base o
                | None => new_stack demo_app ""
                end)
              (Some 0))
    as (p & Hat & _).
  - reflexivity.
  - vm_compute. reflexivity.
  - vm_compute. reflexivity.
  - vm_compute. reflexivity.
  - vm_compute. lia.
  - vm_compute. reflexivity.
  - by exists p.
Defined.


Lemma createMachine_applies_quality_witness :
  quality_applied demo_app demo_state "dual" 0
    (final_trace (run (createMachine demo_app "My printer" "dual") demo_state)).
Proof.
  apply (createMachine_applies_quality demo_app "My printer" "dual" demo_state).
  - reflexivity.
  - vm_compute. reflexivity.
Defined.

(** The claim C3 as it stands fails in its last clause.  A definition that
    has variants and names no preferred one lacks something the builder
    looks for, too, and createMachine does not raise on that account: it
    returns a machine. *)
Lemma absent_preferred_variant_is_tolerated :
  ~ (forall (application : Application) name id st,
       (definitions_with_id st id = [] ->
        fst (run (createMachine application name id) st) = Return None) /\
       (forall d rest,
           definitions_with_id st id = d :: rest ->
           parseBool application (getMetaDataEntry d "has_variants" (VBool false)) = true ->
           getMetaDataEntry d "preferred_variant_name" VNone = VNone ->
           exists e, fst (run (createMachine application name id) st) = Raise e)).
Proof.
  intros H.
  destruct (proj2 (H demo_app "My printer" "unnamed_variant" demo_state)
              demo_unnamed_variant [] eq_refl eq_refl eq_refl) as [e E].
  vm_compute in E. discriminate.
Qed.

Lemma createMachine_unknown_definition_witness :
  run (createMachine demo_app "My printer" "nowhere") demo_state =
    (Return None,
     record_event
       (EvLog "w" "Definition {definition} was not found!" [("definition", "nowhere")])
       (mkTrace demo_state [])) /\
  (forall name' id' st' tr',
      run (createMachine demo_app name' id') st' = (Return None, tr') ->
      definitions_with_id st' id' = []) /\
  (forall d id' tr,
      parseBool demo_app (getMetaDataEntry d "has_variants" (VBool false)) = true ->
      truthy (getMetaDataEntry d "preferred_variant_name" VNone) = false ->
      select_variant demo_app d id' tr =
        (Return (getMetaDataEntry d "preferred_variant_name" VNone,
                 empty_variant_container demo_app), tr)).
Proof.
  apply (createMachine_unknown_definition demo_app "My printer" "nowhere" demo_state).
  reflexivity.
Defined.

(** The claim C4 as it stands fails for a definition that has variants and
    names no preferred one: the variant collaborator knows no variant for it,
    and createMachine returns a machine all the same. *)
Lemma has_variants_without_preferred_name :
  ~ (forall (application : Application) name id st d rest,
       definitions_with_id st id = d :: rest ->
       parseBool application (getMetaDataEntry d "has_variants" (VBool false)) = true ->
       getVariantNode application id (getMetaDataEntry d "preferred_variant_name" VNone)
         = None ->
       exists message args,
         fst (run (createMachine application name id) st)
           = Raise (RuntimeError message args)).
Proof.
  intros H.
  destruct (H demo_app "My printer" "unnamed_variant" demo_state demo_unnamed_variant []
              eq_refl eq_refl eq_refl) as (message & args & E).
  vm_compute in E. discriminate.
Qed.


Lemma preferred_material_must_resolve_witness :
  (Qabs ((175 # 100) - inject_Z (py_round (175 # 100))) <= 1 # 2)%Q /\
  run (createMachine demo_app "My printer" "unknown_material") demo_state =
  (Raise (RuntimeError
            "Cannot find material with definition [%s], variant_name [%s], and root_material_id [%s]"
            [VStr "unknown_material"; VNone; VStr "abs_2"]),
   record_event (EvGetMaterialNode "unknown_material" VNone (175 # 100) (VStr "abs_2"))
     (record_event (EvGetRootMaterialIDForDiameter (VStr "abs") "2")
        (mkTrace demo_state []))).
Proof.
  apply (preferred_material_must_resolve demo_app "My printer" "unknown_material" demo_state
           demo_unknown_material [] (175 # 100) VNone
           (empty_variant_container demo_app) (mkTrace demo_state [])); reflexivity.
Defined.

(** The claim C2 as it stands fails: when the mismatch stops the run, the
    user-changes and definition-changes containers of the global stack are
    in the registry already. *)
Lemma position_mismatch_registers_containers :
  ~ (forall (application : Application) name id st d rest trains p e de rest',
       definitions_with_id st id = d :: rest ->
       getMetaDataEntry d "machine_extruder_trains" VNone = VDict trains ->
       assoc p trains = Some e ->
       definitions_with_id st e = de :: rest' ->
       py_ne_str (getMetaDataEntry de "position" VNone) p = true ->
       (exists message args,
           fst (run (createMachine application name id) st)
             = Raise (RuntimeError message args)) /\
       registry (now (final_trace (run (createMachine application name id) st)))
         = registry st).
Proof.
  intros H.
  destruct (H demo_app "My printer" "mismatch" demo_state demo_mismatch []
              [("1", "extruder_0")] "1" "extruder_0" demo_extruder_0 []
              eq_refl eq_refl eq_refl eq_refl eq_refl) as [_ E].
  apply (f_equal length) in E. vm_compute in E. discriminate.
Qed.


Lemma missing_quality_group_is_attribute_error_witness :
  run (createMachine demo_app "My printer" "no_quality") demo_state =
    (Raise AttributeError,
     record_event (EvGetQualityGroups 0)
       (snd (for_each [("0", "extruder_0")]
               (create_extruder demo_app "no_quality" 0 (empty_variant_container demo_app)
                  (empty_material_container demo_app))
               (snd (prepare_machine demo_app "My printer" "no_quality" demo_no_quality
                       (mkTrace demo_state [])))))).
Proof.
  refine (proj1 (missing_quality_group_is_attribute_error demo_app "My printer" "no_quality"
                   demo_state demo_no_quality [] [("0", "extruder_0")] 0
                   (empty_variant_container demo_app) (empty_material_container demo_app)
                   (snd (prepare_machine demo_app "My printer" "no_quality" demo_no_quality
                           (mkTrace demo_state [])))
                   _ _ _ _ _) _).
  - reflexivity.
  - reflexivity.
  - vm_compute. reflexivity.
  - vm_compute. reflexivity.
  - vm_compute. reflexivity.
Defined.

(** The requested name "single" is the id of a definition: the second step
    makes it "single #2". *)
Lemma createMachine_names_the_machine_witness :
  exists d gb xs,
    head (definitions_with_id demo_state "single") = Some d /\
    heap (now (final_trace (run (createMachine demo_app "single" "single") demo_state))) !! 0
      = Some (GlobalStack gb xs) /\
    named_by_two_step_rule demo_state "single" d gb.
Proof.
  apply (createMachine_names_the_machine demo_app "single" "single" demo_state).
  - reflexivity.
  - vm_compute. reflexivity.
Defined.


(** * The building blocks on their own *)

(** ** Names that [uniqueName] hands out *)

Lemma append_cons c a b : String c a +:+ b = String c (a +:+ b).
Proof. reflexivity. Qed.

Lemma append_nil_r a : a +:+ "" = a.
Proof. induction a as [|c a IH]; [done|]. by rewrite append_cons, IH. Qed.

Lemma lower_app a b : lower (a +:+ b) = lower a +:+ lower b.
Proof.
  induction a as [|c a IH]; [done|]. rewrite append_cons. cbn [lower].
  by rewrite append_cons, IH.
Qed.

Lemma lower_digits d : lower (NilEmpty.string_of_uint d) = NilEmpty.string_of_uint d.
Proof. induction d; cbn; [done|by rewrite IHd..]. Qed.

Lemma lower_numbered base i : lower (numbered base i) = numbered (lower base) i.
Proof.
  unfold numbered. rewrite !lower_app. do 2 f_equal.
  unfold NilZero.string_of_uint. destruct (Nat.to_uint i); [done|apply lower_digits..].
Qed.

Lemma in_use_names st n :
  in_use st n = true -> n ∈ registered_ids st \/ lower n ∈ registered_names st.
Proof.
  unfold in_use, registered_ids, registered_names, has_id, opt_is.
  intros (e & Hin & He)%existsb_exists. apply orb_true_iff in He as [He|He].
  - left. apply list_elem_of_In, in_flat_map. exists e. split; [done|].
    destruct (entity_id (heap st) e); [|done].
    apply String.eqb_eq in He. subst. left. done.
  - right. apply list_elem_of_In, in_flat_map. exists e. split; [done|].
    destruct (entity_name (heap st) e); [|done].
    apply String.eqb_eq in He. cbn. left. done.
Qed.

Lemma registered_length st :
  length (registered_ids st) + length (registered_names st) <= 2 * length (registry st).
Proof.
  unfold registered_ids, registered_names. induction (registry st) as [|e r IH]; [done|].
  cbn [flat_map]. rewrite !length_app. cbn [length].
  assert (length (option_list (entity_id (heap st) e)) <= 1)
    by (destruct (entity_id (heap st) e); cbn; lia).
  assert (length (option_list (lower <$> entity_name (heap st) e)) <= 1)
    by (destruct (entity_name (heap st) e); cbn; lia).
  lia.
Qed.

(** A search through more candidates than there are names to collide with
    ends on a free one, also when a candidate can collide in two ways. *)
Lemma allocate_name_free2 (used : string -> bool) (ids names : list string) fuel c :
  (forall n, used n = true -> n ∈ ids \/ lower n ∈ names) ->
  length ids + length names <= fuel ->
  used (allocate_name used fuel c) = false.
Proof.
  intros Hnames Hlen. unfold allocate_name. destruct (used c) eqn:E; [|done].
  destruct (used (first_free used c 2 fuel)) eqn:F; [exfalso|done].
  pose proof (first_free_used used c fuel 2 F) as Hall.
  set (K := seq 2 (S fuel)).
  set (P := fun k => numbered c k ∈ ids).
  assert (H1 : numbered c <$> filter P K ⊆+ ids).
  { apply NoDup_submseteq.
    - apply NoDup_fmap_2; [intros i j; apply numbered_inj|].
      apply NoDup_filter, NoDup_seq.
    - intros n (k & -> & Hk%list_elem_of_filter)%list_elem_of_fmap. apply Hk. }
  assert (H2 : (fun k => lower (numbered c k)) <$> filter (fun k => ~ P k) K ⊆+ names).
  { apply NoDup_submseteq.
    - apply NoDup_fmap_2; [|apply NoDup_filter, NoDup_seq].
      intros i j Hij. rewrite !lower_numbered in Hij. by apply numbered_inj in Hij.
    - intros n (k & -> & [Hk Hin]%list_elem_of_filter)%list_elem_of_fmap.
      apply elem_of_seq in Hin.
      destruct (Hnames (numbered c k)) as [?|?]; [apply Hall; lia|done|done]. }
  apply submseteq_length in H1, H2. rewrite length_fmap in H1, H2.
  pose proof (Permutation_length (filter_app_complement P K)) as HK.
  rewrite length_app in HK. unfold K in HK at 3. rewrite length_seq in HK. lia.
Qed.

Lemma uniqueName_free st c :
  in_use st (allocate_name (in_use st) (2 * length (registry st)) c) = false.
Proof.
  apply (allocate_name_free2 _ (registered_ids st) (registered_names st));
    [apply in_use_names|apply registered_length].
Qed.

Lemma fresh_name_free st c : in_use st (fresh_name st c) = false.
Proof. apply uniqueName_free. Qed.

Lemma fresh_name_same st c : in_use st c = false -> fresh_name st c = c.
Proof. intros H. unfold fresh_name, allocate_name. by rewrite H. Qed.

Lemma in_use_has_id st n : in_use st n = false -> existsb (has_id st n) (registry st) = false.
Proof.
  unfold in_use. intros H. apply not_true_iff_false. intros (e & Hin & He)%existsb_exists.
  apply not_true_iff_false in H. apply H. apply existsb_exists. exists e.
  by rewrite He.
Qed.

Lemma first_free_extends used c fuel :
  forall i, exists k, i <= k /\ first_free used c i fuel = numbered c k.
Proof.
  induction fuel as [|fuel IH]; intros i; cbn; [by exists i|].
  destruct (used (numbered c i)); [|by exists i].
  destruct (IH (S i)) as (k & Hk & E). exists k. split; [lia|done].
Qed.

Lemma fresh_name_numbered st c :
  in_use st c = true -> exists k, 2 <= k /\ fresh_name st c = numbered c k.
Proof.
  intros H. unfold fresh_name, allocate_name. rewrite H. apply first_free_extends.
Qed.

Lemma allocate_name_extends used fuel c :
  exists suffix, allocate_name used fuel c = c +:+ suffix.
Proof.
  unfold allocate_name. destruct (used c).
  - destruct (first_free_extends used c fuel 2) as (k & _ & ->). unfold numbered. by eexists.
  - exists "". by rewrite append_nil_r.
Qed.

Lemma append_assoc_r a b c : (a +:+ b) +:+ c = a +:+ (b +:+ c).
Proof. induction a as [|x a IH]; [done|]. by rewrite !append_cons, IH. Qed.

Lemma length_append a b : String.length (a +:+ b) = String.length a + String.length b.
Proof. induction a as [|x a IH]; [done|]. rewrite append_cons. cbn. by rewrite IH. Qed.

(** The two containers of a stack never get the same id, whatever is in
    use. *)
Lemma user_settings_apart u fuel u' fuel' sid :
  allocate_name u fuel (sid +:+ "_user") <> allocate_name u' fuel' (sid +:+ "_settings").
Proof.
  destruct (allocate_name_extends u fuel (sid +:+ "_user")) as [s ->].
  destruct (allocate_name_extends u' fuel' (sid +:+ "_settings")) as [s' ->].
  rewrite !append_assoc_r. intros H%String.app_inj. discriminate.
Qed.

(** Nor is either of them the id of the stack itself. *)
Lemma suffixed_apart u fuel sid suffix :
  suffix <> "" -> allocate_name u fuel (sid +:+ suffix) <> sid.
Proof.
  destruct (allocate_name_extends u fuel (sid +:+ suffix)) as [s ->].
  intros Hs H%(f_equal String.length). rewrite !length_append in H.
  destruct suffix; [done|]. cbn in H. lia.
Qed.

(** ** What the registry sees of the heap *)

Lemma has_id_snoc h o o' R R' ev ev' n e :
  stack_id (stack_base o') = stack_id (stack_base o) ->
  has_id (mkState (h ++ [o']) R' ev') n e = has_id (mkState (h ++ [o]) R ev) n e.
Proof.
  intros Hid. unfold has_id. destruct e as [| |l]; cbn [entity_id heap]; [done..|].
  destruct (decide (l < length h)) as [Hlt|Hge].
  - by rewrite !lookup_app_l.
  - destruct (decide (l = length h)) as [->|Hne].
    + by rewrite !lookup_snoc; cbn; rewrite Hid.
    + rewrite !lookup_ge_None_2; [done|rewrite length_app; cbn; lia..].
Qed.

Lemma stack_id_set_slot sl c o :
  stack_id (stack_base (set_base (with_slot sl c) o)) = stack_id (stack_base o).
Proof. by destruct o, sl. Qed.

Lemma existsb_snoc {A} (f : A -> bool) l x : existsb f (l ++ [x]) = existsb f l || f x.
Proof. rewrite existsb_app. cbn. by rewrite orb_false_r. Qed.

Lemma existsb_ext_eq {A} (f g : A -> bool) l :
  (forall x, f x = g x) -> existsb f l = existsb g l.
Proof. intros E. induction l as [|x l IH]; [done|]. cbn. by rewrite E, IH. Qed.

Lemma fresh_name_unregistered st c : existsb (has_id st (fresh_name st c)) (registry st) = false.
Proof. apply in_use_has_id, fresh_name_free. Qed.

Lemma definition_changes_value n d v :
  ic_addMetaDataEntry "setting_version" (VInt v)
    (ic_addMetaDataEntry "type" (VStr "definition_changes")
       (ic_setDefinition d (new_InstanceContainer n)))
  = mkInstanceContainer n (Some d)
      [("type", VStr "definition_changes"); ("setting_version", VInt v)].
Proof. reflexivity. Qed.

Lemma existsb_ext_in {A} (f g : A -> bool) l :
  (forall x, x ∈ l -> f x = g x) -> existsb f l = existsb g l.
Proof.
  induction l as [|x l IH]; intros E; [done|]. cbn.
  rewrite (E x) by apply list_elem_of_here.
  rewrite IH; [done|]. intros y Hy. by apply E, list_elem_of_further.
Qed.

(** A new object on the heap changes nothing for the names in use, as long
    as every registered stack exists. *)
Lemma in_use_alloc st o ev n :
  wf_state st -> in_use (mkState (heap st ++ [o]) (registry st) ev) n = in_use st n.
Proof.
  intros Hwf. unfold in_use, has_id. cbn [heap registry]. apply existsb_ext_in.
  intros [| |l] Hin; cbn [entity_id entity_name]; [done..|].
  rewrite lookup_app_l by (by apply wf_state_elim). done.
Qed.

Lemma fresh_name_alloc st o ev c :
  wf_state st -> fresh_name (mkState (heap st ++ [o]) (registry st) ev) c = fresh_name st c.
Proof.
  intros Hwf. unfold fresh_name. cbn [registry].
  apply allocate_name_ext. intros n. by apply in_use_alloc.
Qed.

Lemma not_registered_instance st c :
  existsb (has_id st (ic_id c)) (registry st) = false -> EInstance c ∉ registry st.
Proof.
  intros H Hin. apply not_true_iff_false in H. apply H, existsb_exists.
  exists (EInstance c). split; [by apply list_elem_of_In|].
  unfold has_id, opt_is. cbn. apply String.eqb_refl.
Qed.

Section Blocks.
Variable app : Application.

Lemma createUserChangesContainer_value n d sid g tr :
  createUserChangesContainer app n d sid g tr =
  (Return (user_changes_of app (now tr) n d sid g), tr).
Proof. by destruct g. Qed.

Lemma createDefinitionChangesContainer_value l n tr o bottom :
  heap (now tr) !! l = Some o ->
  definition (stack_base o) = Some bottom ->
  createDefinitionChangesContainer app l n tr =
  (Return (definition_changes_of app (now tr) n bottom),
   mkTrace
     (mkState (<[l := set_base (with_slot DefinitionChanges
                                  (definition_changes_of app (now tr) n bottom)) o]>
                 (heap (now tr)))
        (registry (now tr) ++ [EInstance (definition_changes_of app (now tr) n bottom)])
        (events (now tr)))
     (mkState (heap (now tr))
        (registry (now tr) ++ [EInstance (definition_changes_of app (now tr) n bottom)])
        (events (now tr))
        :: now tr :: past tr)).
Proof.
  intros Hl Hd.
  unfold createDefinitionChangesContainer, uniqueName, addContainer, assign.
  repeat step. rewrite (deref_at _ _ _ Hl). cbv beta iota. rewrite Hd.
  repeat step. fold (fresh_name (now tr) n).
  rewrite definition_changes_value.
  fold (definition_changes_of app (now tr) n bottom).
  change (ic_id (definition_changes_of app (now tr) n bottom)) with (fresh_name (now tr) n).
  rewrite fresh_name_unregistered. repeat step.
  replace (type_agrees DefinitionChanges (definition_changes_of app (now tr) n bottom))
    with true by reflexivity.
  rewrite (mutate_at _ o) by done. done.
Qed.

Lemma user_container_unregistered h o o' R ev ev' sid c :
  stack_id (stack_base o') = stack_id (stack_base o) ->
  ic_id c = fresh_name (mkState (h ++ [o]) R ev) (sid +:+ "_settings") ->
  existsb (has_id (mkState (h ++ [o']) (R ++ [EInstance c]) ev')
             (fresh_name (mkState (h ++ [o]) R ev) (sid +:+ "_user")))
    (R ++ [EInstance c]) = false.
Proof.
  intros Hid Hc. rewrite existsb_snoc. apply orb_false_iff. split.
  - rewrite (existsb_ext_eq _ (has_id (mkState (h ++ [o]) R ev)
                                 (fresh_name (mkState (h ++ [o]) R ev) (sid +:+ "_user"))))
      by (intros e; by apply has_id_snoc).
    apply (fresh_name_unregistered (mkState (h ++ [o]) R ev)).
  - unfold has_id, opt_is. cbn [entity_id]. rewrite Hc. apply String.eqb_neq.
    intros E. symmetry in E. by apply user_settings_apart in E.
Qed.

Lemma finish_stack_outcome h o R ev ps sid did g vc mc qc bottom out tr' :
  definition (stack_base o) = Some bottom ->
  finish_stack app sid did g (length h) vc mc qc (mkTrace (mkState (h ++ [o]) R ev) ps)
    = (out, tr') ->
  exists f,
    heap (now tr') = h ++ [set_base f o] /\ events (now tr') = ev /\
    stack_id (f (stack_base o)) = stack_id (stack_base o) /\
    stack_name (f (stack_base o)) = stack_name (stack_base o) /\
    stack_metadata (f (stack_base o)) = stack_metadata (stack_base o) /\
    definition (f (stack_base o)) = definition (stack_base o) /\
    definitionChanges (f (stack_base o))
      = definition_changes_of app (mkState (h ++ [o]) R ev) (sid +:+ "_settings") bottom /\
    match first_refused app vc mc qc with
    | Some sl =>
        out = Raise (InvalidContainerError sl) /\
        registry (now tr')
          = R ++ [EInstance (definition_changes_of app (mkState (h ++ [o]) R ev)
                               (sid +:+ "_settings") bottom)] /\
        userChanges (f (stack_base o)) = userChanges (stack_base o)
    | None =>
        out = Return (length h) /\
        registry (now tr')
          = R ++ [EInstance (definition_changes_of app (mkState (h ++ [o]) R ev)
                               (sid +:+ "_settings") bottom);
                  EInstance (user_changes_of app (mkState (h ++ [o]) R ev)
                               (sid +:+ "_user") did sid g)] /\
        wired app (f (stack_base o)) vc mc qc
          (user_changes_of app (mkState (h ++ [o]) R ev) (sid +:+ "_user") did sid g)
          (definition_changes_of app (mkState (h ++ [o]) R ev) (sid +:+ "_settings") bottom)
    end.
Proof.
  intros Hd H. unfold finish_stack in H.
  rewrite run_bind, createUserChangesContainer_value in H. cbv beta iota in H.
  rewrite run_bind, (createDefinitionChangesContainer_value _ _ _ o bottom) in H
    by (done || apply lookup_snoc).
  cbv beta iota in H. cbn [now heap registry events] in H. rewrite insert_snoc in H.
  set (s1 := mkState (h ++ [o]) R ev) in *.
  set (dc := definition_changes_of app s1 (sid +:+ "_settings") bottom) in *.
  set (uc := user_changes_of app s1 (sid +:+ "_user") did sid g) in *.
  assert (Tdc : type_agrees DefinitionChanges dc = true) by reflexivity.
  assert (Tuc : type_agrees UserChanges uc = true) by (by destruct g).
  unfold assign, addContainer, first_refused in *.
  repeat first [ step_in H | rewrite Tdc in H | rewrite Tuc in H
               | progress cbv beta iota in H | branch H ].
  all: try match goal with
       | Hx : existsb _ _ = true |- _ =>
           unfold uc, user_changes_of in Hx; cbn [ic_id] in Hx; unfold s1 in Hx;
           rewrite (user_container_unregistered h o) in Hx
             by (rewrite ?stack_id_set_slot; reflexivity); discriminate
       end.
  all: finish_run H; cbn [now heap registry events].
  all: repeat match goal with Ht : type_agrees _ _ = _ |- _ => rewrite Ht; clear Ht end.
  all: cbn [negb]; rewrite !set_base_compose.
  all: eexists; split; [reflexivity|]; destruct o; cbn [stack_base set_base].
  all: split_and!; try done; try (by rewrite <- app_assoc).
Qed.

(** X1.  createUserChangesContainer never raises and leaves the registry,
    the stacks and the log as they are.  The container it returns is not
    registered; its id is a name that nothing registered uses, the requested
    name itself when that is free; it is bound to the given definition id,
    has type user and the setting version of the application, and names the
    stack under "machine" for a global stack and under "extruder"
    otherwise. *)
Theorem createUserChangesContainer_makes_unregistered_container
    container_name definition_id stack_id is_global_stack tr :
  exists c,
    createUserChangesContainer app container_name definition_id stack_id is_global_stack tr
      = (Return c, tr) /\
    (EInstance c ∉ registry (now tr)) /\
    in_use (now tr) (ic_id c) = false /\
    (in_use (now tr) container_name = false -> ic_id c = container_name) /\
    (in_use (now tr) container_name = true ->
     exists k, 2 <= k /\ ic_id c = numbered container_name k) /\
    is_user_changes app c definition_id stack_id is_global_stack.
Proof.
  exists (user_changes_of app (now tr) container_name definition_id stack_id is_global_stack).
  split_and!.
  - apply createUserChangesContainer_value.
  - apply not_registered_instance, fresh_name_unregistered.
  - apply fresh_name_free.
  - apply fresh_name_same.
  - apply fresh_name_numbered.
  - done.
Qed.

(** X2.  createDefinitionChangesContainer, given a stack that exists and
    has its definition, always returns.  The container it returns has a
    name that nothing registered uses, the requested name itself when that
    is free; it is bound to the id of the definition of the stack, has type
    definition_changes and the setting version of the application.  The
    call first adds the container to the registry and then puts it in the
    definition-changes slot of the stack; nothing else changes. *)
Theorem createDefinitionChangesContainer_registers container_stack container_name tr o bottom :
  heap (now tr) !! container_stack = Some o ->
  definition (stack_base o) = Some bottom ->
  exists dc,
    createDefinitionChangesContainer app container_stack container_name tr =
      (Return dc,
       mkTrace
         (mkState (<[container_stack := set_base (with_slot DefinitionChanges dc) o]>
                     (heap (now tr)))
            (registry (now tr) ++ [EInstance dc]) (events (now tr)))
         (mkState (heap (now tr)) (registry (now tr) ++ [EInstance dc]) (events (now tr))
            :: now tr :: past tr)) /\
    ic_id dc = fresh_name (now tr) container_name /\
    in_use (now tr) (ic_id dc) = false /\
    (in_use (now tr) container_name = false -> ic_id dc = container_name) /\
    is_definition_changes app dc (def_id bottom).
Proof.
  intros Hl Hd. exists (definition_changes_of app (now tr) container_name bottom).
  split_and!; [by apply createDefinitionChangesContainer_value|done|apply fresh_name_free
              |apply fresh_name_same|done].
Qed.

(** What the two stack builders have in common, for a stack that is the
    newest object [o] of the heap and has its definition. *)
Lemma new_stack_outcome st o ev ps sid did g vc mc qc bottom out tr' :
  wf_state st ->
  definition (stack_base o) = Some bottom ->
  finish_stack app sid did g (length (heap st)) vc mc qc
    (mkTrace (mkState (heap st ++ [o]) (registry st) ev) ps) = (out, tr') ->
  exists b uc dc,
    heap (now tr') = heap st ++ [set_base (fun _ => b) o] /\ events (now tr') = ev /\
    stack_id b = stack_id (stack_base o) /\ stack_name b = stack_name (stack_base o) /\
    stack_metadata b = stack_metadata (stack_base o) /\ definition b = Some bottom /\
    definitionChanges b = dc /\
    ic_id uc = fresh_name st (sid +:+ "_user") /\
    ic_id dc = fresh_name st (sid +:+ "_settings") /\
    is_user_changes app uc did sid g /\
    is_definition_changes app dc (def_id bottom) /\
    match first_refused app vc mc qc with
    | Some sl =>
        out = Raise (InvalidContainerError sl) /\
        registry (now tr') = registry st ++ [EInstance dc] /\
        userChanges b = userChanges (stack_base o)
    | None =>
        out = Return (length (heap st)) /\
        registry (now tr') = registry st ++ [EInstance dc; EInstance uc] /\
        wired app b vc mc qc uc dc
    end.
Proof.
  intros Hwf Hd H.
  apply (finish_stack_outcome _ _ _ _ _ _ _ _ _ _ _ bottom) in H
    as (f & Hh & He & Hid & Hn & Hm & Hdef & Hdc & Hcase); [|done].
  exists (f (stack_base o)),
    (user_changes_of app (mkState (heap st ++ [o]) (registry st) ev) (sid +:+ "_user") did sid g),
    (definition_changes_of app (mkState (heap st ++ [o]) (registry st) ev)
       (sid +:+ "_settings") bottom).
  split_and!; try done.
  - rewrite Hh. by destruct o.
  - congruence.
  - by apply fresh_name_alloc.
  - by apply fresh_name_alloc.
Qed.

Lemma named_fresh_intro st c candidate :
  ic_id c = fresh_name st candidate -> named_fresh st c candidate.
Proof.
  intros E. split_and!; [done|rewrite E; apply fresh_name_free|].
  intros H. rewrite E. by apply fresh_name_same.
Qed.

Lemma createGlobalStack_built new_stack_id d vc mc qc tr :
  wf_state (now tr) ->
  first_refused app vc mc qc = None ->
  global_stack_built app new_stack_id d vc mc qc tr.
Proof.
  unfold global_stack_built.
  destruct tr as [[h R ev] ps]. cbn [now heap registry events]. intros Hwf Hok.
  destruct (createGlobalStack app new_stack_id d vc mc qc _) as [out tr'] eqn:H.
  change (createGlobalStack app new_stack_id d vc mc qc) with
    (alloc (GlobalStack (new_stack app new_stack_id) []) ≫= fun stack =>
     setDefinition stack d ≫= fun _ =>
     finish_stack app new_stack_id (def_id d) true stack vc mc qc) in H.
  unfold setDefinition in H. repeat step_in H. cbn [set_base] in H.
  apply (new_stack_outcome (mkState h R ev) _ _ _ _ _ _ _ _ _ d) in H
    as (b & uc & dc & Hh & He & Hid & Hn & Hm & Hdef & Hdc & Huc1 & Hdc1 & Huc2 & Hdc2 & Hcase);
    [|done|done].
  rewrite Hok in Hcase. destruct Hcase as (-> & Hreg & Hv & Hma & Hq & Hqc & Hu & _).
  destruct tr' as [[h' R' ev'] ps']. cbn [now heap registry events set_base stack_base] in *.
  subst h' R' ev' dc. exists b, (mkTrace (mkState (h ++ [GlobalStack b []])
                                   (R ++ [EInstance (definitionChanges b); EInstance uc]) ev) ps').
  rewrite Hu. split_and!; try done; by apply named_fresh_intro.
Qed.

Lemma createExtruderStack_built new_stack_id d machine_definition_id position vc mc qc tr :
  wf_state (now tr) ->
  first_refused app vc mc qc = None ->
  extruder_stack_built app new_stack_id d machine_definition_id position vc mc qc tr.
Proof.
  unfold extruder_stack_built.
  destruct tr as [[h R ev] ps]. cbn [now heap registry events]. intros Hwf Hok.
  destruct (createExtruderStack app new_stack_id d machine_definition_id position vc mc qc _)
    as [out tr'] eqn:H.
  change (createExtruderStack app new_stack_id d machine_definition_id position vc mc qc) with
    (alloc (ExtruderStack (new_stack app new_stack_id) None) ≫= fun stack =>
     setName stack (def_name d) ≫= fun _ =>
     setDefinition stack d ≫= fun _ =>
     addMetaDataEntry stack "position" (VStr position) ≫= fun _ =>
     finish_stack app new_stack_id machine_definition_id false stack vc mc qc) in H.
  unfold setName, setDefinition, addMetaDataEntry in H. repeat step_in H. cbn [set_base] in H.
  apply (new_stack_outcome (mkState h R ev) _ _ _ _ _ _ _ _ _ d) in H
    as (b & uc & dc & Hh & He & Hid & Hn & Hm & Hdef & Hdc & Huc1 & Hdc1 & Huc2 & Hdc2 & Hcase);
    [|done|done].
  rewrite Hok in Hcase. destruct Hcase as (-> & Hreg & Hv & Hma & Hq & Hqc & Hu & _).
  destruct tr' as [[h' R' ev'] ps']. cbn [now heap registry events set_base stack_base] in *.
  subst h' R' ev' dc. exists b, (mkTrace (mkState (h ++ [ExtruderStack b None])
                                   (R ++ [EInstance (definitionChanges b); EInstance uc]) ev) ps').
  rewrite Hu. split_and!; try done; try (by apply named_fresh_intro).
  by rewrite Hm.
Qed.

Lemma createExtruderStack_stopped new_stack_id d machine_definition_id position vc mc qc tr sl :
  wf_state (now tr) ->
  first_refused app vc mc qc = Some sl ->
  extruder_stack_refused app new_stack_id d machine_definition_id position vc mc qc tr sl.
Proof.
  unfold extruder_stack_refused.
  destruct tr as [[h R ev] ps]. cbn [now heap registry events]. intros Hwf Hok.
  destruct (createExtruderStack app new_stack_id d machine_definition_id position vc mc qc _)
    as [out tr'] eqn:H.
  change (createExtruderStack app new_stack_id d machine_definition_id position vc mc qc) with
    (alloc (ExtruderStack (new_stack app new_stack_id) None) ≫= fun stack =>
     setName stack (def_name d) ≫= fun _ =>
     setDefinition stack d ≫= fun _ =>
     addMetaDataEntry stack "position" (VStr position) ≫= fun _ =>
     finish_stack app new_stack_id machine_definition_id false stack vc mc qc) in H.
  unfold setName, setDefinition, addMetaDataEntry in H. repeat step_in H. cbn [set_base] in H.
  apply (new_stack_outcome (mkState h R ev) _ _ _ _ _ _ _ _ _ d) in H
    as (b & uc & dc & Hh & He & Hid & Hn & Hm & Hdef & Hdc & Huc1 & Hdc1 & Huc2 & Hdc2 & Hcase);
    [|done|done].
  rewrite Hok in Hcase. destruct Hcase as (-> & Hreg & Hu).
  destruct tr' as [[h' R' ev'] ps']. cbn [now heap registry events set_base stack_base] in *.
  subst h' R' ev' dc. exists b, (mkTrace (mkState (h ++ [ExtruderStack b None])
                                   (R ++ [EInstance (definitionChanges b)]) ev) ps').
  split_and!; try done; by apply named_fresh_intro.
Qed.

Lemma createGlobalStack_stopped new_stack_id d vc mc qc tr sl :
  wf_state (now tr) ->
  first_refused app vc mc qc = Some sl ->
  global_stack_refused app new_stack_id d vc mc qc tr sl.
Proof.
  unfold global_stack_refused.
  destruct tr as [[h R ev] ps]. cbn [now heap registry events]. intros Hwf Hok.
  destruct (createGlobalStack app new_stack_id d vc mc qc _) as [out tr'] eqn:H.
  change (createGlobalStack app new_stack_id d vc mc qc) with
    (alloc (GlobalStack (new_stack app new_stack_id) []) ≫= fun stack =>
     setDefinition stack d ≫= fun _ =>
     finish_stack app new_stack_id (def_id d) true stack vc mc qc) in H.
  unfold setDefinition in H. repeat step_in H. cbn [set_base] in H.
  apply (new_stack_outcome (mkState h R ev) _ _ _ _ _ _ _ _ _ d) in H
    as (b & uc & dc & Hh & He & Hid & Hn & Hm & Hdef & Hdc & Huc1 & Hdc1 & Huc2 & Hdc2 & Hcase);
    [|done|done].
  rewrite Hok in Hcase. destruct Hcase as (-> & Hreg & Hu).
  destruct tr' as [[h' R' ev'] ps']. cbn [now heap registry events set_base stack_base] in *.
  subst h' R' ev' dc. exists b, (mkTrace (mkState (h ++ [GlobalStack b []])
                                   (R ++ [EInstance (definitionChanges b)]) ev) ps').
  split_and!; try done; by apply named_fresh_intro.
Qed.

(** X3.  createGlobalStack, given containers that their slots accept,
    always returns.  It returns a new global stack without extruders, whose
    id is the requested id, with the definition at the bottom, the three
    containers in their slots, the empty quality-changes container, and two
    fresh containers: a user-changes container bound to the id of the
    definition and naming the stack under "machine", and a
    definition-changes container bound to the same id.  These two are what
    the call adds to the registry, the definition-changes container first;
    the stack itself is not registered. *)
Theorem createGlobalStack_builds_stack new_stack_id d vc mc qc tr :
  wf_state (now tr) ->
  first_refused app vc mc qc = None ->
  global_stack_built app new_stack_id d vc mc qc tr.
Proof. apply createGlobalStack_built. Qed.

(** X4.  createExtruderStack, given containers that their slots accept,
    always returns.  It returns a new extruder stack that has the requested
    id, the name of the extruder definition as its display name and the
    position as its position entry; its user-changes container is bound to
    the id of the machine definition and names the stack under "extruder",
    its definition-changes container is bound to the id of the extruder
    definition.  These two containers are what the call adds to the
    registry, the definition-changes container first; the stack itself is
    not registered. *)
Theorem createExtruderStack_builds_stack new_stack_id d machine_definition_id position
    vc mc qc tr :
  wf_state (now tr) ->
  first_refused app vc mc qc = None ->
  extruder_stack_built app new_stack_id d machine_definition_id position vc mc qc tr.
Proof. apply createExtruderStack_built. Qed.

(** X5.  When one of the containers handed to createExtruderStack is
    refused by its slot, the call raises for the first such slot in the
    order variant, material, quality, quality changes.  By then the new
    definition-changes container is in the registry and stays there; the
    user-changes container is neither registered nor in its slot. *)
Theorem createExtruderStack_refused new_stack_id d machine_definition_id position
    vc mc qc tr sl :
  wf_state (now tr) ->
  first_refused app vc mc qc = Some sl ->
  extruder_stack_refused app new_stack_id d machine_definition_id position vc mc qc tr sl.
Proof. apply createExtruderStack_stopped. Qed.

(** X6.  When one of the containers handed to createGlobalStack is refused
    by its slot, the call raises for the first such slot in the order
    variant, material, quality, quality changes.  By then the new
    definition-changes container is in the registry and stays there; the
    user-changes container is neither registered nor in its slot. *)
Theorem createGlobalStack_refused new_stack_id d vc mc qc tr sl :
  wf_state (now tr) ->
  first_refused app vc mc qc = Some sl ->
  global_stack_refused app new_stack_id d vc mc qc tr sl.
Proof. apply createGlobalStack_stopped. Qed.

End Blocks.


(** * What a run leaves alone *)

Lemma reached_now G tr tr' : reached G (visited tr) (visited tr') -> G (now tr) -> G (now tr').
Proof.
  unfold visited. intros H HG. remember (now tr' :: past tr') as l eqn:El.
  destruct H as [|s l Hs Hr]; injection El as E _; by rewrite <- E.
Qed.

Section Fence.
Variable Pv : Event -> Prop.
Variable N : nat.

Lemma undisturbed_heap s0 s h :
  undisturbed Pv N s0 s ->
  N <= length h -> take N h = take N (heap s) ->
  (forall l o, N <= l -> h !! l = Some o -> new_links N o) ->
  undisturbed Pv N s0 (mkState h (registry s) (events s)).
Proof.
  intros (Hlen & Htake & HJ & Hreg & Hev) Hlen' Htake' HJ'.
  split_and!; cbn [heap registry events]; [done|congruence|done|done|done].
Qed.

Lemma fenced_ret {A} (a : A) (Q : A -> Prop) : Q a -> fenced Pv N (mret a) Q.
Proof.
  intros HQ s0 tr out tr' _ H. rewrite run_ret in H. finish_run H.
  split; [constructor|by intros ? [= <-]].
Qed.

Lemma fenced_raise {A} e (Q : A -> Prop) : fenced Pv N (raise e) Q.
Proof.
  intros s0 tr out tr' _ H. rewrite run_raise in H. finish_run H.
  split; [constructor|by intros ? [=]].
Qed.

Lemma fenced_get : fenced Pv N get_state (fun _ => True).
Proof.
  intros s0 tr out tr' _ H. rewrite run_get in H. finish_run H.
  split; [constructor|done].
Qed.

Lemma fenced_bind {A B} (m : M A) (k : A -> M B) (Q : A -> Prop) (Q' : B -> Prop) :
  fenced Pv N m Q -> (forall a, Q a -> fenced Pv N (k a) Q') -> fenced Pv N (m ≫= k) Q'.
Proof.
  intros Hm Hk s0 tr out tr' Hs H. rewrite run_bind in H.
  destruct (m tr) as [[a|e] tr1] eqn:E.
  - destruct (Hm _ _ _ _ Hs E) as [R1 HQ].
    destruct (Hk a (HQ a eq_refl) s0 tr1 out tr' (reached_now _ _ _ R1 Hs) H) as [R2 HQ'].
    split; [eauto using reached_trans|done].
  - finish_run H. destruct (Hm _ _ _ _ Hs E) as [R1 _]. split; [done|by intros ? [=]].
Qed.

Lemma fenced_weaken {A} (m : M A) (Q Q' : A -> Prop) :
  fenced Pv N m Q -> (forall a, Q a -> Q' a) -> fenced Pv N m Q'.
Proof.
  intros Hm HQ s0 tr out tr' Hs H. destruct (Hm _ _ _ _ Hs H) as [R1 H1].
  split; [done|]. intros a Ha. by apply HQ, H1.
Qed.

Lemma fenced_alloc o : new_links N o -> fenced Pv N (alloc o) (fun l => N <= l).
Proof.
  intros Ho s0 tr out tr' Hs H. rewrite run_alloc in H. finish_run H.
  pose proof Hs as (Hlen & Htake & HJ & _).
  split; [|by intros ? [= <-]].
  unfold visited. cbn [now past]. apply reached_step; [|constructor].
  apply undisturbed_heap; [done|rewrite length_app; lia|by rewrite take_app_le|].
  intros l o' Hl Hlk. destruct (decide (l < length (heap (now tr)))) as [Hlt|Hge].
  - rewrite lookup_app_l in Hlk by done. eauto.
  - apply lookup_lt_Some in Hlk as Hb. rewrite length_app in Hb. cbn in Hb.
    replace l with (length (heap (now tr))) in Hlk by lia.
    rewrite lookup_snoc in Hlk. by injection Hlk as <-.
Qed.

Lemma fenced_mutate l f :
  N <= l ->
  (forall o o', new_links N o -> f o = Return o' -> new_links N o') ->
  fenced Pv N (mutate l f) (fun _ => True).
Proof.
  intros Hl Hf s0 tr out tr' Hs H. unfold mutate in H.
  pose proof Hs as (Hlen & Htake & HJ & _).
  destruct (heap (now tr) !! l) as [o|] eqn:Ho; [|finish_run H; split; [constructor|done]].
  destruct (f o) as [o'|e] eqn:Hfo; finish_run H; (split; [|done]); [|constructor].
  unfold visited. cbn [now past]. apply reached_step; [|constructor].
  unfold set_heap. apply undisturbed_heap; [done|by rewrite length_insert| |].
  - by rewrite take_insert_ge.
  - intros l' o1 Hl' Hlk. destruct (decide (l = l')) as [<-|Hne].
    + rewrite list_lookup_insert_eq in Hlk by (by eapply lookup_lt_Some).
      injection Hlk as <-. eauto.
    + rewrite list_lookup_insert_ne in Hlk by done. eauto.
Qed.

Lemma fenced_deref l : N <= l -> fenced Pv N (deref l) (new_links N).
Proof.
  intros Hl s0 tr out tr' Hs H. unfold deref in H.
  pose proof Hs as (_ & _ & HJ & _).
  destruct (heap (now tr) !! l) as [o|] eqn:Ho; finish_run H; (split; [constructor|]).
  - intros ? [= <-]. eauto.
  - by intros ? [=].
Qed.

Lemma fenced_emit ev : Pv ev -> fenced Pv N (emit ev) (fun _ => True).
Proof.
  intros Hev s0 tr out tr' Hs H. unfold emit in H. rewrite run_update in H. finish_run H.
  split; [|done]. unfold visited. cbn [now past]. apply reached_step; [|constructor].
  destruct Hs as (Hlen & Htake & HJ & Hreg & evs & Hevs & HP).
  split_and!; cbn; [done..|]. exists (evs ++ [ev]). rewrite Hevs, <- app_assoc.
  split; [done|]. apply Forall_app. split; [done|]. by apply Forall_cons_2.
Qed.

Lemma fenced_addContainer e : ~ is_definition e -> fenced Pv N (addContainer e) (fun _ => True).
Proof.
  intros He s0 tr out tr' Hs H. unfold addContainer in H. repeat step_in H.
  destruct (entity_id _ e); [|repeat step_in H; finish_run H; split; [constructor|done]].
  branch H; repeat step_in H; finish_run H; (split; [|done]); [constructor|].
  unfold visited. cbn [now past]. apply reached_step; [|constructor].
  destruct Hs as (Hlen & Htake & HJ & (adds & Hadds & HF) & Hev).
  split_and!; cbn; [done..| |done]. exists (adds ++ [e]). rewrite Hadds, <- app_assoc.
  split; [done|]. apply Forall_app. split; [done|]. by apply Forall_cons_2.
Qed.

Lemma fenced_for_each {A} (items : list A) (body : A -> M unit) :
  Forall (fun x => fenced Pv N (body x) (fun _ => True)) items ->
  fenced Pv N (for_each items body) (fun _ => True).
Proof.
  induction 1 as [|x items Hx _ IH]; cbn [for_each]; [by apply fenced_ret|].
  eapply fenced_bind; [exact Hx|]. intros _ _. exact IH.
Qed.

Lemma new_links_set_base f o : new_links N o -> new_links N (set_base f o).
Proof. by destruct o. Qed.

Lemma fenced_read {A} (f : State -> A) :
  fenced Pv N (st ← get_state; mret (f st)) (fun _ => True).
Proof. eapply fenced_bind; [apply fenced_get|]. intros st _. by apply fenced_ret. Qed.

Lemma fenced_findDefinitionContainers id :
  fenced Pv N (findDefinitionContainers id) (fun _ => True).
Proof. apply fenced_read. Qed.

Lemma fenced_findContainersMetadata id :
  fenced Pv N (findContainersMetadata id) (fun _ => True).
Proof. apply fenced_read. Qed.

Lemma fenced_uniqueName c : fenced Pv N (uniqueName c) (fun _ => True).
Proof. apply fenced_read. Qed.

Lemma fenced_createUniqueName kind current new fallback :
  fenced Pv N (createUniqueName kind current new fallback) (fun _ => True).
Proof.
  unfold createUniqueName. eapply fenced_bind; [apply fenced_get|]. intros st _.
  destruct (_ && _); by apply fenced_ret.
Qed.

Lemma fenced_set_base l f :
  N <= l -> fenced Pv N (mutate l (fun o => Return (set_base f o))) (fun _ => True).
Proof.
  intros Hl. apply fenced_mutate; [done|]. intros o o' Ho [= <-]. by apply new_links_set_base.
Qed.

Lemma fenced_setName l n : N <= l -> fenced Pv N (setName l n) (fun _ => True).
Proof. apply fenced_set_base. Qed.

Lemma fenced_setDefinition l d : N <= l -> fenced Pv N (setDefinition l d) (fun _ => True).
Proof. apply fenced_set_base. Qed.

Lemma fenced_addMetaDataEntry l k v :
  N <= l -> fenced Pv N (addMetaDataEntry l k v) (fun _ => True).
Proof. apply fenced_set_base. Qed.

Lemma fenced_assign l sl c : N <= l -> fenced Pv N (assign l sl c) (fun _ => True).
Proof.
  intros Hl. unfold assign. destruct (type_agrees sl c); [by apply fenced_set_base|].
  apply fenced_raise.
Qed.

Lemma fenced_setNextStack l g : N <= l -> fenced Pv N (setNextStack l g) (fun _ => True).
Proof.
  intros Hl. apply fenced_mutate; [done|]. intros [|] o' Ho; [done|]. by intros [= <-].
Qed.

Lemma fenced_addExtruder g e :
  N <= g -> N <= e -> fenced Pv N (addExtruder g e) (fun _ => True).
Proof.
  intros Hg He s0 tr out tr' Hs H. unfold addExtruder in H.
  pose proof Hs as (Hlen & Htake & HJ & _).
  rewrite run_bind in H. unfold deref at 1 in H.
  destruct (heap (now tr) !! e) as [eo|] eqn:Heo; [|finish_run H; split; [constructor|done]].
  cbv beta iota in H.
  destruct (lookup_meta _ _ _); try (rewrite run_raise in H; finish_run H; split; [constructor|done]).
  rewrite run_bind in H. unfold deref at 1 in H.
  destruct (heap (now tr) !! g) as [[gb xs|]|] eqn:Hgo; cbv beta iota in H;
    try (rewrite ?run_raise in H; finish_run H; split; [constructor|done]).
  destruct (assoc s xs); [rewrite run_raise in H; finish_run H; split; [constructor|done]|].
  destruct eo as [|eb n]; finish_run H; (split; [|done]); [constructor|].
  unfold visited. cbn [now past]. apply reached_step; [|constructor].
  unfold set_heap. apply undisturbed_heap; [done|by rewrite !length_insert| |].
  - by rewrite !take_insert_ge.
  - intros l o Hl Hlk. destruct (decide (e = l)) as [<-|Hne].
    + rewrite list_lookup_insert_eq in Hlk
        by (rewrite length_insert; by eapply lookup_lt_Some).
      by injection Hlk as <-.
    + rewrite list_lookup_insert_ne in Hlk by done.
      destruct (decide (g = l)) as [<-|Hne'].
      * rewrite list_lookup_insert_eq in Hlk by (by eapply lookup_lt_Some).
        injection Hlk as <-. cbn. apply Forall_app. split; [by apply (HJ g _ Hg Hgo)|].
        by apply Forall_cons_2.
      * rewrite list_lookup_insert_ne in Hlk by done. eauto.
Qed.

End Fence.

Create HintDb fence.

#[local] Hint Resolve fenced_get fenced_findDefinitionContainers fenced_findContainersMetadata
  fenced_uniqueName fenced_createUniqueName fenced_setName fenced_setDefinition
  fenced_addMetaDataEntry fenced_assign fenced_setNextStack fenced_addExtruder
  fenced_addContainer fenced_raise fenced_deref : fence.

(** One statement of a fenced computation after the other. *)
Ltac fence :=
  repeat first
    [ solve [eauto with fence lia]
    | apply fenced_ret; first [exact I | lia | assumption]
    | match goal with
      | |- fenced _ _ (_ ≫= _) _ =>
          eapply fenced_bind; [solve [eauto with fence lia]|]; intros ? ?; cbv beta in *
      end ].

Section FencedBuilder.
Variable app : Application.
Variable Pv : Event -> Prop.
Variable N : nat.

Lemma fenced_createUserChangesContainer n d sid g :
  fenced Pv N (createUserChangesContainer app n d sid g) (fun _ => True).
Proof. unfold createUserChangesContainer. fence. Qed.

Lemma fenced_createDefinitionChangesContainer l n :
  N <= l -> fenced Pv N (createDefinitionChangesContainer app l n) (fun _ => True).
Proof.
  intros Hl. unfold createDefinitionChangesContainer. fence.
  destruct (definition _); fence.
Qed.

Lemma fenced_createExtruderStack id d mid p vc mc qc :
  fenced Pv N (createExtruderStack app id d mid p vc mc qc) (fun l => N <= l).
Proof.
  unfold createExtruderStack.
  eapply fenced_bind; [by apply fenced_alloc|]. intros l Hl. fence.
  eapply fenced_bind; [by apply fenced_createUserChangesContainer|]. intros uc _.
  eapply fenced_bind; [by apply fenced_createDefinitionChangesContainer|]. intros dc _.
  fence.
Qed.

Lemma fenced_createGlobalStack id d vc mc qc :
  fenced Pv N (createGlobalStack app id d vc mc qc) (fun l => N <= l).
Proof.
  unfold createGlobalStack.
  eapply fenced_bind; [apply fenced_alloc; by apply Forall_nil_2|]. intros l Hl. fence.
  eapply fenced_bind; [by apply fenced_createUserChangesContainer|]. intros uc _.
  eapply fenced_bind; [by apply fenced_createDefinitionChangesContainer|]. intros dc _.
  fence.
Qed.

Lemma fenced_generate_name name d : fenced Pv N (generate_name name d) (fun _ => True).
Proof.
  unfold generate_name.
  eapply fenced_bind; [apply fenced_createUniqueName|]. intros generated_name _.
  eapply fenced_bind; [apply fenced_findContainersMetadata|]. intros clashes _.
  destruct clashes; [by apply fenced_ret|apply fenced_uniqueName].
Qed.

Lemma fenced_create_extruder id gs vc mc item :
  N <= gs -> fenced Pv N (create_extruder app id gs vc mc item) (fun _ => True).
Proof.
  intros Hgs. destruct item as [p e]. unfold create_extruder. fence.
  destruct a as [|de rest]; fence. destruct (py_ne_str _ _); fence.
  eapply fenced_bind; [by apply fenced_createExtruderStack|]. intros l Hl. fence.
Qed.

Lemma fenced_set_extruder_quality g item :
  N <= item.2 -> fenced Pv N (set_extruder_quality g item) (fun _ => True).
Proof.
  destruct item as [p l]. intros Hl. unfold set_extruder_quality.
  destruct (assoc p _); eauto with fence.
Qed.

End FencedBuilder.

Section FencedMachine.
Variable app : Application.
Variable Pv : Event -> Prop.
Variable N : nat.

(** [Pv] lets every event through, save perhaps a question to the variant
    manager. *)
Hypothesis Pv_others : forall ev, (forall i v, ev <> EvGetVariantNode i v) -> Pv ev.

Lemma fenced_select_variant d id :
  (forall v, Pv (EvGetVariantNode id v)) ->
  fenced Pv N (select_variant app d id) (fun _ => True).
Proof.
  intros Hv. unfold select_variant. destruct (parseBool app _); [|by apply fenced_ret].
  destruct (truthy _); [|by apply fenced_ret].
  eapply fenced_bind; [by apply fenced_emit|]. intros _ _.
  destruct (getVariantNode app id _); [by apply fenced_ret|apply fenced_raise].
Qed.

(** Without a preferred variant name the variant step asks nothing. *)
Lemma fenced_select_variant_unnamed d id :
  truthy (getMetaDataEntry d "preferred_variant_name" VNone) = false ->
  fenced Pv N (select_variant app d id) (fun _ => True).
Proof.
  intros Hn. unfold select_variant. rewrite Hn.
  destruct (parseBool app _); by apply fenced_ret.
Qed.

Lemma fenced_select_material d id vn :
  fenced Pv N (select_material app d id vn) (fun _ => True).
Proof.
  unfold select_material. destruct (parseBool app _); [|by apply fenced_ret].
  destruct (getProperty d _); [|apply fenced_raise].
  eapply fenced_bind; [by apply fenced_emit, Pv_others|]. intros _ _.
  eapply fenced_bind; [by apply fenced_emit, Pv_others|]. intros _ _.
  destruct (getMaterialNode app id vn _ _); [by apply fenced_ret|apply fenced_raise].
Qed.

Lemma fenced_prepare_machine name id d :
  fenced Pv N (select_variant app d id) (fun _ => True) ->
  fenced Pv N (prepare_machine app name id d) (fun r => N <= r.1.1).
Proof.
  intros Hv. unfold prepare_machine.
  eapply fenced_bind; [exact Hv|]. intros [vn vc] _.
  eapply fenced_bind; [apply fenced_select_material|]. intros mc _.
  eapply fenced_bind; [apply fenced_generate_name|]. intros generated_name _.
  eapply fenced_bind; [apply fenced_createGlobalStack|]. intros gs Hgs.
  eapply fenced_bind; [by apply fenced_setName|]. intros _ _.
  by apply fenced_ret.
Qed.

Lemma fenced_apply_quality d gs :
  N <= gs -> fenced Pv N (apply_quality app d gs) (fun _ => True).
Proof.
  intros Hgs. unfold apply_quality.
  eapply fenced_bind; [apply fenced_get|]. intros st _.
  eapply fenced_bind; [by apply fenced_emit, Pv_others|]. intros _ _.
  destruct (get_quality_group _ _) as [[g|]|e]; try apply fenced_raise.
  eapply fenced_bind; [by apply fenced_assign|]. intros _ _.
  eapply fenced_bind; [by apply fenced_deref|]. intros [gb xs|] Hlinks; [|apply fenced_raise].
  apply fenced_for_each. eapply Forall_impl; [exact Hlinks|].
  intros x Hx. by apply fenced_set_extruder_quality.
Qed.

(** What [createMachine] does once it has found the machine definition
    [d]. *)
Lemma fenced_found name id d :
  fenced Pv N (select_variant app d id) (fun _ => True) ->
  fenced Pv N
    (prepare_machine app name id d ≫= fun r =>
     let '(new_global_stack, variant_container, material_container) := r in
     match getMetaDataEntry d "machine_extruder_trains" VNone with
     | VDict extruder_dict =>
         for_each extruder_dict
           (create_extruder app id new_global_stack variant_container material_container)
           ≫= fun _ =>
         apply_quality app d new_global_stack ≫= fun _ =>
         addContainer (EStack new_global_stack) ≫= fun _ =>
         mret (Some new_global_stack)
     | _ => raise AttributeError
     end) (fun _ => True).
Proof.
  intros Hv.
  eapply fenced_bind; [by apply fenced_prepare_machine|]. intros [[gs vc] mc] Hgs. cbn in Hgs.
  destruct (getMetaDataEntry d _ _) as [| | | |trains]; try apply fenced_raise.
  eapply fenced_bind.
  { apply fenced_for_each, Forall_forall. intros item _. by apply fenced_create_extruder. }
  intros _ _.
  eapply fenced_bind; [by apply fenced_apply_quality|]. intros _ _.
  eapply fenced_bind; [apply fenced_addContainer; tauto|]. intros _ _.
  by apply fenced_ret.
Qed.

Lemma fenced_createMachine name id :
  (forall v, Pv (EvGetVariantNode id v)) ->
  fenced Pv N (createMachine app name id) (fun _ => True).
Proof.
  intros Hv. unfold createMachine.
  eapply fenced_bind; [apply fenced_findDefinitionContainers|]. intros [|d rest] _.
  { eapply fenced_bind; [by apply fenced_emit, Pv_others|]. intros _ _. by apply fenced_ret. }
  by apply fenced_found, fenced_select_variant.
Qed.

End FencedMachine.

Lemma undisturbed_start Pv st : undisturbed Pv (length (heap st)) st st.
Proof.
  split_and!; [done|done| |exists []; by rewrite app_nil_r|exists []; by rewrite app_nil_r].
  intros l o Hl Ho. apply lookup_lt_Some in Ho. lia.
Qed.

Lemma undisturbed_left_alone Pv st s : undisturbed Pv (length (heap st)) st s -> left_alone st s.
Proof.
  intros (_ & Htake & _ & Hreg & evs & Hev & _).
  split_and!; [by rewrite Htake, take_ge|done|by exists evs].
Qed.

Section Frame.
Variable app : Application.

(** X7.  Whatever createMachine does and however it ends, in every state
    it goes through the stack objects that existed before the call are as
    they were, the registry holds what it held with new entries after the
    old ones, none of them a definition, and the log has grown at its end
    only. *)
Theorem createMachine_leaves_the_rest_alone name id st :
  Forall (left_alone st) (visited (final_trace (run (createMachine app name id) st))).
Proof.
  destruct (run (createMachine app name id) st) as [out tr'] eqn:H. cbn [final_trace snd].
  destruct (fenced_createMachine app (fun _ => True) (length (heap st)) (fun _ _ => I)
              name id (fun _ => I) st (mkTrace st []) out tr' (undisturbed_start _ st) H)
    as [R _].
  apply reached_app in R as (news & -> & Hnews). apply Forall_app. split.
  - eapply Forall_impl; [exact Hnews|]. apply undisturbed_left_alone.
  - apply Forall_cons_2; [|apply Forall_nil_2].
    apply (undisturbed_left_alone (fun _ => True)), undisturbed_start.
Qed.

End Frame.


(** * Runs that are bound to succeed *)

Lemma wf_state_intro st : (forall l, EStack l ∈ registry st -> l < length (heap st)) -> wf_state st.
Proof.
  intros H. unfold wf_state. apply forallb_forall. intros [| |l] Hin; [done..|].
  cbn. apply Nat.ltb_lt, H. by apply list_elem_of_In.
Qed.

Lemma Inv_wf st s : Inv st s -> wf_state s.
Proof. intros HI. apply wf_state_intro, (inv_exists _ _ HI). Qed.

Lemma has_id_heap_kept s s' n e :
  heap_kept (heap s) (heap s') -> stack_exists (heap s) e = true ->
  has_id s' n e = has_id s n e.
Proof.
  intros K He. unfold has_id. destruct e as [| |l]; cbn [entity_id]; [done..|].
  cbn in He. apply Nat.ltb_lt in He.
  destruct (lookup_lt_is_Some_2 _ _ He) as [o Ho].
  destruct (K _ _ Ho) as (o' & Ho' & Ko). rewrite Ho, Ho'. cbn.
  destruct o, o'; cbn in Ko; try done.
  - destruct Ko as [(E & _) _]. cbn [stack_base]. by rewrite E.
  - destruct Ko as [_ (E & _)]. cbn [stack_base]. by rewrite E.
Qed.

Lemma no_clash_kept id s s' adds :
  wf_state s ->
  heap_kept (heap s) (heap s') ->
  registry s' = registry s ++ adds ->
  Forall (fun e => has_id s' id e = false) adds ->
  no_clash id s -> no_clash id s'.
Proof.
  unfold no_clash. intros Hwf K -> Hadds Hs. rewrite existsb_app.
  apply orb_false_iff. split.
  - rewrite <- Hs. apply existsb_ext_in. intros e He. apply has_id_heap_kept; [done|].
    unfold wf_state in Hwf. rewrite forallb_forall in Hwf. by apply Hwf, list_elem_of_In.
  - apply not_true_iff_false. intros (e & He & Hid)%existsb_exists.
    rewrite Forall_forall in Hadds. apply list_elem_of_In, Hadds in He. congruence.
Qed.

Lemma prefix_append a b : String.prefix a (a +:+ b) = true.
Proof.
  induction a as [|c a IH]; [by destruct b|]. rewrite append_cons. cbn.
  destruct (ascii_dec c c); [done|congruence].
Qed.

Lemma allocate_name_prefix u fuel c : String.prefix c (allocate_name u fuel c) = true.
Proof. destruct (allocate_name_extends u fuel c) as [s ->]. apply prefix_append. Qed.

Lemma prefix_trans a b c :
  String.prefix a b = true -> String.prefix b c = true -> String.prefix a c = true.
Proof.
  revert b c. induction a as [|x a IH]; intros b c H1 H2; [by destruct c|].
  destruct b as [|y b]; [done|]. destruct c as [|z c]; [done|]. cbn in *.
  destruct (ascii_dec x y) as [->|]; [|done]. destruct (ascii_dec y z) as [->|]; [|done].
  eauto.
Qed.

Lemma machine_name_unregistered st name d : no_clash (machine_name st name d) st.
Proof.
  unfold no_clash, machine_name.
  destruct (existsb (has_id st (stack_unique_name st name d)) (registry st)) eqn:E; [|done].
  apply in_use_has_id, uniqueName_free.
Qed.

Lemma keys_distinct_NoDup {V} (d : list (string * V)) : keys_distinct d = true -> NoDup d.*1.
Proof.
  induction d as [|[k v] d IH]; cbn; [constructor|].
  destruct (assoc k d) eqn:E; [done|]. intros H. constructor; [|auto].
  intros (x & Hk & Hx)%list_elem_of_fmap. destruct x as [k' v']. cbn in Hk. subst k'.
  clear -E Hx. induction d as [|[k1 v1] d IH]; [by apply elem_of_nil in Hx|].
  cbn in E. destruct (String.eqb k k1) eqn:Ek; [done|].
  apply elem_of_cons in Hx as [[= <- <-]|Hx]; [by rewrite String.eqb_refl in Ek|auto].
Qed.

Lemma state_eta s : mkState (heap s) (registry s) (events s) = s.
Proof. by destruct s. Qed.

Section Progress.
Variable app : Application.

Lemma select_variant_returns d id tr x :
  chosen_variant app d id = Some x ->
  exists tr1,
    select_variant app d id tr = (Return x, tr1) /\
    now tr1 = mkState (heap (now tr)) (registry (now tr))
                (events (now tr) ++ variant_events app d id).
Proof.
  unfold chosen_variant, select_variant, variant_events, emit.
  destruct (parseBool app _); cbn [andb].
  2: { intros [= <-]. eexists. split; [reflexivity|]. by rewrite app_nil_r, state_eta. }
  destruct (truthy _).
  2: { intros [= <-]. eexists. split; [reflexivity|]. by rewrite app_nil_r, state_eta. }
  destruct (getVariantNode app id _) as [node|]; [|done]. intros [= <-].
  eexists. repeat step. split; reflexivity.
Qed.

Lemma select_material_returns d id vn tr x :
  chosen_material app d id vn = Some x ->
  exists tr1,
    select_material app d id vn tr = (Return x, tr1) /\
    now tr1 = mkState (heap (now tr)) (registry (now tr))
                (events (now tr) ++ material_events app d id vn).
Proof.
  unfold chosen_material, select_material, material_events, emit.
  destruct (parseBool app _).
  2: { intros [= <-]. eexists. split; [reflexivity|]. by rewrite app_nil_r, state_eta. }
  destruct (getProperty d _) as [dia|]; [|done].
  destruct (getMaterialNode app id vn dia _) as [node|]; [|done]. intros [= <-].
  eexists. repeat step. split; [reflexivity|]. by rewrite <- app_assoc.
Qed.

Lemma wf_state_events s ev : wf_state s -> wf_state (mkState (heap s) (registry s) ev).
Proof. done. Qed.

Lemma prepare_machine_returns name id d st vn vc mc :
  wf_state st ->
  chosen_variant app d id = Some (vn, vc) ->
  chosen_material app d id vn = Some mc ->
  first_refused app (empty_variant_container app) (empty_material_container app)
    (empty_quality_container app) = None ->
  exists tr',
    prepare_machine app name id d (mkTrace st []) = (Return (length (heap st), vc, mc), tr') /\
    no_clash (machine_name st name d) (now tr') /\
    events (now tr') = events st ++ variant_events app d id ++ material_events app d id vn /\
    length (registry (now tr')) = length (registry st) + 2.
Proof.
  intros Hwf Hcv Hcm Hok. unfold prepare_machine.
  destruct (select_variant_returns d id (mkTrace st []) _ Hcv) as (tr1 & Hv & Hs1).
  rewrite run_bind, Hv. cbv beta iota.
  destruct (select_material_returns d id vn tr1 _ Hcm) as (tr2 & Hm & Hs2).
  rewrite run_bind, Hm. cbv beta iota.
  rewrite run_bind, generate_name_run. cbv beta iota.
  assert (Hq : quiet st (now tr2)) by (rewrite Hs2, Hs1; by split).
  rewrite (machine_name_quiet _ _ _ _ Hq).
  set (gname := machine_name st name d).
  assert (Hwf2 : wf_state (now tr2)) by (rewrite Hs2, Hs1; done).
  destruct (createGlobalStack_built app gname d _ _ _ tr2 Hwf2 Hok)
    as (gb & tr3 & Hg & Hs3 & Hid & _ & _ & _ & _ & _ & Hu & Hdc & _).
  rewrite run_bind, Hg. cbv beta iota.
  destruct tr3 as [s3 ps3]. cbn [now] in Hs3. subst s3.
  unfold setName. rewrite run_bind, mutate_snoc. cbv beta iota. rewrite run_ret.
  rewrite Hs2, Hs1. cbn [heap registry events now].
  eexists. split; [reflexivity|]. cbn [now events registry].
  split; [|split; [by rewrite <- app_assoc|rewrite length_app; cbn; lia]].
  eapply (no_clash_kept gname st _
            [EInstance (definitionChanges gb); EInstance (userChanges gb)]);
    [done|apply heap_kept_app|reflexivity| |apply machine_name_unregistered].
  destruct Hu as (Hu & _), Hdc as (Hdc & _). rewrite Hs2, Hs1 in Hu, Hdc.
  repeat apply Forall_cons_2; [| |apply Forall_nil_2];
    unfold has_id, opt_is; cbn [entity_id]; apply String.eqb_neq.
  - rewrite Hdc. by apply suffixed_apart.
  - rewrite Hu. by apply suffixed_apart.
Qed.

Lemma assoc_fresh {V} k (xs : list (string * V)) : k ∉ xs.*1 -> assoc k xs = None.
Proof.
  induction xs as [|[k' v] xs IH]; [done|]. cbn. intros H.
  destruct (String.eqb k k') eqn:E.
  - apply String.eqb_eq in E. subst. exfalso. apply H, list_elem_of_here.
  - apply IH. intros Hin. by apply H, list_elem_of_further.
Qed.

Lemma prefixed_apart e a name :
  String.prefix e a = true -> String.prefix e name = false -> a <> name.
Proof. congruence. Qed.

Lemma fresh_name_prefix st c : String.prefix c (fresh_name st c) = true.
Proof. apply allocate_name_prefix. Qed.

Lemma create_extruder_returns st name d vc mc items xs id p e de rest tr :
  Assembled app st name d vc mc items xs (now tr) ->
  no_clash name (now tr) ->
  first_refused app vc mc (empty_quality_container app) = None ->
  definitions_with_id st e = de :: rest ->
  py_ne_str (getMetaDataEntry de "position" VNone) p = false ->
  p ∉ items.*1 ->
  String.prefix e name = false ->
  exists tr',
    create_extruder app id (length (heap st)) vc mc (p, e) tr = (Return tt, tr') /\
    no_clash name (now tr') /\
    events (now tr') = events (now tr) /\
    length (registry (now tr')) = length (registry (now tr)) + 3.
Proof.
  intros HA Hnc Hok Hde Hpos Hp Hpre.
  pose proof HA as [HS (gb & Hg & Hid & Hname & _) Hext Hstacks Hnd].
  pose proof (Inv_wf _ _ (proj1 HS)) as Hwf.
  destruct (Assembled_extruders _ _ _ _ _ _ _ _ _ HA) as [Hfst _].
  pose proof (lookup_lt_Some _ _ _ Hg) as Hlt.
  destruct tr as [[h R ev] ps]; cbn [now heap registry events] in *.
  unfold create_extruder, findDefinitionContainers, uniqueName.
  repeat step. rewrite (definitions_stable st) by apply HS. rewrite Hde. cbv beta iota.
  rewrite Hpos. repeat step.
  change (allocate_name (in_use (mkState h R ev)) (2 * length R) e)
    with (fresh_name (mkState h R ev) e).
  set (X := fresh_name (mkState h R ev) e).
  destruct (createExtruderStack_built app X de id p vc mc (empty_quality_container app)
              (mkTrace (mkState h R ev) ps) Hwf Hok)
    as (eb & tr1 & Hrun & Hnow & HebId & _ & Hmeta & _ & _ & _ & _ & _ & Hu & Hdc & _).
  cbn [now heap registry events] in *.
  rewrite Hrun. cbv beta iota. destruct tr1 as [s1 ps1]. cbn [now] in Hnow. subst s1.
  unfold setNextStack. rewrite run_bind, mutate_snoc. cbv beta iota.
  rewrite run_bind, (addExtruder_run _ _ _ gb xs _ _ _ _ p)
    by (done || (unfold lookup_meta; by rewrite Hmeta)).
  rewrite (assoc_fresh p xs) by (by rewrite Hfst). cbv beta iota.
  set (h3 := <[length (heap st) := GlobalStack gb (xs ++ [(p, length h)])]> h
               ++ [ExtruderStack eb (Some (length (heap st)))]).
  set (R1 := R ++ [EInstance (definitionChanges eb); EInstance (userChanges eb)]).
  assert (K : heap_kept h h3).
  { unfold h3. eapply heap_kept_trans; [|apply heap_kept_app].
    eapply heap_kept_insert; [exact Hg|]. split; [apply base_kept_refl|by eexists]. }
  assert (Hl3 : h3 !! length h = Some (ExtruderStack eb (Some (length (heap st))))).
  { unfold h3. apply lookup_snoc_at, length_insert. }
  destruct Hu as (Hu & _), Hdc as (Hdc & _).
  assert (Hpx : String.prefix e X = true) by apply fresh_name_prefix.
  assert (HX : no_clash X (mkState h3 R1 ev)).
  { eapply (no_clash_kept X (mkState h R ev) _
              [EInstance (definitionChanges eb); EInstance (userChanges eb)]);
      [done|exact K|reflexivity| |apply fresh_name_unregistered].
    repeat apply Forall_cons_2; [| |apply Forall_nil_2];
      unfold has_id, opt_is; cbn [entity_id]; apply String.eqb_neq.
    - rewrite Hdc. by apply suffixed_apart.
    - rewrite Hu. by apply suffixed_apart. }
  unfold addContainer. repeat step. rewrite Hl3. cbn [fmap option_fmap option_map stack_base].
  rewrite HebId. fold R1. unfold no_clash in HX. cbn [registry] in HX. rewrite HX.
  repeat step. eexists. split; [reflexivity|]. cbn [now events registry].
  split; [|split; [done|unfold R1; rewrite !length_app; cbn; lia]].
  eapply (no_clash_kept name (mkState h R ev) _
            [EInstance (definitionChanges eb); EInstance (userChanges eb); EStack (length h)]);
    [done|exact K|by unfold R1; rewrite <- app_assoc| |done].
  repeat apply Forall_cons_2; [| | |apply Forall_nil_2];
    unfold has_id, opt_is; cbn [entity_id heap]; rewrite ?Hl3;
    cbn [fmap option_fmap option_map stack_base]; apply String.eqb_neq.
  - apply (prefixed_apart e); [|done]. rewrite Hdc.
    eapply prefix_trans; [exact Hpx|]. eapply prefix_trans; [|apply fresh_name_prefix].
    apply prefix_append.
  - apply (prefixed_apart e); [|done]. rewrite Hu.
    eapply prefix_trans; [exact Hpx|]. eapply prefix_trans; [|apply fresh_name_prefix].
    apply prefix_append.
  - rewrite HebId. by apply (prefixed_apart e).
Qed.

Lemma extruder_loop_returns st name d vc mc id items :
  forall items0 xs0 tr,
  Assembled app st name d vc mc items0 xs0 (now tr) ->
  no_clash name (now tr) ->
  first_refused app vc mc (empty_quality_container app) = None ->
  extruders_declared st items = true ->
  names_apart name items = true ->
  NoDup (items0 ++ items).*1 ->
  exists tr' xs,
    for_each items (create_extruder app id (length (heap st)) vc mc) tr = (Return tt, tr') /\
    Assembled app st name d vc mc (items0 ++ items) (xs0 ++ xs) (now tr') /\
    no_clash name (now tr') /\
    events (now tr') = events (now tr) /\
    length (registry (now tr')) = length (registry (now tr)) + 3 * length items.
Proof.
  induction items as [|[p e] items IH]; intros items0 xs0 tr HA Hnc Hok Hdecl Hapart Hnd.
  - exists tr, []. rewrite !app_nil_r. cbn. split_and!; try done; lia.
  - cbn [extruders_declared names_apart forallb fst snd] in Hdecl, Hapart.
    apply andb_true_iff in Hdecl as [Hde Hdecl]. apply andb_true_iff in Hapart as [Hpre Hapart].
    destruct (definitions_with_id st e) as [|de rest] eqn:Hfound; [done|].
    apply negb_true_iff in Hde, Hpre.
    assert (Hp : p ∉ items0.*1).
    { rewrite fmap_app in Hnd. apply NoDup_app in Hnd as (_ & Hnd & _).
      intros Hin. apply (Hnd p Hin). cbn. apply list_elem_of_here. }
    destruct (create_extruder_returns st name d vc mc items0 xs0 id p e de rest tr
                HA Hnc Hok Hfound Hde Hp Hpre) as (tr1 & Hrun & Hnc1 & Hev1 & Hlen1).
    destruct (create_extruder_run app _ _ _ _ _ _ _ _ _ _ _ _ _ HA Hrun) as [_ Hpost].
    destruct (Hpost _ eq_refl) as [l HA1].
    destruct (IH (items0 ++ [(p, e)]) (xs0 ++ [(p, l)]) tr1 HA1 Hnc1 Hok Hdecl Hapart)
      as (tr' & xs & Hloop & HA' & Hnc' & Hev' & Hlen').
    { by rewrite <- app_assoc. }
    exists tr', ((p, l) :: xs). cbn [for_each]. rewrite run_bind, Hrun. cbv beta iota.
    rewrite <- !app_assoc in HA'. split_and!; try done; [congruence|].
    rewrite Hlen', Hlen1. cbn [length]. lia.
Qed.

Lemma quality_loop_returns st name d vc mc items xs g cid todo :
  forall tr,
  Assembled app st name d vc mc items xs (now tr) ->
  (forall x, x ∈ todo -> x ∈ xs) ->
  no_clash cid (now tr) ->
  forallb (fun x => match assoc x.1 (nodes_for_extruders g) with
                    | Some node => type_agrees Quality (getContainer node)
                    | None => false
                    end) todo = true ->
  exists tr',
    for_each todo (set_extruder_quality g) tr = (Return tt, tr') /\
    Assembled app st name d vc mc items xs (now tr') /\
    no_clash cid (now tr') /\
    events (now tr') = events (now tr) /\ registry (now tr') = registry (now tr) /\
    heap (now tr') !! length (heap st) = heap (now tr) !! length (heap st).
Proof.
  induction todo as [|[p l] todo IH]; intros tr HA Hxs Hnc Hfit.
  - by exists tr.
  - cbn [forallb fst] in Hfit. apply andb_true_iff in Hfit as [Hnode Hfit].
    destruct (assoc p (nodes_for_extruders g)) as [node|] eqn:Hp; [|done].
    assert (Hin : (p, l) ∈ xs) by apply Hxs, list_elem_of_here.
    pose proof (asm_extruders _ _ _ _ _ _ _ _ _ HA) as Hext.
    destruct (proj1 (list_elem_of_lookup _ _) Hin) as [i Hi].
    destruct (Forall2_lookup_r _ _ _ _ _ Hext Hi) as (item & _ & Hb).
    destruct Hb as (_ & Hgt & _ & eb & de & Hl & _). cbn [snd] in Hl, Hgt.
    pose proof (Assembled_quality app _ _ _ _ _ _ _ _ _ _ (getContainer node) (events (now tr))
                  HA Hl) as HA'.
    destruct (IH (mkTrace (mkState (<[l := set_base (with_slot Quality (getContainer node))
                                           (ExtruderStack eb (Some (length (heap st))))]>
                                     (heap (now tr)))
                            (registry (now tr)) (events (now tr)))
                   (now tr :: past tr)))
      as (tr' & Hrun & HA'' & Hnc'' & Hev'' & Hreg'' & Hgs''); cbn [now]; try done.
    { intros x Hx. by apply Hxs, list_elem_of_further. }
    { eapply (no_clash_kept cid (now tr) _ []);
        [apply (Inv_wf st), HA| |by rewrite app_nil_r|apply Forall_nil_2|done].
      cbn [heap]. eapply heap_kept_insert; [exact Hl|apply obj_kept_quality]. }
    exists tr'. cbn [for_each]. rewrite run_bind. unfold set_extruder_quality at 1.
    rewrite Hp, (assign_run _ _ _ _ _ Hl), Hnode. cbv beta iota.
    split_and!; try done. rewrite Hgs''. cbn [now heap].
    apply list_lookup_insert_ne. lia.
Qed.

Lemma forallb_keys {V W} (f : string -> bool) (items : list (string * V))
    (xs : list (string * W)) :
  xs.*1 = items.*1 -> forallb (fun x => f x.1) items = true -> forallb (fun x => f x.1) xs = true.
Proof.
  revert items. induction xs as [|[k w] xs IH]; intros [|[k' v] items] E; try done.
  injection E as -> E. cbn. intros [-> H]%andb_true_iff. cbn. eauto.
Qed.

Lemma apply_quality_returns st name d vc mc items xs tr qt g :
  Assembled app st name d vc mc items xs (now tr) ->
  no_clash name (now tr) ->
  getMetaDataEntry d "preferred_quality_type" VNone = VStr qt ->
  assoc qt (getQualityGroups app (now tr) (length (heap st))) = Some g ->
  quality_fits g items = true ->
  exists tr',
    apply_quality app d (length (heap st)) tr = (Return tt, tr') /\
    Assembled app st name d vc mc items xs (now tr') /\
    no_clash name (now tr') /\
    events (now tr') = events (now tr) ++ [EvGetQualityGroups (length (heap st))] /\
    registry (now tr') = registry (now tr).
Proof.
  intros HA Hnc Hqt Hg Hfit. apply andb_true_iff in Hfit as [Hglobal Hfit].
  unfold apply_quality, emit, get_quality_group. repeat step. rewrite Hqt, Hg.
  pose proof (Assembled_events app _ _ _ _ _ _ _ _
                (events (now tr) ++ [EvGetQualityGroups (length (heap st))]) HA) as HA1.
  destruct (asm_global _ _ _ _ _ _ _ _ _ HA1) as (gb & Hgb & _).
  cbn [heap] in Hgb. rewrite run_bind.
  match goal with
  | |- context [assign ?l ?sl ?c ?t] => rewrite (assign_run l sl c (GlobalStack gb xs) t Hgb)
  end.
  rewrite Hglobal. cbv beta iota. cbn [now past heap registry events].
  pose proof (Assembled_quality app _ _ _ _ _ _ _ _ _ _ (getContainer (node_for_global g))
                (events (now tr) ++ [EvGetQualityGroups (length (heap st))])
                HA1 Hgb) as HA2.
  cbn [heap registry] in HA2.
  assert (Hg2 : <[length (heap st) := set_base (with_slot Quality
                    (getContainer (node_for_global g))) (GlobalStack gb xs)]> (heap (now tr))
                !! length (heap st)
                = Some (GlobalStack (with_slot Quality (getContainer (node_for_global g)) gb) xs)).
  { apply list_lookup_insert_eq. by eapply lookup_lt_Some. }
  rewrite run_bind.
  match goal with
  | |- context [deref ?l ?t] => rewrite (deref_at l _ t Hg2)
  end.
  cbv beta iota.
  destruct (Assembled_extruders app _ _ _ _ _ _ _ _ HA) as [Hfst _].
  match goal with
  | |- context [for_each xs _ ?t] =>
      destruct (quality_loop_returns st name d vc mc items xs g name xs t)
        as (tr' & Hrun & HA' & Hnc' & Hev' & Hreg' & _)
  end; cbn [now]; try done.
  - eapply (no_clash_kept name (now tr) _ []);
      [apply (Inv_wf st), HA| |by rewrite app_nil_r|apply Forall_nil_2|done].
    cbn [heap]. eapply heap_kept_insert; [exact Hgb|apply obj_kept_quality].
  - by apply (forallb_keys
                (fun k => match assoc k (nodes_for_extruders g) with
                          | Some node => type_agrees Quality (getContainer node)
                          | None => false
                          end) items xs).
  - exists tr'. by split_and!.
Qed.

(** X13.  createMachine returns a machine whenever the data it reads is
    consistent: the registered stacks exist; the machine definition is
    found; its variant and its material resolve; the empty containers of the
    application and the variant and the material chosen have the types of
    their slots; machine_extruder_trains is a dict with distinct positions,
    every extruder definition it lists is registered and agrees on its
    position, and none of their ids is the beginning of the name the machine
    gets; the quality manager has a group for the preferred quality type,
    with a quality container for the global stack and for every position.
    The call then adds three entries to the registry for every extruder and
    three for the machine. *)
Theorem createMachine_succeeds name id st d rest vn vc mc trains qt g :
  wf_state st ->
  definitions_with_id st id = d :: rest ->
  chosen_variant app d id = Some (vn, vc) ->
  chosen_material app d id vn = Some mc ->
  first_refused app (empty_variant_container app) (empty_material_container app)
    (empty_quality_container app) = None ->
  first_refused app vc mc (empty_quality_container app) = None ->
  getMetaDataEntry d "machine_extruder_trains" VNone = VDict trains ->
  keys_distinct trains = true ->
  extruders_declared st trains = true ->
  names_apart (machine_name st name d) trains = true ->
  getMetaDataEntry d "preferred_quality_type" VNone = VStr qt ->
  (forall s, assoc qt (getQualityGroups app s (length (heap st))) = Some g) ->
  quality_fits g trains = true ->
  exists tr',
    run (createMachine app name id) st = (Return (Some (length (heap st))), tr') /\
    length (registry (now tr')) = length (registry st) + 3 * length trains + 3.
Proof.
  intros Hwf Hd Hcv Hcm Hok0 Hok Ht Hkeys Hdecl Hapart Hqt Hgroup Hfit.
  destruct (prepare_machine_returns name id d st vn vc mc Hwf Hcv Hcm Hok0)
    as (tr1 & Hprep & Hnc1 & _ & Hlen1).
  destruct (prepare_machine_run app name id d (mkTrace st []) _ _ Hwf Hprep) as [_ Hpost].
  destruct (Hpost _ _ _ eq_refl) as (_ & _ & HA1 & _). cbn [now] in HA1.
  destruct (extruder_loop_returns st (machine_name st name d) d vc mc id trains [] [] tr1
              HA1 Hnc1 Hok Hdecl Hapart) as (tr2 & xs & Hloop & HA2 & Hnc2 & _ & Hlen2).
  { by apply keys_distinct_NoDup. }
  rewrite !app_nil_l in HA2.
  destruct (apply_quality_returns st _ d vc mc trains xs tr2 qt g HA2 Hnc2 Hqt (Hgroup _) Hfit)
    as (tr3 & Hq & HA3 & Hnc3 & _ & Hreg3).
  destruct (asm_global _ _ _ _ _ _ _ _ _ HA3) as (gb & Hgb & Hid & _).
  unfold run, createMachine, findDefinitionContainers. repeat step. rewrite Hd. cbv beta iota.
  rewrite run_bind, Hprep. cbv beta iota. rewrite Ht.
  rewrite run_bind, Hloop. cbv beta iota. rewrite run_bind, Hq. cbv beta iota.
  unfold addContainer. repeat step. rewrite Hgb. cbn [fmap option_fmap option_map stack_base].
  rewrite Hid. unfold no_clash in Hnc3. rewrite Hnc3. repeat step.
  eexists. split; [reflexivity|]. cbn [now registry]. rewrite length_app, Hreg3, Hlen2, Hlen1.
  cbn [length]. lia.
Qed.

End Progress.


(** * The questions a run asks *)

Lemma links_sound_start st : links_sound (length (heap st)) st.
Proof. split; [done|]. intros l o Hl Ho. apply lookup_lt_Some in Ho. lia. Qed.

Lemma links_sound_same N s s' : heap s' = heap s -> links_sound N s -> links_sound N s'.
Proof. unfold links_sound. by intros ->. Qed.

(** A computation fenced for no event at all adds nothing to the events. *)
Lemma silent_run N {A} (m : M A) (Q : A -> Prop) tr out tr' :
  fenced (fun _ => False) N m Q ->
  links_sound N (now tr) ->
  m tr = (out, tr') ->
  events (now tr') = events (now tr) /\ links_sound N (now tr') /\
  forall a, out = Return a -> Q a.
Proof.
  intros Hm [Hlen HJ] H.
  assert (H0 : undisturbed (fun _ => False) N (now tr) (now tr)).
  { split_and!; [done..|exists []; by rewrite app_nil_r|exists []; by rewrite app_nil_r]. }
  destruct (Hm _ _ _ _ H0 H) as [R HQ].
  destruct (reached_now _ _ _ R H0) as (Hlen' & _ & HJ' & _ & evs & Hev & Hnone).
  split_and!; [|by split|done].
  destruct evs as [|ev evs]; [by rewrite app_nil_r in Hev|].
  apply Forall_cons in Hnone as [[] _].
Qed.

Section Questions.
Variable app : Application.

Lemma fenced_quality_tail Pv N gs g :
  N <= gs ->
  fenced Pv N
    (assign gs Quality (getContainer (node_for_global g)) ≫= fun _ =>
     deref gs ≫= fun g0 =>
     match g0 with
     | GlobalStack _ extruders => for_each extruders (set_extruder_quality g)
     | ExtruderStack _ _ => raise AttributeError
     end) (fun _ => True).
Proof.
  intros Hgs.
  eapply fenced_bind; [by apply fenced_assign|]. intros _ _.
  eapply fenced_bind; [by apply fenced_deref|]. intros [gb xs|] Hlinks; [|apply fenced_raise].
  apply fenced_for_each. eapply Forall_impl; [exact Hlinks|].
  intros x Hx. by apply fenced_set_extruder_quality.
Qed.

Lemma apply_quality_events N d gs tr u tr' :
  N <= gs -> links_sound N (now tr) ->
  apply_quality app d gs tr = (Return u, tr') ->
  events (now tr') = events (now tr) ++ [EvGetQualityGroups gs] /\ links_sound N (now tr').
Proof.
  intros Hgs Hs H. unfold apply_quality, emit in H. repeat step_in H.
  destruct (get_quality_group _ _) as [[g|]|e]; try (repeat step_in H; discriminate).
  eapply (silent_run N) in H as (Hev & Hs' & _);
    [| by apply fenced_quality_tail | by eapply links_sound_same; [|exact Hs] ].
  by rewrite Hev.
Qed.

Lemma prepare_machine_events name id d st gs vc mc tr' :
  prepare_machine app name id d (mkTrace st []) = (Return (gs, vc, mc), tr') ->
  exists vn,
    chosen_variant app d id = Some (vn, vc) /\
    events (now tr') = events st ++ variant_events app d id ++ material_events app d id vn /\
    links_sound (length (heap st)) (now tr') /\ length (heap st) <= gs.
Proof.
  intros H. unfold prepare_machine in H.
  peel H Hv; [|discriminate]. destruct a as [vn vc'].
  pose proof (select_variant_run app _ _ _ _ _ Hv) as (_ & _ & Hcv).
  specialize (Hcv _ eq_refl).
  destruct (select_variant_returns app d id (mkTrace st []) _ Hcv) as (tr1 & Hv' & Hs1).
  rewrite Hv in Hv'. injection Hv' as <-. cbn [now] in Hs1.
  peel H Hm; [|discriminate].
  pose proof (select_material_run app _ _ _ _ _ _ Hm) as (_ & _ & Hcm).
  specialize (Hcm _ eq_refl).
  destruct (select_material_returns app d id vn tr _ Hcm) as (tr2 & Hm' & Hs2).
  rewrite Hm in Hm'. injection Hm' as <-.
  rewrite run_bind, generate_name_run in H. cbv beta iota in H.
  assert (Hsound : links_sound (length (heap st)) (now tr0)).
  { eapply links_sound_same; [|apply links_sound_start]. by rewrite Hs2, Hs1. }
  peel H Hg; [|discriminate].
  eapply (silent_run (length (heap st))) in Hg as (Hev3 & Hs3 & Hgs);
    [|apply fenced_createGlobalStack|done].
  specialize (Hgs _ eq_refl).
  peel H Hn; [|discriminate].
  eapply (silent_run (length (heap st))) in Hn as (Hev4 & Hs4 & _);
    [|by apply fenced_setName|done].
  rewrite run_ret in H. injection H as <- <- <- <-.
  exists vn. split_and!; [done| |done|done].
  rewrite Hev4, Hev3, Hs2, Hs1. cbn [events]. by rewrite <- app_assoc.
Qed.

(** X12.  In a run that returns a machine, the collaborators are asked for
    this and no more, in this order: the variant manager for the preferred
    variant, when the definition has variants and names one; the material
    manager for the root material and then for the material node, when the
    definition has materials; the quality manager for the quality groups of
    the new global stack, once.  Nothing is written to the log. *)
Theorem createMachine_asks_in_order name id st gs tr' :
  run (createMachine app name id) st = (Return (Some gs), tr') ->
  exists d vn vc,
    head (definitions_with_id st id) = Some d /\
    chosen_variant app d id = Some (vn, vc) /\
    events (now tr')
      = events st ++ variant_events app d id ++ material_events app d id vn
          ++ [EvGetQualityGroups gs].
Proof.
  intros H. unfold run, createMachine, findDefinitionContainers in H. repeat step_in H.
  destruct (definitions_with_id st id) as [|d rest]; [repeat step_in H; discriminate|].
  cbv beta iota in H. peel H Hp; [|discriminate]. destruct a as [[gs' vc] mc].
  apply prepare_machine_events in Hp as (vn & Hcv & Hev1 & Hs1 & Hgs).
  destruct (getMetaDataEntry d _ _) as [| | | |trains]; try (repeat step_in H; discriminate).
  peel H Hl; [|discriminate].
  eapply (silent_run (length (heap st))) in Hl as (Hev2 & Hs2 & _); [| |done].
  2: { apply fenced_for_each, Forall_forall. intros item _. by apply fenced_create_extruder. }
  peel H Hq; [|discriminate].
  eapply (apply_quality_events (length (heap st))) in Hq as (Hev3 & Hs3); [|done|done].
  peel H Ha; [|discriminate].
  eapply (silent_run (length (heap st))) in Ha as (Hev4 & _ & _);
    [|apply fenced_addContainer; tauto|done].
  rewrite run_ret in H. injection H as <- <-.
  exists d, vn, vc. split_and!; [done|done|].
  rewrite Hev4, Hev3, Hev2, Hev1. by rewrite <- !app_assoc.
Qed.

(** When the machine definition names no preferred variant, no run of
    createMachine asks the variant manager anything, however the run
    ends. *)
Lemma unnamed_variant_unasked name id st d rest out tr' :
  definitions_with_id st id = d :: rest ->
  truthy (getMetaDataEntry d "preferred_variant_name" VNone) = false ->
  run (createMachine app name id) st = (out, tr') ->
  exists evs,
    events (now tr') = events st ++ evs /\
    Forall (fun ev => forall i v, ev <> EvGetVariantNode i v) evs.
Proof.
  intros Hd Hn H. unfold run, createMachine, findDefinitionContainers in H.
  rewrite run_bind, run_bind, run_get, run_ret in H. cbv beta iota in H. cbn [now] in H.
  rewrite Hd in H. cbv beta iota in H.
  destruct (fenced_found app (fun ev => forall i v, ev <> EvGetVariantNode i v)
              (length (heap st)) (fun ev Hev => Hev) name id d
              (fenced_select_variant_unnamed app _ _ d id Hn)
              st (mkTrace st []) out tr' (undisturbed_start _ st) H) as [R _].
  apply reached_now in R; [|apply undisturbed_start].
  destruct R as (_ & _ & _ & _ & evs & Hev & HP). by exists evs.
Qed.

(** C4, as amended.  For a machine definition that has variants: when it
    names a preferred variant, createMachine asks the variant collaborator
    for it, and if there is no such variant it raises the RuntimeError at
    once, nothing else having happened, while otherwise the variant for the
    extruders is the container of the node found; when the preferred
    variant name is absent or empty, the variant collaborator is not asked
    at all, however the run ends, and in a run that returns a machine
    every entry of machine_extruder_trains has its extruder stack, which
    holds the empty variant container. *)
Theorem preferred_variant_must_resolve name id st d rest :
  definitions_with_id st id = d :: rest ->
  parseBool app (getMetaDataEntry d "has_variants" (VBool false)) = true ->
  (truthy (getMetaDataEntry d "preferred_variant_name" VNone) = true ->
   match getVariantNode app id (getMetaDataEntry d "preferred_variant_name" VNone) with
   | None =>
       run (createMachine app name id) st =
       (Raise (RuntimeError "Cannot find variant with definition [%s] and variant name [%s]"
                 [VStr id; getMetaDataEntry d "preferred_variant_name" VNone]),
        record_event (EvGetVariantNode id (getMetaDataEntry d "preferred_variant_name" VNone))
          (mkTrace st []))
   | Some node =>
       select_variant app d id (mkTrace st []) =
       (Return (getMetaDataEntry d "preferred_variant_name" VNone, getContainer node),
        record_event (EvGetVariantNode id (getMetaDataEntry d "preferred_variant_name" VNone))
          (mkTrace st []))
   end) /\
  (truthy (getMetaDataEntry d "preferred_variant_name" VNone) = false ->
   forall out tr',
     run (createMachine app name id) st = (out, tr') ->
     (exists evs,
         events (now tr') = events st ++ evs /\
         Forall (fun ev => forall i v, ev <> EvGetVariantNode i v) evs) /\
     forall gs,
       wf_state st -> out = Return (Some gs) ->
       exists trains gb xs,
         getMetaDataEntry d "machine_extruder_trains" VNone = VDict trains /\
         heap (now tr') !! gs = Some (GlobalStack gb xs) /\
         xs.*1 = trains.*1 /\
         forall p l, (p, l) ∈ xs ->
           exists eb n,
             heap (now tr') !! l = Some (ExtruderStack eb n) /\
             variant eb = empty_variant_container app).
Proof.
  intros Hd Hv. split.
  - intros Hn. destruct (getVariantNode app id _) as [node|] eqn:Hnode.
    + unfold select_variant, emit. rewrite Hv, Hn. repeat step. by rewrite Hnode.
    + unfold run, createMachine, findDefinitionContainers, prepare_machine, select_variant, emit.
      repeat step. rewrite Hd. cbv beta iota. rewrite Hv, Hn. repeat step.
      rewrite Hnode. by repeat step.
  - intros Hn out tr' H. split; [by eapply unnamed_variant_unasked|].
    intros gs Hwf ->.
    pose proof (createMachine_found app _ _ _ _ _ _ _ Hwf Hd H) as Hrun. cbn in Hrun.
    destruct Hrun as (-> & trains & vn & vc & mc & xs & s_b & s_q & s_pre & qt & g & Ht & Hcv
                      & _ & _ & _ & _ & _ & _ & HA & _ & _ & Hnow & _).
    unfold chosen_variant in Hcv. rewrite Hv, Hn in Hcv. injection Hcv as _ <-.
    destruct (asm_global _ _ _ _ _ _ _ _ _ HA) as (gb & Hg & _).
    destruct (Assembled_extruders app _ _ _ _ _ _ _ _ HA) as [Hfst Hx].
    exists trains, gb, xs. rewrite Hnow. cbn [heap]. split_and!; [done|done|done|].
    intros p l Hin. destruct (Hx p l Hin) as (_ & _ & eb & n & Hl & Hvar & _).
    by exists eb, n.
Qed.

End Questions.


(** * Runs that are bound to fail *)

Section Failures.
Variable app : Application.

(** X8.  When the run has got as far as an entry of machine_extruder_trains
    whose extruder definition is not in the registry, createMachine raises
    IndexError, not the RuntimeError of the position check, and does not
    return None as it does for a missing machine definition.  The global
    stack is then not in the registry. *)
Theorem missing_extruder_definition_is_index_error
    name id st d rest before p e after gs vc mc tr1 tr2 :
  wf_state st ->
  definitions_with_id st id = d :: rest ->
  getMetaDataEntry d "machine_extruder_trains" VNone = VDict (before ++ (p, e) :: after) ->
  definitions_with_id st e = [] ->
  prepare_machine app name id d (mkTrace st []) = (Return (gs, vc, mc), tr1) ->
  for_each before (create_extruder app id gs vc mc) tr1 = (Return tt, tr2) ->
  run (createMachine app name id) st = (Raise IndexError, tr2) /\
  (EStack gs ∉ registry (now tr2)) /\
  exists gb xs,
    heap (now tr2) !! gs = Some (GlobalStack gb xs) /\
    xs.*1 = before.*1 /\
    stacks_of (added st (now tr2)) = xs.*2.
Proof.
  intros Hwf Hd Ht Hde Hprep Hloop.
  pose proof Hprep as Hp.
  apply prepare_machine_run in Hp as [_ Hpost]; [|done].
  destruct (Hpost _ _ _ eq_refl) as (-> & _ & HA1 & _). cbn [now] in *.
  pose proof Hloop as Hl.
  apply (extruder_loop_run _ _ _ _ _ _ _ _ [] [] _ _ _ HA1) in Hl as [_ Hpost2].
  destruct (Hpost2 _ eq_refl) as [xs HA2]. rewrite !app_nil_l in HA2.
  split_and!.
  - unfold run, createMachine, findDefinitionContainers.
    repeat step. rewrite Hd. cbv beta iota. rewrite run_bind, Hprep. cbv beta iota.
    rewrite Ht. rewrite run_bind, for_each_app, Hloop.
    cbn [for_each]. rewrite run_bind. unfold create_extruder at 1.
    unfold findDefinitionContainers. repeat step.
    rewrite (definitions_stable st) by apply HA2. rewrite Hde. by repeat step.
  - apply (Safe_global_unregistered app), HA2.
  - destruct (asm_global _ _ _ _ _ _ _ _ _ HA2) as (gb & Hg & _).
    destruct (Assembled_extruders _ _ _ _ _ _ _ _ _ HA2) as [Hfst _].
    exists gb, xs. split_and!; try done. apply HA2.
Qed.

(** X9.  When the machine definition has no machine_extruder_trains entry,
    or one that is not a dict, createMachine raises AttributeError.  This
    happens after the global stack was built: its two containers are in the
    registry, the stack is not, and no extruder was made. *)
Theorem missing_extruder_trains_is_attribute_error name id st d rest gs vc mc tr1 :
  wf_state st ->
  definitions_with_id st id = d :: rest ->
  is_dict (getMetaDataEntry d "machine_extruder_trains" VNone) = false ->
  prepare_machine app name id d (mkTrace st []) = (Return (gs, vc, mc), tr1) ->
  run (createMachine app name id) st = (Raise AttributeError, tr1) /\
  (EStack gs ∉ registry (now tr1)) /\
  stacks_of (added st (now tr1)) = [] /\
  exists gb,
    heap (now tr1) !! gs = Some (GlobalStack gb []) /\
    EInstance (userChanges gb) ∈ added st (now tr1) /\
    EInstance (definitionChanges gb) ∈ added st (now tr1).
Proof.
  intros Hwf Hd Ht Hprep.
  pose proof Hprep as Hp.
  apply prepare_machine_run in Hp as [_ Hpost]; [|done].
  destruct (Hpost _ _ _ eq_refl) as (-> & _ & HA1 & _). cbn [now] in *.
  split_and!.
  - unfold run, createMachine, findDefinitionContainers.
    repeat step. rewrite Hd. cbv beta iota. rewrite run_bind, Hprep. cbv beta iota.
    by destruct (getMetaDataEntry d "machine_extruder_trains" VNone).
  - apply (Safe_global_unregistered app), HA1.
  - apply HA1.
  - destruct (asm_global _ _ _ _ _ _ _ _ _ HA1) as (gb & Hg & _ & _ & _ & _ & _ & Hu & Hdc).
    by exists gb.
Qed.

(** X10.  When the machine definition has materials but no
    material_diameter setting, createMachine raises TypeError at the
    rounding of the diameter: the material manager is not asked, and
    nothing was allocated or registered. *)
Theorem missing_material_diameter_is_type_error name id st d rest vn vc tr1 :
  definitions_with_id st id = d :: rest ->
  parseBool app (getMetaDataEntry d "has_materials" (VBool false)) = true ->
  getProperty d "material_diameter" = None ->
  select_variant app d id (mkTrace st []) = (Return (vn, vc), tr1) ->
  run (createMachine app name id) st = (Raise TypeError, tr1) /\
  heap (now tr1) = heap st /\ registry (now tr1) = registry st /\
  events (now tr1) = events st ++ variant_events app d id.
Proof.
  intros Hd Hm Hdia Hv. split.
  - unfold run, createMachine, findDefinitionContainers, prepare_machine.
    repeat step. rewrite Hd. cbv beta iota. rewrite !run_bind, Hv. cbv beta iota.
    unfold select_material. rewrite Hm, Hdia. by repeat step.
  - pose proof (select_variant_run app _ _ _ _ _ Hv) as (_ & _ & Hcv).
    specialize (Hcv _ eq_refl).
    destruct (select_variant_returns app d id (mkTrace st []) _ Hcv) as (tr1' & Hv' & Hs1).
    rewrite Hv in Hv'. injection Hv' as <-. by rewrite Hs1.
Qed.

(** X11.  When createMachine raises, no state of the run has a global stack
    in the registry that was not a stack object before the call: a run
    that fails publishes no machine. *)
Theorem failed_run_publishes_no_machine name id st e tr' :
  wf_state st ->
  run (createMachine app name id) st = (Raise e, tr') ->
  Forall (fun s => forall l gb xs,
            EStack l ∈ registry s -> heap s !! l = Some (GlobalStack gb xs) ->
            l < length (heap st))
    (visited tr').
Proof.
  intros Hwf H.
  destruct (definitions_with_id st id) as [|d rest] eqn:Hd.
  { rewrite (createMachine_not_found _ _ _ _ Hd) in H. discriminate. }
  pose proof (createMachine_found _ _ _ _ _ _ _ _ Hwf Hd H) as R. cbn in R.
  apply Forall_forall. intros s Hs l gb xs Hreg Hl.
  destruct (reached_elem _ _ _ _ R Hs) as [Hin|[HI _]].
  - apply list_elem_of_singleton in Hin. subst s. by apply wf_state_elim.
  - destruct (decide (l < length (heap st))) as [|Hge]; [done|exfalso].
    assert (Hnew : EStack l ∉ registry st).
    { intros Hold. apply (wf_state_elim _ _ Hwf) in Hold. lia. }
    destruct (inv_new _ _ _ HI Hreg Hnew) as (_ & p & eb & ? & ? & ? & Hl' & _). congruence.
Qed.

(** X14.  When the quality group of the preferred quality type has a
    quality container for the global stack and for the position of every
    extruder but one, for which it has no node, createMachine raises
    KeyError.  By then every extruder stack is in the registry and the
    global stack has the quality container of the group, but the global
    stack is not in the registry. *)
Theorem missing_quality_node_is_key_error
    name id st d rest before p e after gs vc mc tr1 tr2 qt g :
  wf_state st ->
  definitions_with_id st id = d :: rest ->
  getMetaDataEntry d "machine_extruder_trains" VNone = VDict (before ++ (p, e) :: after) ->
  prepare_machine app name id d (mkTrace st []) = (Return (gs, vc, mc), tr1) ->
  for_each (before ++ (p, e) :: after) (create_extruder app id gs vc mc) tr1
    = (Return tt, tr2) ->
  getMetaDataEntry d "preferred_quality_type" VNone = VStr qt ->
  assoc qt (getQualityGroups app (now tr2) gs) = Some g ->
  quality_fits g (before ++ after) = true ->
  assoc p (nodes_for_extruders g) = None ->
  exists tr',
    run (createMachine app name id) st = (Raise KeyError, tr') /\
    (EStack gs ∉ registry (now tr')) /\
    exists gb xs,
      heap (now tr') !! gs = Some (GlobalStack gb xs) /\
      quality gb = getContainer (node_for_global g) /\
      xs.*1 = (before ++ (p, e) :: after).*1 /\
      forall x, x ∈ xs -> EStack x.2 ∈ registry (now tr').
Proof.
  intros Hwf Hd Ht Hprep Hloop Hqt Hg Hfit Hp.
  apply andb_true_iff in Hfit as [Hglobal Hfit].
  rewrite forallb_app in Hfit. apply andb_true_iff in Hfit as [Hfit _].
  pose proof Hprep as Hp1.
  apply prepare_machine_run in Hp1 as [_ Hpost]; [|done].
  destruct (Hpost _ _ _ eq_refl) as (-> & _ & HA1 & _). cbn [now] in *.
  pose proof Hloop as Hl.
  apply (extruder_loop_run _ _ _ _ _ _ _ _ [] [] _ _ _ HA1) in Hl as [_ Hpost2].
  destruct (Hpost2 _ eq_refl) as [xs HA2]. rewrite !app_nil_l in HA2.
  destruct (Assembled_extruders _ _ _ _ _ _ _ _ _ HA2) as [Hfst Hreg].
  pose proof (asm_extruders _ _ _ _ _ _ _ _ _ HA2) as Hext.
  apply Forall2_app_inv_l in Hext as (xb & xr & Hb & Hr & Exs).
  destruct xr as [|[p' l] xa]; [by apply Forall2_cons_nil_inv in Hr|].
  apply Forall2_cons_1 in Hr as [(Ep & _) _]. cbn [fst] in Ep. subst p'.
  assert (Hfstb : xb.*1 = before.*1).
  { clear -Hb. induction Hb as [|item x items ys Hx _ IH]; [done|].
    cbn. destruct Hx as (-> & _). by rewrite IH. }
  assert (E : run (createMachine app name id) st =
              (apply_quality app d (length (heap st)) ≫= fun _ =>
               addContainer (EStack (length (heap st))) ≫= fun _ =>
               mret (Some (length (heap st)))) tr2).
  { unfold run, createMachine, findDefinitionContainers.
    repeat step. rewrite Hd. cbv beta iota. rewrite run_bind, Hprep. cbv beta iota.
    rewrite Ht. by rewrite run_bind, Hloop. }
  rewrite E. unfold apply_quality, emit, get_quality_group. repeat step. rewrite Hqt, Hg.
  pose proof (Assembled_events app _ _ _ _ _ _ _ _
                (events (now tr2) ++ [EvGetQualityGroups (length (heap st))]) HA2) as HA3.
  destruct (asm_global _ _ _ _ _ _ _ _ _ HA3) as (gb & Hgb & _).
  cbn [heap] in Hgb. rewrite run_bind.
  match goal with
  | |- context [assign ?l ?sl ?c ?t] => rewrite (assign_run l sl c (GlobalStack gb xs) t Hgb)
  end.
  rewrite Hglobal. cbv beta iota. cbn [now past heap registry events].
  pose proof (Assembled_quality app _ _ _ _ _ _ _ _ _ _ (getContainer (node_for_global g))
                (events (now tr2) ++ [EvGetQualityGroups (length (heap st))])
                HA3 Hgb) as HA4.
  cbn [heap registry] in HA4.
  assert (Hg4 : <[length (heap st) := set_base (with_slot Quality
                    (getContainer (node_for_global g))) (GlobalStack gb xs)]> (heap (now tr2))
                !! length (heap st)
                = Some (GlobalStack (with_slot Quality (getContainer (node_for_global g)) gb) xs)).
  { apply list_lookup_insert_eq. by eapply lookup_lt_Some. }
  rewrite run_bind.
  match goal with
  | |- context [deref ?l ?t] => rewrite (deref_at l _ t Hg4)
  end.
  cbv beta iota.
  replace (for_each xs (set_extruder_quality g))
    with (for_each (xb ++ (p, l) :: xa) (set_extruder_quality g)) by (by rewrite Exs).
  rewrite for_each_app.
  match goal with
  | |- context [for_each xb _ ?t] =>
      destruct (quality_loop_returns app st (machine_name st name d) d vc mc
                  (before ++ (p, e) :: after) xs g (fresh_name (now t) "") xb t)
        as (tr' & Hrun & HA' & _ & _ & Hreg' & Hgs')
  end; cbn [now]; try done.
  - intros x Hx. rewrite Exs. apply elem_of_app. by left.
  - apply fresh_name_unregistered.
  - by apply (forallb_keys
                (fun k => match assoc k (nodes_for_extruders g) with
                          | Some node => type_agrees Quality (getContainer node)
                          | None => false
                          end) before xb).
  - rewrite Hrun. cbn [for_each]. rewrite run_bind. unfold set_extruder_quality at 1.
    rewrite Hp. repeat step. exists tr'. split; [done|]. split.
    + apply (Safe_global_unregistered app), HA'.
    + cbn [now heap] in Hgs'. rewrite Hg4 in Hgs'.
      eexists _, xs. split_and!; [exact Hgs'|done|done|].
      intros [p0 l0] Hx. cbn [snd].
      destruct (Assembled_extruders _ _ _ _ _ _ _ _ _ HA') as [_ Hreg2].
      by destruct (Hreg2 p0 l0 Hx) as (? & _).
Qed.

End Failures.


(** * The containers of a finished machine *)

Lemma definitions_with_id_elem st id d :
  d ∈ definitions_with_id st id -> EDefinition d ∈ registry st /\ def_id d = id.
Proof.
  unfold definitions_with_id. intros (e & He & Hf)%list_elem_of_omap.
  destruct e as [d'| |]; try done.
  destruct (String.eqb (def_id d') id) eqn:E; [|done]. injection Hf as ->.
  split; [done|by apply String.eqb_eq].
Qed.

Lemma definitions_with_id_id st id d rest : definitions_with_id st id = d :: rest -> def_id d = id.
Proof.
  intros H. apply (definitions_with_id_elem st). rewrite H. apply list_elem_of_here.
Qed.

Lemma definition_in_use st id d rest : definitions_with_id st id = d :: rest -> in_use st id = true.
Proof.
  intros H. destruct (definitions_with_id_elem st id d) as [Hin Hid].
  { rewrite H. apply list_elem_of_here. }
  unfold in_use. apply existsb_exists. exists (EDefinition d).
  split; [by apply list_elem_of_In|]. unfold has_id, opt_is. cbn [entity_id].
  rewrite Hid, String.eqb_refl. done.
Qed.

Lemma fitted_kept app id st s s' gs item x :
  fitted app id st s gs item x ->
  heap_kept (heap s) (heap s') ->
  (forall e, e ∈ registry s -> e ∈ registry s') ->
  fitted app id st s' gs item x.
Proof.
  intros (Hp & eb & de & k & Hl & Hde & Hk & Hid & Hname & Hmeta & Hu & Hdc & Hru & Hrd) K Hsub.
  destruct (K _ _ Hl) as (o' & Hl' & Ko). destruct o' as [|eb' n']; [done|].
  destruct Ko as [-> (Kid & Kname & Kmeta & _ & _ & _ & Ku & Kdc)].
  split; [done|]. exists eb', de, k. rewrite Kid, Kname, Kmeta, Ku, Kdc.
  split_and!; auto.
Qed.

Section Kept.

Lemma assign_quality_kept l c tr out tr' :
  assign l Quality c tr = (out, tr') ->
  heap_kept (heap (now tr)) (heap (now tr')) /\ registry (now tr') = registry (now tr) /\
  length (heap (now tr')) = length (heap (now tr)).
Proof.
  unfold assign, mutate. intros H. destruct (type_agrees Quality c).
  - destruct (heap (now tr) !! l) as [o|] eqn:Ho; finish_run H;
      split_and!; try done; try apply heap_kept_refl; cbn [now heap].
    + eapply heap_kept_insert; [exact Ho|apply obj_kept_quality].
    + apply length_insert.
  - rewrite run_raise in H. finish_run H. split_and!; [apply heap_kept_refl|done|done].
Qed.

Lemma quality_loop_kept g xs :
  forall tr out tr',
  for_each xs (set_extruder_quality g) tr = (out, tr') ->
  heap_kept (heap (now tr)) (heap (now tr')) /\ registry (now tr') = registry (now tr) /\
  length (heap (now tr')) = length (heap (now tr)).
Proof.
  induction xs as [|[p l] xs IH]; intros tr out tr' H.
  - cbn in H. rewrite run_ret in H. finish_run H. split_and!; [apply heap_kept_refl|done|done].
  - cbn [for_each] in H. rewrite run_bind in H. unfold set_extruder_quality at 1 in H.
    destruct (assoc p (nodes_for_extruders g)) as [node|].
    + destruct (assign l Quality (getContainer node) tr) as [[u|e] tr1] eqn:Ha.
      * apply assign_quality_kept in Ha as (K1 & R1 & L1). apply IH in H as (K2 & R2 & L2).
        split_and!; [eauto using heap_kept_trans|congruence|congruence].
      * finish_run H. by apply assign_quality_kept in Ha.
    + rewrite run_raise in H. finish_run H. split_and!; [apply heap_kept_refl|done|done].
Qed.

Lemma apply_quality_kept app d gs tr out tr' :
  apply_quality app d gs tr = (out, tr') ->
  heap_kept (heap (now tr)) (heap (now tr')) /\ registry (now tr') = registry (now tr) /\
  length (heap (now tr')) = length (heap (now tr)).
Proof.
  intros H. unfold apply_quality, emit in H. repeat step_in H.
  destruct (get_quality_group _ _) as [[g|]|e];
    try (repeat step_in H; finish_run H; split_and!; [apply heap_kept_refl|done|done]).
  peel H Ha.
  2: { finish_run H. by apply assign_quality_kept in Ha. }
  apply assign_quality_kept in Ha as (K1 & R1 & L1). cbn [now heap registry] in K1, R1, L1.
  rewrite run_bind in H. unfold deref at 1 in H.
  destruct (heap (now tr0) !! gs) as [[gb xs|]|]; cbv beta iota in H;
    try (rewrite ?run_raise in H; finish_run H; by split_and!).
  apply quality_loop_kept in H as (K2 & R2 & L2).
  split_and!; [eauto using heap_kept_trans|congruence|congruence].
Qed.

(** Registering an entity leaves the heap alone. *)
Lemma addContainer_heap e tr out tr' :
  addContainer e tr = (out, tr') -> heap (now tr') = heap (now tr).
Proof.
  unfold addContainer. intros H. repeat step_in H.
  destruct (entity_id _ e) as [id|]; [|repeat step_in H; by finish_run H].
  branch H; repeat step_in H; by finish_run H.
Qed.

End Kept.

Section Wiring.
Variable app : Application.

Lemma create_extruder_fits st name d vc mc items xs id p e tr u tr' :
  Assembled app st name d vc mc items xs (now tr) ->
  create_extruder app id (length (heap st)) vc mc (p, e) tr = (Return u, tr') ->
  heap_kept (heap (now tr)) (heap (now tr')) /\
  (forall x, x ∈ registry (now tr) -> x ∈ registry (now tr')) /\
  (exists gb, heap (now tr') !! length (heap st)
              = Some (GlobalStack gb (xs ++ [(p, length (heap (now tr)))]))) /\
  fitted app id st (now tr') (length (heap st)) (p, e) (p, length (heap (now tr))) /\
  length (heap (now tr')) = S (length (heap (now tr))).
Proof.
  intros HA H.
  pose proof HA as [HS (gb & Hg & _) _ _ _].
  pose proof (Inv_wf _ _ (proj1 HS)) as Hwf.
  pose proof (lookup_lt_Some _ _ _ Hg) as Hlt.
  destruct tr as [[h R ev] ps]; cbn [now heap registry events] in *.
  unfold create_extruder, findDefinitionContainers, uniqueName in H.
  repeat step_in H. rewrite (definitions_stable st) in H by apply HS.
  destruct (definitions_with_id st e) as [|de rest] eqn:Hde; [repeat step_in H; discriminate|].
  cbv beta iota in H. branch H; [repeat step_in H; discriminate|].
  repeat step_in H.
  change (allocate_name (in_use (mkState h R ev)) (2 * length R) e)
    with (fresh_name (mkState h R ev) e) in H.
  assert (Hnum : exists k, 2 <= k /\ fresh_name (mkState h R ev) e = numbered e k).
  { apply fresh_name_numbered. apply (definition_in_use _ _ de rest).
    by rewrite (definitions_stable st) by apply HS. }
  set (X := fresh_name (mkState h R ev) e) in *.
  peel H Hc; [|discriminate].
  destruct (first_refused app vc mc (empty_quality_container app)) as [sl|] eqn:Hok.
  { destruct (createExtruderStack_stopped app X de id p vc mc (empty_quality_container app)
                (mkTrace (mkState h R ev) ps) sl Hwf Hok) as (? & ? & Hrun & _).
    rewrite Hrun in Hc. discriminate. }
  destruct (createExtruderStack_built app X de id p vc mc (empty_quality_container app)
              (mkTrace (mkState h R ev) ps) Hwf Hok)
    as (eb & tr1 & Hrun & Hnow & HebId & HebName & Hpos & _ & _ & _ & _ & _ & _ & _ & Hu & Hdc).
  assert (Hmeta : stack_metadata eb = [("position", VStr p)]).
  { destruct (createExtruderStack_run app _ _ _ _ _ _ _ _ _ _ Hrun) as [_ Hpost].
    destruct (Hpost _ eq_refl) as (_ & eb' & Hnow' & _ & _ & Hmeta & _).
    rewrite Hnow in Hnow'. injection Hnow' as Eh _. apply app_inj_tail in Eh as [_ [= <-]].
    exact Hmeta. }
  cbn [now heap registry events] in *.
  rewrite Hrun in Hc. injection Hc as <- <-.
  destruct tr1 as [s1 ps1]. cbn [now] in Hnow. subst s1.
  unfold setNextStack in H. rewrite run_bind, mutate_snoc in H. cbv beta iota in H.
  rewrite run_bind, (addExtruder_run _ _ _ gb xs _ _ _ _ p) in H by (done || by rewrite Hmeta).
  destruct (assoc p xs); [discriminate|]. cbv beta iota in H.
  match type of H with
  | context [addContainer _ (mkTrace (mkState ?hh _ _) _)] => remember hh as h3 eqn:Eh3
  end.
  assert (K : heap_kept h h3).
  { subst h3. eapply heap_kept_trans; [|apply heap_kept_app].
    eapply heap_kept_insert; [exact Hg|]. split; [apply base_kept_refl|by eexists]. }
  assert (Hl3 : h3 !! length h = Some (ExtruderStack eb (Some (length (heap st))))).
  { subst h3. apply lookup_snoc_at, length_insert. }
  assert (Hg3 : h3 !! length (heap st) = Some (GlobalStack gb (xs ++ [(p, length h)]))).
  { subst h3. rewrite lookup_app_l by (by rewrite length_insert).
    by apply list_lookup_insert_eq. }
  unfold addContainer in H. repeat step_in H. rewrite Hl3 in H.
  cbn [fmap option_fmap option_map] in H.
  branch H; repeat step_in H; [discriminate|]. finish_run H. cbn [now heap registry].
  split_and!; [done| |by exists gb| |].
  - intros x Hx. rewrite !elem_of_app. auto.
  - split; [done|]. destruct Hnum as (k & Hk & HX). exists eb, de, k. cbn [fst snd heap registry].
    rewrite HebId. split_and!; try done.
    + by rewrite Hde.
    + by rewrite (definitions_with_id_id _ _ _ _ Hde) in Hdc.
    + rewrite !elem_of_app. left. right. apply list_elem_of_further, list_elem_of_here.
    + rewrite !elem_of_app. left. right. apply list_elem_of_here.
  - subst h3. rewrite length_app, length_insert. cbn. lia.
Qed.

Lemma extruder_loop_fits st name d vc mc id items :
  forall items0 xs0 tr u tr',
  Assembled app st name d vc mc items0 xs0 (now tr) ->
  Forall2 (fitted app id st (now tr) (length (heap st))) items0 xs0 ->
  for_each items (create_extruder app id (length (heap st)) vc mc) tr = (Return u, tr') ->
  exists xs,
    Assembled app st name d vc mc (items0 ++ items) (xs0 ++ xs) (now tr') /\
    Forall2 (fitted app id st (now tr') (length (heap st))) (items0 ++ items) (xs0 ++ xs) /\
    heap_kept (heap (now tr)) (heap (now tr')) /\
    (forall x, x ∈ registry (now tr) -> x ∈ registry (now tr')) /\
    length (heap (now tr')) = length (heap (now tr)) + length items.
Proof.
  induction items as [|[p e] items IH]; intros items0 xs0 tr u tr' HA HF H.
  - cbn in H. rewrite run_ret in H. finish_run H. exists []. rewrite !app_nil_r.
    split_and!; [done|done|apply heap_kept_refl|done|cbn; lia].
  - cbn [for_each] in H. peel H Hc; [|discriminate].
    destruct (create_extruder_run app _ _ _ _ _ _ _ _ _ _ _ _ _ HA Hc) as [_ Hpost].
    destruct (Hpost _ eq_refl) as [l HA1].
    destruct (create_extruder_fits _ _ _ _ _ _ _ _ _ _ _ _ _ HA Hc)
      as (K1 & Hsub1 & (gb & Hgb) & Hfit & L1).
    destruct (asm_global _ _ _ _ _ _ _ _ _ HA1) as (gb' & Hgb' & _).
    rewrite Hgb in Hgb'. injection Hgb' as _ Exs. apply app_inj_tail in Exs as [_ [= El]].
    rewrite El in Hfit.
    assert (HF1 : Forall2 (fitted app id st (now tr0) (length (heap st)))
                    (items0 ++ [(p, e)]) (xs0 ++ [(p, l)])).
    { apply Forall2_app; [|constructor; [exact Hfit|constructor]].
      eapply Forall2_impl; [exact HF|]. intros item x Hx. by eapply fitted_kept. }
    destruct (IH _ _ _ _ _ HA1 HF1 H) as (xs & HA' & HF' & K2 & Hsub2 & L2).
    exists ((p, l) :: xs). rewrite <- !app_assoc in HA', HF'.
    split_and!; [done|done|eauto using heap_kept_trans|auto|cbn [length]; lia].
Qed.

Lemma wf_state_quiet s s' : quiet s s' -> wf_state s -> wf_state s'.
Proof. intros [Hh Hr]. unfold wf_state. by rewrite Hh, Hr. Qed.

Lemma prepare_machine_fits name id d st gs vc mc tr' :
  wf_state st ->
  prepare_machine app name id d (mkTrace st []) = (Return (gs, vc, mc), tr') ->
  exists gb,
    heap (now tr') !! length (heap st) = Some (GlobalStack gb []) /\
    is_user_changes app (userChanges gb) (def_id d) (stack_id gb) true /\
    is_definition_changes app (definitionChanges gb) (def_id d) /\
    EInstance (userChanges gb) ∈ registry (now tr') /\
    EInstance (definitionChanges gb) ∈ registry (now tr') /\
    length (heap (now tr')) = S (length (heap st)).
Proof.
  intros Hwf H. unfold prepare_machine in H.
  peel H Hv; [|discriminate]. destruct a as [vn vc'].
  apply select_variant_run in Hv as (_ & Hq1 & _).
  peel H Hm; [|discriminate]. apply select_material_run in Hm as (_ & Hq2 & _).
  pose proof (quiet_trans _ _ _ Hq1 Hq2) as Hq. cbn [now] in Hq.
  rewrite run_bind, generate_name_run in H. cbv beta iota in H.
  pose proof (wf_state_quiet _ _ Hq Hwf) as Hwf2.
  peel H Hg; [|discriminate].
  destruct (first_refused app (empty_variant_container app) (empty_material_container app)
              (empty_quality_container app)) as [sl|] eqn:Hok.
  { destruct (createGlobalStack_stopped app (machine_name (now tr0) name d) d _ _ _ tr0 sl
                Hwf2 Hok) as (? & ? & Hrun & _).
    rewrite Hrun in Hg. discriminate. }
  destruct (createGlobalStack_built app (machine_name (now tr0) name d) d _ _ _ tr0
              Hwf2 Hok)
    as (gb & tr3 & Hrun & Hnow & Hid & _ & _ & _ & _ & _ & _ & _ & Hu & Hdc).
  rewrite Hrun in Hg. injection Hg as <- <-.
  destruct tr3 as [s3 ps3]. cbn [now] in Hnow. subst s3.
  unfold setName in H. rewrite run_bind, mutate_snoc in H. cbv beta iota in H.
  rewrite run_ret in H. injection H as <- <- <- <-. cbn [now heap registry set_base].
  destruct Hq as [Hh Hr]. rewrite Hh.
  exists (with_name (machine_name (now tr0) name d) gb).
  rewrite lookup_snoc. cbn [userChanges definitionChanges stack_id with_name].
  rewrite Hid. split_and!; [done|done|done| | |].
  - rewrite elem_of_app. right. apply list_elem_of_further, list_elem_of_here.
  - rewrite elem_of_app. right. apply list_elem_of_here.
  - rewrite length_app. cbn. lia.
Qed.

(** X15.  In the machine that createMachine returns, every stack has its
    own two containers, both registered.  The user-changes containers are
    all bound to the machine definition; the one of the global stack names
    it under "machine", those of the extruder stacks name theirs under
    "extruder".  The definition-changes containers are bound to the
    definition of their own stack.  The id of an extruder stack is the id
    of its extruder definition with a number from 2 on, never that id
    itself, and its display name is the name of the extruder definition. *)
Theorem createMachine_fits_containers name id st gs tr' :
  wf_state st ->
  run (createMachine app name id) st = (Return (Some gs), tr') ->
  exists d trains,
    head (definitions_with_id st id) = Some d /\
    getMetaDataEntry d "machine_extruder_trains" VNone = VDict trains /\
    machine_fitted app id st (now tr') gs trains.
Proof.
  intros Hwf H. unfold run, createMachine, findDefinitionContainers in H. repeat step_in H.
  destruct (definitions_with_id st id) as [|d rest] eqn:Hd; [repeat step_in H; discriminate|].
  cbv beta iota in H. peel H Hp; [|discriminate]. destruct a as [[gs' vc] mc].
  destruct (prepare_machine_run app name id d (mkTrace st []) _ _ Hwf Hp) as [_ Hpost].
  destruct (Hpost _ _ _ eq_refl) as (-> & _ & HA1 & _). cbn [now] in HA1.
  destruct (prepare_machine_fits _ _ _ _ _ _ _ _ Hwf Hp)
    as (gb & Hgb & Hu & Hdc & Hru & Hrd & _).
  rewrite (definitions_with_id_id _ _ _ _ Hd) in Hu, Hdc.
  destruct (getMetaDataEntry d _ _) as [| | | |trains] eqn:Ht;
    try (repeat step_in H; discriminate).
  peel H Hl; [|discriminate].
  assert (HF1 : Forall2 (fitted app id st (now tr) (length (heap st))) [] []) by constructor.
  destruct (extruder_loop_fits st _ d vc mc id trains [] [] _ _ _ HA1 HF1 Hl)
    as (xs & HA2 & HF2 & K2 & Hsub2 & _).
  rewrite !app_nil_l in HA2, HF2.
  peel H Hq; [|discriminate].
  destruct (apply_quality_run app _ _ _ _ _ _ _ _ _ _ HA2 Hq) as [_ Hpost3].
  destruct (Hpost3 _ eq_refl) as (HA3 & _).
  apply apply_quality_kept in Hq as (K3 & R3 & _).
  destruct (asm_global _ _ _ _ _ _ _ _ _ HA3) as (gbf & Hgbf & _).
  unfold addContainer in H. repeat step_in H. rewrite Hgbf in H.
  cbn [fmap option_fmap option_map] in H.
  branch H; repeat step_in H; [discriminate|]. finish_run H.
  exists d, trains. split_and!; [done|done|].
  destruct (heap_kept_trans _ _ _ K2 K3 _ _ Hgb) as (o' & Ho' & Ko).
  rewrite Hgbf in Ho'. injection Ho' as <-.
  destruct Ko as [(Kid & _ & _ & _ & _ & _ & Ku & Kdc) _].
  exists gbf, xs. cbn [now heap registry]. rewrite Kid, Ku, Kdc, R3.
  split_and!; [done|done|done| | |].
  - rewrite elem_of_app. left. auto.
  - rewrite elem_of_app. left. auto.
  - eapply Forall2_impl; [exact HF2|]. intros item x Hx.
    eapply fitted_kept; [exact Hx|exact K3|]. cbn [registry]. intros e He.
    rewrite elem_of_app. by left.
Qed.

Lemma in_use_covers_stacks st n : in_use st n = false -> in_use_by_stack st n = false.
Proof.
  intros H. apply not_true_iff_false. intros (e & Hin & He)%existsb_exists.
  apply not_true_iff_false in H. apply H. unfold in_use. apply existsb_exists.
  exists e. split; [done|]. apply andb_true_iff in He as [_ He].
  apply orb_true_iff in He as [He|He]; [by rewrite He|].
  apply orb_true_iff. right. unfold opt_is in He.
  destruct (entity_name (heap st) e) as [m|]; [|done].
  apply String.eqb_eq in He. subst m. apply String.eqb_refl.
Qed.

Lemma machine_name_free st name d : in_use_by_stack st (machine_name st name d) = false.
Proof.
  unfold machine_name.
  destruct (existsb (has_id st (stack_unique_name st name d)) (registry st));
    [|apply stack_unique_name_free].
  apply in_use_covers_stacks, uniqueName_free.
Qed.

(** X16.  The id that createMachine gives the global stack it returns is
    new: before the call no registered entity had it as its id, and no
    registered stack had it as its id or its display name.  This is what
    the two steps of the naming are for. *)
Theorem createMachine_gives_an_unused_id name id st gs tr' :
  wf_state st ->
  run (createMachine app name id) st = (Return (Some gs), tr') ->
  exists gb xs,
    heap (now tr') !! gs = Some (GlobalStack gb xs) /\
    stack_name gb = stack_id gb /\
    no_clash (stack_id gb) st /\
    in_use_by_stack st (stack_id gb) = false /\
    EStack gs ∈ registry (now tr').
Proof.
  intros Hwf H.
  destruct (definitions_with_id st id) as [|d rest] eqn:Hd.
  { rewrite (createMachine_not_found _ _ _ _ Hd) in H. discriminate. }
  pose proof (createMachine_found _ _ _ _ _ _ _ _ Hwf Hd H) as Hrun. cbn in Hrun.
  destruct Hrun as (-> & trains & vn & vc & mc & xs & s_b & s_q & s_pre & qt & g & _ & _ & _
                    & _ & _ & _ & _ & _ & HA & _ & _ & Hnow & _).
  destruct (asm_global _ _ _ _ _ _ _ _ _ HA) as (gb & Hg & Hid & Hname & _).
  exists gb, xs. rewrite Hnow. cbn [heap registry]. rewrite Hid, Hname.
  split_and!; [done|done|apply machine_name_unregistered|apply machine_name_free|].
  rewrite elem_of_app. right. apply list_elem_of_here.
Qed.

(** A run that returns a machine has created the global stack and one
    object for every entry of machine_extruder_trains. *)
Lemma createMachine_heap name id st d rest trains gs tr' :
  wf_state st ->
  definitions_with_id st id = d :: rest ->
  getMetaDataEntry d "machine_extruder_trains" VNone = VDict trains ->
  run (createMachine app name id) st = (Return (Some gs), tr') ->
  length (heap (now tr')) = length (heap st) + 1 + length trains.
Proof.
  intros Hwf Hd Ht H. unfold run, createMachine, findDefinitionContainers in H.
  repeat step_in H. rewrite Hd in H. cbv beta iota in H.
  peel H Hp; [|discriminate]. destruct a as [[gs' vc] mc].
  destruct (prepare_machine_run app name id d (mkTrace st []) _ _ Hwf Hp) as [_ Hpost].
  destruct (Hpost _ _ _ eq_refl) as (-> & _ & HA1 & _). cbn [now] in HA1.
  destruct (prepare_machine_fits _ _ _ _ _ _ _ _ Hwf Hp) as (gb & _ & _ & _ & _ & _ & L1).
  rewrite Ht in H. peel H Hl; [|discriminate].
  assert (HF1 : Forall2 (fitted app id st (now tr) (length (heap st))) [] []) by constructor.
  destruct (extruder_loop_fits st _ d vc mc id trains [] [] _ _ _ HA1 HF1 Hl)
    as (xs & _ & _ & _ & _ & L2).
  peel H Hq; [|discriminate]. apply apply_quality_kept in Hq as (_ & _ & L3).
  peel H Ha; [|discriminate]. apply addContainer_heap in Ha.
  rewrite run_ret in H. finish_run H. rewrite Ha, L3, L2, L1. lia.
Qed.

(** Distinct new objects, as many as there is room for, are all the new
    objects there are. *)
Lemma new_objects_covered (N n : nat) (ls : list loc) :
  NoDup ls -> length ls = n ->
  (forall l, l ∈ ls -> N < l < N + 1 + n) ->
  forall l, N < l < N + 1 + n -> l ∈ ls.
Proof.
  intros Hnd Hlen Hin l Hl.
  assert (Hsub : ls ⊆+ seq (S N) n).
  { apply NoDup_submseteq; [done|]. intros x Hx. apply elem_of_seq.
    specialize (Hin x Hx). lia. }
  apply submseteq_length_Permutation in Hsub; [|rewrite length_seq; lia].
  rewrite Hsub. apply elem_of_seq. lia.
Qed.

(** C6.  In a successful run the global stack is built with the empty
    variant, material and quality containers, and never holds anything but
    an empty container in its variant and material slots.  Besides the
    global stack the run creates one object for every entry of
    machine_extruder_trains and no other: each is an extruder stack that
    the run registers and files in the extruder map under the position of
    its entry, and each holds the variant and the material chosen for the
    machine. *)
Theorem createMachine_slots_are_asymmetric name id st gs tr' :
  wf_state st ->
  run (createMachine app name id) st = (Return (Some gs), tr') ->
  asymmetric_slots app st id gs tr'.
Proof.
  intros Hwf H.
  destruct (definitions_with_id st id) as [|d rest] eqn:Hd.
  { rewrite (createMachine_not_found app _ _ _ Hd) in H. discriminate. }
  pose proof (createMachine_found app _ _ _ _ _ _ _ Hwf Hd H) as Hrun. cbn in Hrun.
  destruct Hrun as (-> & trains & vn & vc & mc & xs & s_b & s_q & s_pre & qt & g & Ht & Hcv & Hcm
                    & HAb & (gb0 & Hgb0 & Hq0) & _ & _ & _ & HA & _ & _ & Hnow & [ps Hpast]
                    & R & Hsb & _).
  pose proof (createMachine_heap _ _ _ _ _ _ _ _ Hwf Hd Ht H) as Hlen.
  destruct (asm_global _ _ _ _ _ _ _ _ _ HA) as (gb & Hg & _ & _ & _ & Hv & Hm & _).
  destruct (asm_global _ _ _ _ _ _ _ _ _ HAb) as (gb0' & Hg0' & _ & _ & _ & Hv0 & Hm0 & _).
  rewrite Hgb0 in Hg0'. injection Hg0' as <-.
  destruct (Assembled_extruders app _ _ _ _ _ _ _ _ HA) as [Hfst Hx].
  assert (Hheap : heap (now tr') = heap s_pre) by (by rewrite Hnow).
  assert (Hnew : forall p l, (p, l) ∈ xs -> length (heap st) < l).
  { intros p l Hin. destruct (proj1 (list_elem_of_lookup _ _) Hin) as [i Hi].
    destruct (Forall2_lookup_r _ _ _ _ _ (asm_extruders _ _ _ _ _ _ _ _ _ HA) Hi)
      as (item & _ & (_ & Hlt & _)). exact Hlt. }
  assert (Hslots : forall p l, (p, l) ∈ xs ->
            exists eb n, heap (now tr') !! l = Some (ExtruderStack eb n) /\
                         variant eb = vc /\ material eb = mc).
  { intros p l Hin. rewrite Hheap. by destruct (Hx p l Hin) as (_ & _ & Hl). }
  assert (Hcover : forall l, length (heap st) < l < length (heap st) + 1 + length trains ->
            l ∈ xs.*2).
  { apply new_objects_covered; [apply HA| |].
    - rewrite length_fmap, <- (length_fmap fst xs), Hfst. apply length_fmap.
    - intros l ([p l'] & -> & Hin)%list_elem_of_fmap. cbn [snd]. split; [by eapply Hnew|].
      destruct (Hslots p l' Hin) as (eb & n & Hl & _). apply lookup_lt_Some in Hl. lia. }
  exists d, trains, vn, vc, mc, gb, xs. rewrite Hd.
  split_and!; try done.
  - by rewrite Hheap.
  - exists s_b, gb0. split_and!; try done. unfold visited. apply list_elem_of_further, Hsb.
  - rewrite (added_app st s_pre (now tr') [EStack (length (heap st))]);
      [|apply HA|by rewrite Hnow].
    rewrite stacks_of_app. by rewrite (asm_stacks _ _ _ _ _ _ _ _ _ HA).
  - intros p l Hin. split; [by eapply Hnew|by eapply Hslots].
  - intros l o Hgt Hl.
    assert (Hin : l ∈ xs.*2).
    { apply Hcover. split; [done|]. apply lookup_lt_Some in Hl. lia. }
    apply list_elem_of_fmap in Hin as ([p l'] & -> & Hin). cbn [snd] in *.
    destruct (Hslots p l' Hin) as (eb & n & Hl' & Hvar & Hmat).
    rewrite Hl in Hl'. injection Hl' as ->. by exists p, eb, n.
  - intros s gb' xs' Hs Hl. unfold visited in Hs. apply elem_of_cons in Hs as [->|Hs].
    + rewrite Hnow in Hl. cbn [heap] in Hl.
      by apply (proj2 (asm_safe _ _ _ _ _ _ _ _ _ HA) gb' xs').
    + destruct (reached_elem _ _ _ _ R Hs) as [Hin|HSs].
      * apply list_elem_of_singleton in Hin. subst s. apply lookup_lt_Some in Hl. lia.
      * by apply (proj2 HSs gb' xs').
Qed.

(** C2, as amended.  When the run has got as far as position [p], where the
    machine definition lists an extruder definition whose own position
    differs from [p], createMachine raises the RuntimeError; at that moment
    the global stack is not in the registry, while its user-changes and
    definition-changes containers are.  So are the extruder stacks of the
    positions before [p], which are all the stacks the run has registered,
    each with its own user-changes and definition-changes containers. *)
Theorem position_mismatch_raises name id st d rest before p e after de rest' gs vc mc tr1 tr2 :
  wf_state st ->
  definitions_with_id st id = d :: rest ->
  getMetaDataEntry d "machine_extruder_trains" VNone = VDict (before ++ (p, e) :: after) ->
  definitions_with_id st e = de :: rest' ->
  py_ne_str (getMetaDataEntry de "position" VNone) p = true ->
  prepare_machine app name id d (mkTrace st []) = (Return (gs, vc, mc), tr1) ->
  for_each before (create_extruder app id gs vc mc) tr1 = (Return tt, tr2) ->
  run (createMachine app name id) st =
    (Raise (RuntimeError
              "Extruder position [%s] defined in extruder definition [%s] is not the same as in machine definition [%s] position [%s]"
              [getMetaDataEntry de "position" VNone; VStr e; VStr id; VStr p]),
     tr2) /\
  (EStack gs ∉ registry (now tr2)) /\
  exists gb xs,
    heap (now tr2) !! gs = Some (GlobalStack gb xs) /\
    xs.*1 = before.*1 /\
    EInstance (userChanges gb) ∈ added st (now tr2) /\
    EInstance (definitionChanges gb) ∈ added st (now tr2) /\
    stacks_of (added st (now tr2)) = xs.*2 /\
    forall q l, (q, l) ∈ xs ->
      exists eb,
        heap (now tr2) !! l = Some (ExtruderStack eb (Some gs)) /\
        EStack l ∈ registry (now tr2) /\
        is_user_changes app (userChanges eb) id (stack_id eb) false /\
        EInstance (userChanges eb) ∈ registry (now tr2) /\
        EInstance (definitionChanges eb) ∈ registry (now tr2).
Proof.
  intros Hwf Hd Ht Hde Hne Hprep Hloop.
  destruct (prepare_machine_run app name id d (mkTrace st []) _ _ Hwf Hprep) as [_ Hpost].
  destruct (Hpost _ _ _ eq_refl) as (-> & _ & HA1 & _). cbn [now] in HA1.
  assert (HF1 : Forall2 (fitted app id st (now tr1) (length (heap st))) [] []) by constructor.
  destruct (extruder_loop_fits st _ d vc mc id before [] [] _ _ _ HA1 HF1 Hloop)
    as (xs & HA2 & HF2 & _).
  rewrite !app_nil_l in HA2, HF2.
  split_and!.
  - unfold run, createMachine, findDefinitionContainers.
    repeat step. rewrite Hd. cbv beta iota. rewrite run_bind, Hprep. cbv beta iota.
    rewrite Ht. rewrite run_bind, for_each_app, Hloop.
    cbn [for_each]. rewrite run_bind. unfold create_extruder at 1.
    unfold findDefinitionContainers. repeat step.
    rewrite (definitions_stable st) by apply HA2. rewrite Hde. cbv beta iota.
    rewrite Hne. by repeat step.
  - apply (Safe_global_unregistered app), HA2.
  - destruct (asm_global _ _ _ _ _ _ _ _ _ HA2) as (gb & Hg & _ & _ & _ & _ & _ & Hu & Hdc).
    destruct (Assembled_extruders app _ _ _ _ _ _ _ _ HA2) as [Hfst Hreg].
    exists gb, xs. split_and!; try done; [apply HA2|].
    intros q l Hin. destruct (proj1 (list_elem_of_lookup _ _) Hin) as [i Hi].
    destruct (Forall2_lookup_r _ _ _ _ _ HF2 Hi)
      as (item & _ & (_ & eb & de' & k & Hl & _ & _ & _ & _ & _ & Huc & _ & Hru & Hrd)).
    cbn [snd] in Hl. exists eb. split_and!; try done.
    by destruct (Hreg q l Hin) as (? & _).
Qed.

End Wiring.


(** * The building blocks and the machine in the busy registry *)

(** A machine named after the id of its extruder definition: the second
    step of the naming makes it "extruder_0 #2", the extruder stack gets
    the same id, which is free as long as the global stack is not
    registered, and the registration of the global stack fails. *)
Example machine_named_like_its_extruder :
  fst (run (createMachine demo_app "extruder_0" "single") demo_state)
  = Raise (DuplicateIdError "extruder_0 #2").
Proof. vm_compute. reflexivity. Qed.

(** In the busy registry "extruder_0 #2" is taken: the next extruder stack
    of that definition is "extruder_0 #3". *)
Example second_machine_in_busy_registry :
  let r := run (createMachine demo_app "Old" "single") demo_busy_state in
  fst r = Return (Some 2) /\
  (stack_id <$> (stack_base <$> heap (now (snd r)) !! 2)) = Some "Old #2" /\
  (stack_id <$> (stack_base <$> heap (now (snd r)) !! 3)) = Some "extruder_0 #3" /\
  take 2 (heap (now (snd r))) = heap demo_busy_state.
Proof. vm_compute. by repeat split. Qed.

Lemma createDefinitionChangesContainer_registers_witness :
  exists dc,
    fst (createDefinitionChangesContainer demo_app 0 "Old_settings"
           (mkTrace demo_busy_state [])) = Return dc /\
    ic_id dc = "Old_settings #2".
Proof.
  destruct (createDefinitionChangesContainer_registers demo_app 0 "Old_settings"
              (mkTrace demo_busy_state []) demo_old_global demo_single)
    as (dc & Hrun & Hid & _).
  - reflexivity.
  - reflexivity.
  - exists dc. rewrite Hrun, Hid. split; [reflexivity|]. vm_compute. reflexivity.
Defined.

Lemma createGlobalStack_builds_stack_witness :
  global_stack_built demo_app "Mine" demo_single (empty_variant_container demo_app)
    (empty_material_container demo_app) (empty_quality_container demo_app)
    (mkTrace demo_busy_state []).
Proof. apply createGlobalStack_builds_stack; reflexivity. Defined.

Lemma createExtruderStack_builds_stack_witness :
  extruder_stack_built demo_app "extruder_1 #2" demo_extruder_1 "dual" "1"
    (typed_container "nozzle_0.4" "variant") (typed_container "pla_2.85" "material")
    (empty_quality_container demo_app) (mkTrace demo_busy_state []).
Proof. apply createExtruderStack_builds_stack; reflexivity. Defined.

(** A quality container handed over as the variant. *)
Lemma createExtruderStack_refused_witness :
  extruder_stack_refused demo_app "extruder_1 #2" demo_extruder_1 "dual" "1"
    (typed_container "normal_1" "quality") (typed_container "pla_2.85" "material")
    (empty_quality_container demo_app) (mkTrace demo_busy_state []) Variant.
Proof. apply createExtruderStack_refused; reflexivity. Defined.

(** A variant container handed over as the material. *)
Lemma createGlobalStack_refused_witness :
  global_stack_refused demo_app "Mine" demo_single (empty_variant_container demo_app)
    (typed_container "nozzle_0.4" "variant") (empty_quality_container demo_app)
    (mkTrace demo_busy_state []) Material.
Proof. apply createGlobalStack_refused; reflexivity. Defined.

Lemma missing_extruder_definition_is_index_error_witness :
  fst (run (createMachine demo_app "Mine" "lost_extruder") demo_busy_state) = Raise IndexError.
Proof.
  rewrite (proj1 (missing_extruder_definition_is_index_error demo_app "Mine" "lost_extruder"
                    demo_busy_state demo_lost_extruder [] [("0", "extruder_0")] "1" "extruder_9"
                    [] 2 (empty_variant_container demo_app) (empty_material_container demo_app)
                    (snd (prepare_machine demo_app "Mine" "lost_extruder" demo_lost_extruder
                            (mkTrace demo_busy_state [])))
                    (snd (for_each [("0", "extruder_0")]
                            (create_extruder demo_app "lost_extruder" 2
                               (empty_variant_container demo_app)
                               (empty_material_container demo_app))
                            (snd (prepare_machine demo_app "Mine" "lost_extruder"
                                    demo_lost_extruder (mkTrace demo_busy_state [])))))
                    ltac:(reflexivity) ltac:(reflexivity) ltac:(reflexivity)
                    ltac:(reflexivity) ltac:(vm_compute; reflexivity)
                    ltac:(vm_compute; reflexivity))).
  reflexivity.
Defined.

Lemma missing_extruder_trains_is_attribute_error_witness :
  fst (run (createMachine demo_app "Mine" "no_trains") demo_busy_state) = Raise AttributeError.
Proof.
  rewrite (proj1 (missing_extruder_trains_is_attribute_error demo_app "Mine" "no_trains"
                    demo_busy_state demo_no_trains [] 2 (empty_variant_container demo_app)
                    (empty_material_container demo_app)
                    (snd (prepare_machine demo_app "Mine" "no_trains" demo_no_trains
                            (mkTrace demo_busy_state [])))
                    ltac:(reflexivity) ltac:(reflexivity) ltac:(reflexivity)
                    ltac:(vm_compute; reflexivity))).
  reflexivity.
Defined.

Lemma missing_material_diameter_is_type_error_witness :
  run (createMachine demo_app "Mine" "no_diameter") demo_busy_state
  = (Raise TypeError, mkTrace demo_busy_state []).
Proof.
  apply (missing_material_diameter_is_type_error demo_app "Mine" "no_diameter" demo_busy_state
           demo_no_diameter [] VNone (empty_variant_container demo_app)
           (mkTrace demo_busy_state [])); reflexivity.
Defined.

Lemma failed_run_publishes_no_machine_witness :
  Forall (fun s => forall l gb xs,
            EStack l ∈ registry s -> heap s !! l = Some (GlobalStack gb xs) ->
            l < length (heap demo_busy_state))
    (visited (final_trace (run (createMachine demo_app "Mine" "lost_extruder")
                             demo_busy_state))).
Proof.
  apply (failed_run_publishes_no_machine demo_app "Mine" "lost_extruder" demo_busy_state
           IndexError).
  - reflexivity.
  - vm_compute. reflexivity.
Defined.

Lemma createMachine_asks_in_order_witness :
  exists d vn vc,
    head (definitions_with_id demo_state "dual") = Some d /\
    chosen_variant demo_app d "dual" = Some (vn, vc) /\
    events (now (final_trace (run (createMachine demo_app "Mine" "dual") demo_state)))
      = events demo_state ++ variant_events demo_app d "dual"
          ++ material_events demo_app d "dual" vn ++ [EvGetQualityGroups 0].
Proof.
  apply (createMachine_asks_in_order demo_app "Mine" "dual" demo_state).
  vm_compute. reflexivity.
Defined.

Lemma createMachine_succeeds_witness :
  exists tr',
    run (createMachine demo_app "Mine" "dual") demo_busy_state = (Return (Some 2), tr') /\
    length (registry (now tr')) = length (registry demo_busy_state) + 3 * 2 + 3.
Proof.
  apply (createMachine_succeeds demo_app "Mine" "dual" demo_busy_state demo_dual []
           (VStr "0.4 mm") (typed_container "nozzle_0.4" "variant")
           (typed_container "pla_2.85" "material")
           [("0", "extruder_0"); ("1", "extruder_1")] "normal" demo_group).
  - reflexivity.
  - reflexivity.
  - reflexivity.
  - reflexivity.
  - reflexivity.
  - reflexivity.
  - reflexivity.
  - reflexivity.
  - reflexivity.
  - vm_compute. reflexivity.
  - reflexivity.
  - intros s. reflexivity.
  - reflexivity.
Defined.

Lemma missing_quality_node_is_key_error_witness :
  exists tr', run (createMachine demo_app "Mine" "triple") demo_busy_state = (Raise KeyError, tr').
Proof.
  destruct (missing_quality_node_is_key_error demo_app "Mine" "triple" demo_busy_state
              demo_triple [] [("0", "extruder_0"); ("1", "extruder_1")] "2" "extruder_2" []
              2 (empty_variant_container demo_app) (empty_material_container demo_app)
              (snd (prepare_machine demo_app "Mine" "triple" demo_triple
                      (mkTrace demo_busy_state [])))
              (snd (for_each [("0", "extruder_0"); ("1", "extruder_1"); ("2", "extruder_2")]
                      (create_extruder demo_app "triple" 2 (empty_variant_container demo_app)
                         (empty_material_container demo_app))
                      (snd (prepare_machine demo_app "Mine" "triple" demo_triple
                              (mkTrace demo_busy_state [])))))
              "normal" demo_group)
    as (tr' & Hrun & _).
  - reflexivity.
  - reflexivity.
  - reflexivity.
  - vm_compute. reflexivity.
  - vm_compute. reflexivity.
  - reflexivity.
  - reflexivity.
  - reflexivity.
  - reflexivity.
  - exists tr'. exact Hrun.
Defined.

Lemma createMachine_fits_containers_witness :
  exists d trains,
    head (definitions_with_id demo_busy_state "dual") = Some d /\
    getMetaDataEntry d "machine_extruder_trains" VNone = VDict trains /\
    machine_fitted demo_app "dual" demo_busy_state
      (now (final_trace (run (createMachine demo_app "Mine" "dual") demo_busy_state))) 2 trains.
Proof.
  apply (createMachine_fits_containers demo_app "Mine" "dual" demo_busy_state).
  - reflexivity.
  - vm_compute. reflexivity.
Defined.

Lemma createMachine_gives_an_unused_id_witness :
  exists gb xs,
    heap (now (final_trace (run (createMachine demo_app "Old" "single") demo_busy_state))) !! 2
      = Some (GlobalStack gb xs) /\
    stack_name gb = stack_id gb /\
    no_clash (stack_id gb) demo_busy_state /\
    in_use_by_stack demo_busy_state (stack_id gb) = false /\
    EStack 2 ∈ registry (now (final_trace (run (createMachine demo_app "Old" "single")
                                             demo_busy_state))).
Proof.
  apply (createMachine_gives_an_unused_id demo_app "Old" "single" demo_busy_state).
  - reflexivity.
  - vm_compute. reflexivity.
Defined.

(** ** More runs in the small world *)

(** The successful run with two extruders: besides the global stack it
    creates the two extruder stacks, which hold the nozzle and the
    material found for the machine. *)
Lemma createMachine_slots_are_asymmetric_witness :
  asymmetric_slots demo_app demo_state "dual" 0
    (final_trace (run (createMachine demo_app "My printer" "dual") demo_state)).
Proof.
  apply (createMachine_slots_are_asymmetric demo_app "My printer" "dual" demo_state).
  - reflexivity.
  - vm_compute. reflexivity.
Defined.

(** A preferred variant that the variant manager does not know, and a
    definition that has variants and names none. *)
Lemma preferred_variant_must_resolve_witness :
  run (createMachine demo_app "My printer" "unknown_variant") demo_state =
    (Raise (RuntimeError "Cannot find variant with definition [%s] and variant name [%s]"
              [VStr "unknown_variant"; VStr "0.8 mm"]),
     record_event (EvGetVariantNode "unknown_variant" (VStr "0.8 mm"))
       (mkTrace demo_state [])) /\
  (exists evs,
      events (now (snd (run (createMachine demo_app "My printer" "unnamed_variant")
                          demo_state)))
        = events demo_state ++ evs /\
      Forall (fun ev => forall i v, ev <> EvGetVariantNode i v) evs) /\
  exists trains gb xs,
    getMetaDataEntry demo_unnamed_variant "machine_extruder_trains" VNone = VDict trains /\
    heap (now (snd (run (createMachine demo_app "My printer" "unnamed_variant") demo_state)))
      !! 0 = Some (GlobalStack gb xs) /\
    xs.*1 = trains.*1 /\
    forall p l, (p, l) ∈ xs ->
      exists eb n,
        heap (now (snd (run (createMachine demo_app "My printer" "unnamed_variant")
                          demo_state))) !! l = Some (ExtruderStack eb n) /\
        variant eb = empty_variant_container demo_app.
Proof.
  split.
  - apply (proj1 (preferred_variant_must_resolve demo_app "My printer" "unknown_variant"
                    demo_state demo_unknown_variant [] eq_refl eq_refl)).
    reflexivity.
  - destruct (proj2 (preferred_variant_must_resolve demo_app "My printer" "unnamed_variant"
                       demo_state demo_unnamed_variant [] eq_refl eq_refl) eq_refl
                (fst (run (createMachine demo_app "My printer" "unnamed_variant") demo_state))
                (snd (run (createMachine demo_app "My printer" "unnamed_variant") demo_state)))
      as [Hev Hx].
    + by destruct (run (createMachine demo_app "My printer" "unnamed_variant") demo_state).
    + split; [exact Hev|]. apply (Hx 0); [reflexivity|vm_compute; reflexivity].
Defined.

(** The mismatch at the second position: the extruder stack of the first
    position is registered by then, with its two containers. *)
Lemma position_mismatch_raises_witness :
  run (createMachine demo_app "My printer" "late_mismatch") demo_late_state =
    (Raise (RuntimeError
              "Extruder position [%s] defined in extruder definition [%s] is not the same as in machine definition [%s] position [%s]"
              [VStr "2"; VStr "extruder_2"; VStr "late_mismatch"; VStr "1"]),
     snd (for_each [("0", "extruder_0")]
            (create_extruder demo_app "late_mismatch" 0 (empty_variant_container demo_app)
               (empty_material_container demo_app))
            (snd (prepare_machine demo_app "My printer" "late_mismatch" demo_late_mismatch
                    (mkTrace demo_late_state []))))) /\
  exists tr2 gb eb,
    heap (now tr2) !! 0 = Some (GlobalStack gb [("0", 1)]) /\
    (EStack 0 ∉ registry (now tr2)) /\
    stacks_of (added demo_late_state (now tr2)) = [1] /\
    heap (now tr2) !! 1 = Some (ExtruderStack eb (Some 0)) /\
    EInstance (userChanges eb) ∈ registry (now tr2) /\
    EInstance (definitionChanges eb) ∈ registry (now tr2).
Proof.
  destruct (position_mismatch_raises demo_app "My printer" "late_mismatch" demo_late_state
              demo_late_mismatch [] [("0", "extruder_0")] "1" "extruder_2" []
              demo_extruder_2 [] 0
              (empty_variant_container demo_app) (empty_material_container demo_app)
              (snd (prepare_machine demo_app "My printer" "late_mismatch" demo_late_mismatch
                      (mkTrace demo_late_state [])))
              (snd (for_each [("0", "extruder_0")]
                      (create_extruder demo_app "late_mismatch" 0
                         (empty_variant_container demo_app)
                         (empty_material_container demo_app))
                      (snd (prepare_machine demo_app "My printer" "late_mismatch"
                              demo_late_mismatch (mkTrace demo_late_state [])))))
              ltac:(reflexivity) ltac:(reflexivity) ltac:(reflexivity) ltac:(reflexivity)
              ltac:(reflexivity) ltac:(vm_compute; reflexivity)
              ltac:(vm_compute; reflexivity))
    as (Hrun & Hgs & gb & xs & Hg & Hfst & _ & _ & Hst & Hx).
  split; [exact Hrun|].
  destruct xs as [|[q l] [|? ?]]; [discriminate Hfst| |discriminate Hfst].
  injection Hfst as ->.
  assert (El : l = 1).
  { vm_compute in Hst. by injection Hst. }
  subst l.
  destruct (Hx "0" 1 (list_elem_of_here _ _)) as (eb & Hl & _ & _ & Hru & Hrd).
  eexists _, gb, eb. split_and!; [exact Hg|exact Hgs|exact Hst|exact Hl|exact Hru|exact Hrd].
Defined.
